(** * SPDX tools-python: the tag/value grammar engine and the relationship
    normalizer, embedded from

    - [src/parser/json/relationship_parser.py]  (module [RelationshipParser])
    - [src/spdx/parser/tagvalue/parser/tagvalue.py]  (module [TagValue])

    Python exceptions are explicit results, the parser object's attributes
    are an explicit state record, dictionaries are [gmap]s keyed by strings.
    Text is modelled as strings of code points below 256, one [ascii] for
    each code point.  On that alphabet the decimal digits that [\d] and
    [int] accept are [0] to [9], and white space ([\s], [str.strip],
    [int]) is [is_space]. *)

From Stdlib Require Import ZArith Ascii String.
From stdpp Require Import base option list strings pretty gmap.

Set Warnings "-register-all".
Open Scope string_scope.
Open Scope list_scope.

(** ** Messages

    A logger holds Python objects: plain strings, but also whole message
    lists ([logger.append(err.get_messages())] appends the list as one
    item), and f-strings that interpolate a message list.  [Fmt p l] stands
    for the string [p + repr(l)]. *)
Inductive msg : Type :=
| Text (s : string)
| Items (l : list msg)
| Fmt (prefix : string) (l : list msg).

(** ** A few [str] methods, over ASCII *)

Definition replace_char (old new : ascii) (c : ascii) : ascii :=
  if Ascii.eqb c old then new else c.

(** [s.replace(old, new)] for one-character [old] and [new]. *)
Fixpoint str_replace (old new : ascii) (s : string) : string :=
  match s with
  | EmptyString => EmptyString
  | String c s' => String (replace_char old new c) (str_replace old new s')
  end.

Definition ascii_upper (c : ascii) : ascii :=
  let n := nat_of_ascii c in
  if (97 <=? n)%nat && (n <=? 122)%nat then ascii_of_nat (n - 32) else c.

(** [s.upper()], on ASCII letters *)
Fixpoint str_upper (s : string) : string :=
  match s with
  | EmptyString => EmptyString
  | String c s' => String (ascii_upper c) (str_upper s')
  end.

(** [s.split(sep)] for a one-character separator: never empty, keeps empty
    pieces. *)
Fixpoint str_split (sep : ascii) (s : string) : list string :=
  match s with
  | EmptyString => [EmptyString]
  | String c s' =>
      if Ascii.eqb c sep then EmptyString :: str_split sep s'
      else match str_split sep s' with
           | [] => [String c EmptyString]
           | p :: ps => String c p :: ps
           end
  end.

(** [str.isspace] on one code point below 256: the white space of [\s], of
    [str.strip] and of [int], which is U+0009 to U+000D, U+001C to U+0020,
    U+0085 and U+00A0. *)
Definition is_space (c : ascii) : bool :=
  let n := nat_of_ascii c in
  ((9 <=? n)%nat && (n <=? 13)%nat) || ((28 <=? n)%nat && (n <=? 32)%nat)
  || (n =? 133)%nat || (n =? 160)%nat.

(** The decimal digits of [\d] (compiled with [re.UNICODE]) and of [int]:
    below U+0100 these are U+0030 to U+0039 and no other code point. *)
Definition is_digit (c : ascii) : bool :=
  let n := nat_of_ascii c in (48 <=? n)%nat && (n <=? 57)%nat.

(** The character class [[0-9a-f]]. *)
Definition is_lower_hex (c : ascii) : bool :=
  let n := nat_of_ascii c in
  is_digit c || ((97 <=? n)%nat && (n <=? 102)%nat).

(** The longest prefix whose characters satisfy [p], and the rest. *)
Fixpoint span (p : ascii -> bool) (s : string) : string * string :=
  match s with
  | EmptyString => (EmptyString, EmptyString)
  | String c s' =>
      if p c then let '(a, b) := span p s' in (String c a, b)
      else (EmptyString, s)
  end.

Fixpoint str_rev_onto (s acc : string) : string :=
  match s with
  | EmptyString => acc
  | String c s' => str_rev_onto s' (String c acc)
  end.

Definition str_rev (s : string) : string := str_rev_onto s EmptyString.

Definition lstrip (s : string) : string := snd (span is_space s).

(** [s.strip()] *)
Definition strip (s : string) : string := str_rev (lstrip (str_rev (lstrip s))).

Fixpoint str_forallb (p : ascii -> bool) (s : string) : bool :=
  match s with
  | EmptyString => true
  | String c s' => p c && str_forallb p s'
  end.

Fixpoint decimal_onto (s : string) (acc : Z) : Z :=
  match s with
  | EmptyString => acc
  | String c s' => decimal_onto s' (10 * acc + (Z.of_nat (nat_of_ascii c) - 48))%Z
  end.

(** [int(s)] for an unsigned decimal literal with surrounding white space;
    [None] is [ValueError].  The sources apply [int] only to the pieces of a
    value whose stripped form matched the range pattern. *)
Definition py_int (s : string) : option Z :=
  let t := strip s in
  match t with
  | EmptyString => None
  | _ => if str_forallb is_digit t then Some (decimal_onto t 0%Z) else None
  end.

(** [s.startswith(prefix)], answering the rest of [s]. *)
Fixpoint strip_prefix (prefix s : string) : option string :=
  match prefix, s with
  | EmptyString, _ => Some s
  | String a prefix', String b s' => if Ascii.eqb a b then strip_prefix prefix' s' else None
  | String _ _, EmptyString => None
  end.

(** ** Exceptions

    What [SPDXParsingError(...)] is given as its [messages]: the sources
    pass a list everywhere but in [parse_relationships]. *)
Inductive payload : Type :=
| Messages (l : list msg)
| Boolean (b : bool).

Inductive exn : Type :=
| SPDXParsingError (p : payload)
| KeyError (key : string)
| IndexError
| AttributeError (what : string)
| ValueError (what : string)
| TypeError
| ConstructorTypeErrors (messages : list msg)
| Uncaught (what : string)  (* any other exception, e.g. of a leaf parser *).

Inductive result (A : Type) : Type :=
| Ok (a : A)
| Raise (e : exn).
Arguments Ok {A} a.
Arguments Raise {A} e.

(** * The mapping-shaped path: [RelationshipParser] *)
Module RelationshipParser.

(** Scalars that the structural loader can put where an id or a type name is
    expected; [PyNone] is also what [dict.get] answers for an absent key. *)
Inductive pyval : Type :=
| PyNone
| PyStr (s : string)
| PyInt (z : Z)
| PyBool (b : bool).

(** [type(v).__name__] *)
Definition type_name (v : pyval) : string :=
  match v with
  | PyNone => "NoneType"
  | PyStr _ => "str"
  | PyInt _ => "int"
  | PyBool _ => "bool"
  end.

(** Modelled from the spec: the [RelationshipType] enumeration is declared
    outside the sources at hand.  The members the sources name are
    constructors; every other member is [OTHER_MEMBER] with its name. *)
Inductive RelationshipType : Type :=
| DESCRIBES
| DESCRIBED_BY
| CONTAINS
| CONTAINED_BY
| DEPENDENCY_OF
| OTHER_MEMBER (name : string).

#[global] Instance RelationshipType_eq_dec : EqDecision RelationshipType.
Proof. solve_decision. Defined.

(** Modelled from the spec: the [Relationship] element,
    [(spdx_element_id, relationship_type, related_spdx_element_id,
    optional comment)], a dataclass whose equality compares all four
    fields. *)
Record Relationship : Type := mkRelationship {
  spdx_element_id : string;
  relationship_type : RelationshipType;
  related_spdx_element_id : string;
  comment : option string;
}.

#[global] Instance Relationship_eq_dec : EqDecision Relationship.
Proof. solve_decision. Defined.

(** Modelled from the spec: typed construction raises one message per
    invalid field; the wording of the message is not in the sources. *)
Definition type_error (field : string) (v : pyval) : msg :=
  Text ("SetterError Relationship: type of argument " +:+ field +:+
        " must be str; got " +:+ type_name v +:+ " instead").

Definition check_str (field : string) (v : pyval) : list msg :=
  match v with
  | PyStr _ => []
  | _ => [type_error field v]
  end.

Definition check_optional_str (field : string) (v : pyval) : list msg :=
  match v with
  | PyStr _ | PyNone => []
  | _ => [type_error field v]
  end.

Definition check_relationship_type (t : option RelationshipType) : list msg :=
  match t with
  | Some _ => []
  | None => [Text "SetterError Relationship: type of argument relationship_type must be RelationshipType; got NoneType instead"]
  end.

(** Modelled from the spec: [Relationship(spdx_element_id, relationship_type,
    related_spdx_element_id, comment=None)] with its run-time type check;
    [inl l] is [raise ConstructorTypeErrors(l)]. *)
Definition Relationship_init (spdx_element_id : pyval) (relationship_type : option RelationshipType)
    (related_spdx_element_id : pyval) (comment : pyval) : list msg + Relationship :=
  match spdx_element_id, relationship_type, related_spdx_element_id, comment with
  | PyStr a, Some t, PyStr b, PyStr c => inr (mkRelationship a t b (Some c))
  | PyStr a, Some t, PyStr b, PyNone => inr (mkRelationship a t b None)
  | _, _, _, _ =>
      inl (check_str "spdx_element_id" spdx_element_id ++
           check_relationship_type relationship_type ++
           check_str "related_spdx_element_id" related_spdx_element_id ++
           check_optional_str "comment" comment)
  end.

(** Input dictionaries, as [dict.get] sees them. *)
Record relationship_dict : Type := mkRelationshipDict {
  spdxElementId : pyval;
  relatedSpdxElement : pyval;
  relationshipType : pyval;
  rd_comment : pyval;
}.

Record package_dict : Type := mkPackageDict {
  pkg_SPDXID : pyval;
  hasFiles : option (list pyval);
}.

Record file_dict : Type := mkFileDict {
  file_SPDXID : pyval;
  fileDependencies : option (list pyval);
}.

Record input_doc_dict : Type := mkInputDoc {
  relationships : option (list relationship_dict);
  documentDescribes : option (list pyval);
  SPDXID : pyval;
  packages : option (list package_dict);
  files : option (list file_dict);
}.

(** [if x:] for an optional list *)
Definition truthy {A : Type} (x : option (list A)) : option (list A) :=
  match x with
  | Some (a :: l) => Some (a :: l)
  | _ => None
  end.

(** Modelled from the spec: the error aggregator [Logger], an ordered
    append-only list.  [append_all] iterates over its argument, which
    fails on anything that is not a list. *)
Definition Logger : Type := list msg.

Definition append (logger : Logger) (m : msg) : Logger := logger ++ [m].

Definition append_all (logger : Logger) (p : payload) : result Logger :=
  match p with
  | Messages l => Ok (logger ++ l)
  | Boolean _ => Raise TypeError
  end.

Definition has_messages (logger : Logger) : bool :=
  match logger with [] => false | _ => true end.

(** Modelled from the spec: [transform_json_str_to_enum_name] (declared
    outside the sources) normalises the token text, hyphens and case. *)
Definition transform_json_str_to_enum_name (s : string) : string :=
  str_upper (str_replace "-" "_" s).

Section Parser.

(** [RelationshipType[name]]; [None] is [KeyError]. *)
Variable RelationshipType_getitem : string -> option RelationshipType.

Definition parse_relationship_type (relationship_type_str : pyval) : result RelationshipType :=
  match relationship_type_str with
  | PyStr s =>
      match RelationshipType_getitem (transform_json_str_to_enum_name s) with
      | Some t => Ok t
      | None => Raise (SPDXParsingError (Messages [Text ("RelationshipType " +:+ s +:+ " is not valid.")]))
      end
  | v => Raise (SPDXParsingError
                  (Messages [Text ("RelationshipType must be str, not " +:+ type_name v +:+ ".")]))
  end.

(** Modelled from the spec: [try_construction_raise_parsing_error]
    (declared outside the sources) turns the type errors of typed
    construction into a parsing error. *)
Definition try_construction_raise_parsing_error (r : list msg + Relationship) : result Relationship :=
  match r with
  | inl l => Raise (SPDXParsingError (Messages [Fmt "Error while constructing Relationship: " l]))
  | inr relationship => Ok relationship
  end.

(** Modelled from the spec:
    [try_parse_required_field_append_logger_when_failing] (declared outside
    the sources) logs the messages of a parsing error and answers [None]. *)
Definition try_parse_required_field_append_logger_when_failing {A : Type}
    (logger : Logger) (field : pyval) (method_to_parse : pyval -> result A)
    : result (option A * Logger) :=
  match method_to_parse field with
  | Ok a => Ok (Some a, logger)
  | Raise (SPDXParsingError p) =>
      match append_all logger p with
      | Ok logger' => Ok (None, logger')
      | Raise e => Raise e
      end
  | Raise e => Raise e
  end.

Definition parse_relationship (relationship_dict : relationship_dict) : result Relationship :=
  let spdx_element_id := spdxElementId relationship_dict in
  let related_spdx_element := relatedSpdxElement relationship_dict in
  match try_parse_required_field_append_logger_when_failing
          [] (relationshipType relationship_dict) parse_relationship_type with
  | Raise e => Raise e
  | Ok (relationship_type, logger) =>
      let relationship_comment := rd_comment relationship_dict in
      if has_messages logger
      then Raise (SPDXParsingError (Messages [Fmt "Error while parsing relationship: " logger]))
      else try_construction_raise_parsing_error
             (Relationship_init spdx_element_id relationship_type
                related_spdx_element relationship_comment)
  end.

(** The loop of [parse_relationships]: the list built so far and the local
    logger are threaded through. *)
Fixpoint parse_relationships_loop (ds : list relationship_dict)
    (relationship_list : list Relationship) (logger : Logger)
    : result (list Relationship * Logger) :=
  match ds with
  | [] => Ok (relationship_list, logger)
  | d :: ds' =>
      match parse_relationship d with
      | Ok r => parse_relationships_loop ds' (relationship_list ++ [r]) logger
      | Raise (SPDXParsingError p) =>
          match append_all logger p with
          | Ok logger' => parse_relationships_loop ds' relationship_list logger'
          | Raise e => Raise e
          end
      | Raise e => Raise e
      end
  end.

Definition parse_relationships (relationship_dicts : list relationship_dict)
    : result (list Relationship) :=
  match parse_relationships_loop relationship_dicts [] [] with
  | Ok (relationship_list, logger) =>
      if has_messages logger
      then Raise (SPDXParsingError (Boolean (has_messages logger)))
      else Ok relationship_list
  | Raise e => Raise e
  end.

End Parser.

Definition ignore_any_comments_in_relationship_list (created_relationships : list Relationship)
    : list Relationship :=
  map (fun relationship =>
         {| relationship_type := relationship_type relationship;
            related_spdx_element_id := related_spdx_element_id relationship;
            spdx_element_id := spdx_element_id relationship;
            comment := None |})
      created_relationships.

(** The class attribute [convert_relationship_types]; [None] is [KeyError]. *)
Definition convert_relationship_types (t : RelationshipType) : option RelationshipType :=
  match t with
  | DESCRIBES => Some DESCRIBED_BY
  | DESCRIBED_BY => Some DESCRIBES
  | CONTAINS => Some CONTAINED_BY
  | CONTAINED_BY => Some CONTAINS
  | _ => None
  end.

Definition convert_relationship (relationship : Relationship) : result Relationship :=
  match convert_relationship_types (relationship_type relationship) with
  | None => Raise (KeyError "relationship_type")
  | Some t =>
      Ok {| related_spdx_element_id := spdx_element_id relationship;
            spdx_element_id := related_spdx_element_id relationship;
            relationship_type := t;
            comment := comment relationship |}
  end.

Definition check_if_relationship_exists (relationship : Relationship)
    (created_relationships : list Relationship) : result bool :=
  let created_relationships_without_comment :=
    ignore_any_comments_in_relationship_list created_relationships in
  if bool_decide (relationship ∈ created_relationships_without_comment) then Ok true
  else
    match convert_relationship relationship with
    | Raise e => Raise e
    | Ok relationship_converted =>
        if bool_decide (relationship_converted ∈ created_relationships_without_comment)
        then Ok true
        else Ok false
    end.

(** One candidate edge of a describes/contains phase: built, looked up in
    [created_relationships], appended when absent.  The phase's own list
    and logger are threaded through. *)
Definition implied_edge_step (t : RelationshipType) (source target : pyval)
    (created_relationships : list Relationship)
    (acc : list Relationship * Logger) : result (list Relationship * Logger) :=
  let '(edges, logger) := acc in
  match Relationship_init source (Some t) target PyNone with
  | inl l => Ok (edges, append logger (Items l))
  | inr edge =>
      match check_if_relationship_exists edge created_relationships with
      | Raise e => Raise e
      | Ok true => Ok (edges, logger)
      | Ok false => Ok (edges ++ [edge], logger)
      end
  end.

Fixpoint parse_document_describes_loop (doc_spdx_id : pyval) (described_spdx_ids : list pyval)
    (created_relationships : list Relationship)
    (acc : list Relationship * Logger) : result (list Relationship * Logger) :=
  match described_spdx_ids with
  | [] => Ok acc
  | spdx_id :: rest =>
      match implied_edge_step DESCRIBES doc_spdx_id spdx_id created_relationships acc with
      | Raise e => Raise e
      | Ok acc' => parse_document_describes_loop doc_spdx_id rest created_relationships acc'
      end
  end.

Definition parse_document_describes (doc_spdx_id : pyval) (described_spdx_ids : list pyval)
    (created_relationships : list Relationship) : result (list Relationship) :=
  match parse_document_describes_loop doc_spdx_id described_spdx_ids created_relationships ([], []) with
  | Raise e => Raise e
  | Ok (describes_relationships, logger) =>
      if has_messages logger
      then Raise (SPDXParsingError
                    (Messages [Fmt "Error while creating describes_relationship : " logger]))
      else Ok describes_relationships
  end.

Fixpoint contained_files_loop (package_spdx_id : pyval) (contained_files : list pyval)
    (created_relationships : list Relationship)
    (acc : list Relationship * Logger) : result (list Relationship * Logger) :=
  match contained_files with
  | [] => Ok acc
  | file_spdx_id :: rest =>
      match implied_edge_step CONTAINS package_spdx_id file_spdx_id created_relationships acc with
      | Raise e => Raise e
      | Ok acc' => contained_files_loop package_spdx_id rest created_relationships acc'
      end
  end.

Fixpoint parse_has_files_loop (package_dicts : list package_dict)
    (created_relationships : list Relationship)
    (acc : list Relationship * Logger) : result (list Relationship * Logger) :=
  match package_dicts with
  | [] => Ok acc
  | package :: rest =>
      match truthy (hasFiles package) with
      | None => parse_has_files_loop rest created_relationships acc
      | Some contained_files =>
          match contained_files_loop (pkg_SPDXID package) contained_files
                  created_relationships acc with
          | Raise e => Raise e
          | Ok acc' => parse_has_files_loop rest created_relationships acc'
          end
      end
  end.

Definition parse_has_files (package_dicts : list package_dict)
    (created_relationships : list Relationship) : result (list Relationship) :=
  match parse_has_files_loop package_dicts created_relationships ([], []) with
  | Raise e => Raise e
  | Ok (contains_relationships, logger) =>
      if has_messages logger
      then Raise (SPDXParsingError
                    (Messages [Fmt "Error while creating describes_relationship : " logger]))
      else Ok contains_relationships
  end.

Fixpoint dependency_of_loop (file_spdx_id : pyval) (dependency_of : list pyval)
    (acc : list Relationship * Logger) : list Relationship * Logger :=
  match dependency_of with
  | [] => acc
  | dependency :: rest =>
      let '(edges, logger) := acc in
      match Relationship_init dependency (Some DEPENDENCY_OF) file_spdx_id PyNone with
      | inl l => dependency_of_loop file_spdx_id rest (edges, logger ++ l)
      | inr dependency_relationship =>
          dependency_of_loop file_spdx_id rest (edges ++ [dependency_relationship], logger)
      end
  end.

Fixpoint parse_file_dependencies_loop (file_dicts : list file_dict)
    (acc : list Relationship * Logger) : list Relationship * Logger :=
  match file_dicts with
  | [] => acc
  | file :: rest =>
      match truthy (fileDependencies file) with
      | None => parse_file_dependencies_loop rest acc
      | Some dependency_of =>
          parse_file_dependencies_loop rest
            (dependency_of_loop (file_SPDXID file) dependency_of acc)
      end
  end.

Definition parse_file_dependencies (file_dicts : list file_dict) : result (list Relationship) :=
  let '(dependency_relationships, logger) := parse_file_dependencies_loop file_dicts ([], []) in
  if has_messages logger
  then Raise (SPDXParsingError
                (Messages [Fmt "Error while creating dependency relationships: " logger]))
  else Ok dependency_relationships.

Definition parse_artifact_of (file_dicts : list file_dict) : list Relationship := [].

(** One [try: ... relationships_list.extend(...) except SPDXParsingError as
    err: self.logger.append_all(err.get_messages())] block. *)
Definition extend_or_log (phase : result (list Relationship))
    (st : list Relationship * Logger) : result (list Relationship * Logger) :=
  let '(relationships_list, logger) := st in
  match phase with
  | Ok l => Ok (relationships_list ++ l, logger)
  | Raise (SPDXParsingError p) =>
      match append_all logger p with
      | Ok logger' => Ok (relationships_list, logger')
      | Raise e => Raise e
      end
  | Raise e => Raise e
  end.

Section ParseAll.

Variable RelationshipType_getitem : string -> option RelationshipType.

(** [self_logger] is the parser object's logger at the time of the call
    (empty after [__init__]). *)
Definition parse_all_relationships (self_logger : Logger) (input_doc_dict : input_doc_dict)
    : result (list Relationship) :=
  let st0 : list Relationship * Logger := ([], self_logger) in
  match
    match truthy (relationships input_doc_dict) with
    | Some relationships_dicts =>
        extend_or_log (parse_relationships RelationshipType_getitem relationships_dicts) st0
    | None => Ok st0
    end
  with
  | Raise e => Raise e
  | Ok st1 =>
      let doc_spdx_id := SPDXID input_doc_dict in
      match
        match truthy (documentDescribes input_doc_dict) with
        | Some document_describes =>
            extend_or_log (parse_document_describes doc_spdx_id document_describes (fst st1)) st1
        | None => Ok st1
        end
      with
      | Raise e => Raise e
      | Ok st2 =>
          match
            match truthy (packages input_doc_dict) with
            | Some package_dicts => extend_or_log (parse_has_files package_dicts (fst st2)) st2
            | None => Ok st2
            end
          with
          | Raise e => Raise e
          | Ok st3 =>
              match
                match truthy (files input_doc_dict) with
                | Some file_dicts => extend_or_log (parse_file_dependencies file_dicts) st3
                | None => Ok st3
                end
              with
              | Raise e => Raise e
              | Ok (relationships_list, logger) =>
                  if has_messages logger
                  then Raise (SPDXParsingError (Messages logger))
                  else Ok relationships_list
              end
          end
      end
  end.

End ParseAll.

(** ** Vocabulary of the statements *)

(** The fact an edge states, comment left out. *)
Definition edge (r : Relationship) : string * RelationshipType * string :=
  (spdx_element_id r, relationship_type r, related_spdx_element_id r).

(** The same fact read in the other direction, for the two pairs of inverse
    types. *)
Definition inverse_edge (r : Relationship) : option (string * RelationshipType * string) :=
  match convert_relationship_types (relationship_type r) with
  | Some t => Some (related_spdx_element_id r, t, spdx_element_id r)
  | None => None
  end.

(** Some relationship of [created], whatever its comment, states the fact of
    [r] or its inverse. *)
Definition already_created (created : list Relationship) (r : Relationship) : bool :=
  existsb (fun r' => bool_decide (edge r' = edge r) || bool_decide (Some (edge r') = inverse_edge r))
          created.

(** Input dictionaries whose ids are strings. *)
Definition file_dict_of (f : string * list string) : file_dict :=
  mkFileDict (PyStr (fst f)) (Some (map PyStr (snd f))).

Definition package_dict_of (p : string * list string) : package_dict :=
  mkPackageDict (PyStr (fst p)) (Some (map PyStr (snd p))).

Definition implied (t : RelationshipType) (source target : string) : Relationship :=
  mkRelationship source t target None.

(** An entry whose [relationshipType] is not a member name, or not a string
    at all. *)
Definition type_fails (RelationshipType_getitem : string -> option RelationshipType)
    (d : relationship_dict) : Prop :=
  forall t, parse_relationship_type RelationshipType_getitem (relationshipType d) <> Ok t.

(** The ids of a list that are strings. *)
Definition string_ids (ids : list pyval) : list string :=
  flat_map (fun v => match v with PyStr s => [s] | _ => [] end) ids.

(** What a describes or contains phase logs for the target ids that are not
    strings: one item per such id, holding the constructor's message. *)
Definition target_errors (ids : list pyval) : list msg :=
  flat_map (fun v => match v with
                     | PyStr _ => []
                     | _ => [Items [type_error "related_spdx_element_id" v]]
                     end) ids.

(** What the dependency phase logs for the dependency ids that are not
    strings: the constructor's messages, one after the other. *)
Definition source_errors (ids : list pyval) : list msg :=
  flat_map (fun v => match v with
                     | PyStr _ => []
                     | _ => [type_error "spdx_element_id" v]
                     end) ids.

(** [None] for an absent comment. *)
Definition optional_comment (c : option string) : pyval :=
  match c with
  | Some s => PyStr s
  | None => PyNone
  end.

(** Package and file dictionaries with a string id and any entries. *)
Definition package_with (p : string * list pyval) : package_dict :=
  mkPackageDict (PyStr (fst p)) (Some (snd p)).

Definition file_with (f : string * list pyval) : file_dict :=
  mkFileDict (PyStr (fst f)) (Some (snd f)).

(** The enumeration lookup restricted to the members the sources name. *)
Definition named_members (name : string) : option RelationshipType :=
  if String.eqb name "DESCRIBES" then Some DESCRIBES
  else if String.eqb name "DESCRIBED_BY" then Some DESCRIBED_BY
  else if String.eqb name "CONTAINS" then Some CONTAINS
  else if String.eqb name "CONTAINED_BY" then Some CONTAINED_BY
  else if String.eqb name "DEPENDENCY_OF" then Some DEPENDENCY_OF
  else None.

End RelationshipParser.

(** * The tag/value path: [TagValue] *)
Module TagValue.

(** The element classes that can be "in scope". *)
Inductive ClassName : Type :=
| File
| Annotation
| Relationship
| Snippet
| Package
| ExtractedLicensingInfo.

#[global] Instance ClassName_eq_dec : EqDecision ClassName.
Proof. solve_decision. Defined.

(** [cls.__name__] *)
Definition class_name (c : ClassName) : string :=
  match c with
  | File => "File"
  | Annotation => "Annotation"
  | Relationship => "Relationship"
  | Snippet => "Snippet"
  | Package => "Package"
  | ExtractedLicensingInfo => "ExtractedLicensingInfo"
  end.

Definition CLASS_MAPPING (c : ClassName) : string :=
  match c with
  | File => "files"
  | Annotation => "annotations"
  | Relationship => "relationships"
  | Snippet => "snippets"
  | Package => "packages"
  | ExtractedLicensingInfo => "extracted_licensing_info"
  end.

Definition ELEMENT_EXPECTED_START_TAG (c : ClassName) : string :=
  match c with
  | File => "FileName"
  | Annotation => "Annotator"
  | Relationship => "Relationship"
  | Snippet => "SnippetSPDXID"
  | Package => "PackageName"
  | ExtractedLicensingInfo => "LicenseID"
  end.

(** The enumerated terminals of the three [..._value] nonterminals. *)
Module file_type_value.
Inductive t : Type :=
| SOURCE | BINARY | ARCHIVE | APPLICATION | AUDIO | IMAGE | FILETYPE_TEXT
| VIDEO | DOCUMENTATION | SPDX | OTHER.
End file_type_value.

Module primary_package_purpose_value.
Inductive t : Type :=
| APPLICATION | FRAMEWORK | LIBRARY | CONTAINER | OPERATING_SYSTEM | DEVICE
| FIRMWARE | SOURCE | ARCHIVE | FILE | INSTALL | OTHER.
End primary_package_purpose_value.

Module annotation_type_value.
Inductive t : Type :=
| OTHER | REVIEW.
End annotation_type_value.

#[global] Instance file_type_value_eq_dec : EqDecision file_type_value.t.
Proof. solve_decision. Defined.
#[global] Instance primary_package_purpose_value_eq_dec : EqDecision primary_package_purpose_value.t.
Proof. solve_decision. Defined.
#[global] Instance annotation_type_value_eq_dec : EqDecision annotation_type_value.t.
Proof. solve_decision. Defined.

(** The Python objects that end up as field values.  Objects built by the
    leaf parsers (license expressions, actors, dates, versions, checksums)
    are kept by the text the leaf parser answered. *)
Inductive atom : Type :=
| Str (s : string)
| SpdxNone
| SpdxNoAssertion
| PyNone
| Bool (b : bool)
| LicenseExpression (e : string)
| Actor (a : string)
| Datetime (d : string)
| Version (v : string)
| Checksum (c : string)
| FileType (t : file_type_value.t)
| PackagePurpose (t : primary_package_purpose_value.t)
| AnnotationType (t : annotation_type_value.t)
| RelationshipType (name : string)
| Range (startpoint endpoint : Z)
| PackageVerificationCode (value : string) (excluded_files : option (list string))
| ExternalPackageRefCategory (name : string)
| ExternalPackageRef (category reference_type locator : string) (comment : option string)
| ExternalDocumentRef (document_ref_id document_uri : string) (checksum : option string).

#[global] Instance atom_eq_dec : EqDecision atom.
Proof. solve_decision. Defined.

Inductive value : Type :=
| Atom (a : atom)
| List (l : list atom).

#[global] Instance value_eq_dec : EqDecision value.
Proof. solve_decision. Defined.

(** A finalized element: the class that was instantiated and the keyword
    arguments it was given. *)
Record Object : Type := mkObject {
  obj_class : ClassName;
  obj_fields : gmap string value;
}.

(** The assembled document: [Document] built from [elements_build]. *)
Record Document : Type := mkDocument {
  doc_creation_info : gmap string value;
  doc_elements : gmap string (list Object);
}.

(** ** External collaborators

    Leaf parsers, enumerations and typed construction live outside the
    sources; the engine is parametrised by them. *)
Record Collaborators : Type := mkCollaborators {
  (** [str_from_text(text)]: the text between the tags, or [None] *)
  str_from_text : string -> option string;
  (** [get_spdx_licensing().parse(line)] *)
  licensing_parse : string -> result string;
  (** [ActorParser.parse_actor(value)]; [inl l] is [SPDXParsingError(l)] *)
  parse_actor : string -> list msg + string;
  (** [datetime_from_str(date)] *)
  datetime_from_str : string -> result string;
  (** [Version.from_string(line)]; [inl m] is [ValueError(m)] *)
  Version_from_string : string -> string + string;
  (** [parse_checksum(logger, text)]: the messages it appends to [logger]
      and the checksum it answers, if any *)
  parse_checksum : string -> result (list msg * option string);
  (** membership in the [RelationshipType] enumeration *)
  is_RelationshipType : string -> bool;
  (** membership in the [ExternalPackageRefCategory] enumeration *)
  is_ExternalPackageRefCategory : string -> bool;
  (** [ExternalDocumentRef(id, uri, checksum)]: the type errors, if any *)
  ExternalDocumentRef_errors : string -> string -> option string -> option (list msg);
  (** [construct_or_raise_parsing_error(cls, args)] for the class of that
      name: the messages of the [SPDXParsingError] it raises, if any *)
  construction_errors : string -> gmap string value -> option (list msg);
  (** the same for [Document], whose arguments are the element lists *)
  Document_errors : gmap string value -> gmap string (list Object) -> option (list msg);
}.

(** ** Parser state *)

(** [current_element]: a dict with the keys ["class"] and ["logger"] kept
    apart from the field keys. *)
Record Element : Type := mkElement {
  el_class : option ClassName;
  el_logger : list msg;
  el_fields : gmap string value;
}.

(** [creation_info]: a dict with the key ["logger"] kept apart. *)
Record CreationInfoDict : Type := mkCreationInfoDict {
  ci_logger : list msg;
  ci_fields : gmap string value;
}.

Record Parser : Type := mkParser {
  logger : list msg;
  element_stack : list (ClassName * value);
  current_element : Element;
  creation_info : CreationInfoDict;
  elements_build : gmap string (list Object);
}.

(** [{"logger": Logger()}] *)
Definition fresh_element : Element := mkElement None [] ∅.

(** The state after [Parser.__init__]. *)
Definition init : Parser :=
  mkParser [] [] fresh_element (mkCreationInfoDict [] ∅) ∅.

Definition set_logger (l : list msg) (st : Parser) : Parser :=
  mkParser l (element_stack st) (current_element st) (creation_info st) (elements_build st).

Definition set_element_stack (s : list (ClassName * value)) (st : Parser) : Parser :=
  mkParser (logger st) s (current_element st) (creation_info st) (elements_build st).

Definition set_current_element (e : Element) (st : Parser) : Parser :=
  mkParser (logger st) (element_stack st) e (creation_info st) (elements_build st).

Definition set_creation_info (c : CreationInfoDict) (st : Parser) : Parser :=
  mkParser (logger st) (element_stack st) (current_element st) c (elements_build st).

Definition set_elements_build (b : gmap string (list Object)) (st : Parser) : Parser :=
  mkParser (logger st) (element_stack st) (current_element st) (creation_info st) b.

(** ** Actions

    A grammar action runs on the parser state and either returns or raises;
    what it had already changed when it raised stays changed. *)
Inductive outcome (A : Type) : Type :=
| Done (a : A) (st : Parser)
| Fail (e : exn) (st : Parser).
Arguments Done {A} a st.
Arguments Fail {A} e st.

Definition M (A : Type) : Type := Parser -> outcome A.

Definition ret {A : Type} (a : A) : M A := fun st => Done a st.

Definition bind {A B : Type} (m : M A) (k : A -> M B) : M B :=
  fun st => match m st with
            | Done a st' => k a st'
            | Fail e st' => Fail e st'
            end.

Definition raise {A : Type} (e : exn) : M A := fun st => Fail e st.

Definition modify (f : Parser -> Parser) : M unit := fun st => Done tt (f st).

Definition final_state {A : Type} (o : outcome A) : Parser :=
  match o with
  | Done _ st => st
  | Fail _ st => st
  end.

Declare Scope action_scope.
Delimit Scope action_scope with action.
Notation "x <- c1 ;; c2" := (bind c1 (fun x => c2))
  (at level 100, c1 at next level, right associativity) : action_scope.
Notation "c1 ;; c2" := (bind c1 (fun _ => c2))
  (at level 100, right associativity) : action_scope.
Open Scope action_scope.

(** [self.logger.append(m)] *)
Definition logger_append (m : msg) : M unit :=
  modify (fun st => set_logger (logger st ++ [m]) st).

(** [self.current_element["logger"].append(m)] *)
Definition current_logger_append (m : msg) : M unit :=
  modify (fun st =>
    let e := current_element st in
    set_current_element (mkElement (el_class e) (el_logger e ++ [m]) (el_fields e)) st).

(** [self.creation_info["logger"].append(m)] *)
Definition creation_logger_append (m : msg) : M unit :=
  modify (fun st =>
    let c := creation_info st in
    set_creation_info (mkCreationInfoDict (ci_logger c ++ [m]) (ci_fields c)) st).

(** [self.current_element[key] = v] *)
Definition current_set (key : string) (v : value) : M unit :=
  modify (fun st =>
    let e := current_element st in
    set_current_element (mkElement (el_class e) (el_logger e) (<[key := v]> (el_fields e))) st).

(** [d.setdefault(key, []).append(a)] on a field dictionary: what is stored
    under [key] must be a list. *)
Definition setdefault_append (key : string) (a : atom) (d : gmap string value)
    : option (gmap string value) :=
  match d !! key with
  | None => Some (<[key := List [a]]> d)
  | Some (List l) => Some (<[key := List (l ++ [a])]> d)
  | Some (Atom _) => None
  end.

(** [self.current_element.setdefault(key, []).append(a)] *)
Definition current_setdefault_append (key : string) (a : atom) : M unit :=
  fun st =>
    let e := current_element st in
    match setdefault_append key a (el_fields e) with
    | Some d => Done tt (set_current_element (mkElement (el_class e) (el_logger e) d) st)
    | None => Fail (AttributeError "append") st
    end.

(** [self.creation_info[key] = v] *)
Definition creation_set (key : string) (v : value) : M unit :=
  modify (fun st =>
    let c := creation_info st in
    set_creation_info (mkCreationInfoDict (ci_logger c) (<[key := v]> (ci_fields c))) st).

(** [self.creation_info.setdefault(key, []).append(a)] *)
Definition creation_setdefault_append (key : string) (a : atom) : M unit :=
  fun st =>
    let c := creation_info st in
    match setdefault_append key a (ci_fields c) with
    | Some d => Done tt (set_creation_info (mkCreationInfoDict (ci_logger c) d) st)
    | None => Fail (AttributeError "append") st
    end.

(** [self.creation_info.setdefault(key, []).append], before the argument of
    [append] is evaluated *)
Definition creation_setdefault (key : string) : M unit :=
  fun st =>
    let c := creation_info st in
    match ci_fields c !! key with
    | None =>
        Done tt (set_creation_info
                   (mkCreationInfoDict (ci_logger c) (<[key := List []]> (ci_fields c))) st)
    | Some (List _) => Done tt st
    | Some (Atom _) => Fail (AttributeError "append") st
    end.

(** The message of [check_that_current_element_matches_class_for_value]. *)
Definition not_in_scope (expected_class : ClassName) : msg :=
  Text ("Element " +:+ class_name expected_class +:+
        " is not the current element in scope, probably the expected tag to " +:+
        "start the element (" +:+ ELEMENT_EXPECTED_START_TAG expected_class +:+
        ") is missing.").

Definition check_that_current_element_matches_class_for_value (expected_class : ClassName)
    : M unit :=
  fun st =>
    match el_class (current_element st) with
    | None => logger_append (not_in_scope expected_class) st
    | Some c =>
        if bool_decide (expected_class ≠ c)
        then logger_append (not_in_scope expected_class) st
        else Done tt st
    end.

(** [try: body except SPDXParsingError as err: handler(err)] *)
Definition try_except_SPDXParsingError {A : Type} (body : M A) (handler : payload -> M A) : M A :=
  fun st =>
    match body st with
    | Fail (SPDXParsingError p) st' => handler p st'
    | o => o
    end.

(** [err.get_messages()], as the single item that [logger.append] stores. *)
Definition get_messages (p : payload) : msg :=
  match p with
  | Messages l => Items l
  | Boolean b => Text (if b then "True" else "False")
  end.

(** Modelled from the spec: [raise_parsing_error_if_logger_has_messages]
    (declared outside the sources) raises the logger's messages, tagged with
    the element kind when one is given; [Some l] is
    [raise SPDXParsingError(l)]. *)
Definition raise_parsing_error_if_logger_has_messages (logger : list msg)
    (parsed_object_name : option string) : option (list msg) :=
  match logger with
  | [] => None
  | _ :: _ =>
      match parsed_object_name with
      | Some name => Some [Fmt ("Error while parsing " +:+ name +:+ ": ") logger]
      | None => Some logger
      end
  end.

(** Modelled from the spec: the [Relationship] constructor of this package
    (declared outside the sources) takes an id, a type and an id or one of
    the two sentinels; [inl l] is [raise ConstructorTypeErrors(l)]. *)
Definition Relationship_init (spdx_element_id : value) (relationship_type : atom)
    (related_spdx_element_id : value) : list msg + Object :=
  match spdx_element_id, related_spdx_element_id with
  | Atom (Str _), Atom (Str _ | SpdxNone | SpdxNoAssertion) =>
      inr (mkObject Relationship
             (<["spdx_element_id" := spdx_element_id]>
                (<["relationship_type" := Atom relationship_type]>
                   (<["related_spdx_element_id" := related_spdx_element_id]> ∅))))
  | _, _ => inl [Text "SetterError Relationship: wrong type of argument"]
  end.

(** Dataclass equality of two [Relationship] objects: the four fields. *)
Definition relationship_fields (o : Object)
    : option value * option value * option value * option value :=
  (obj_fields o !! "spdx_element_id", obj_fields o !! "relationship_type",
   obj_fields o !! "related_spdx_element_id", obj_fields o !! "comment").

Definition Relationship_eqb (a b : Object) : bool :=
  bool_decide (relationship_fields a = relationship_fields b).

(** [d.setdefault(key, [])] on [elements_build] *)
Definition setdefault_list (key : string) (d : gmap string (list Object))
    : gmap string (list Object) :=
  match d !! key with
  | Some _ => d
  | None => <[key := []]> d
  end.

Definition check_for_preceding_package_and_build_contains_relationship : M unit :=
  fun st =>
    match el_fields (current_element st) !! "spdx_id" with
    | None => Fail (KeyError "spdx_id") st
    | Some file_spdx_id =>
        match elements_build st !! "packages" with
        | None => Done tt st
        | Some packages =>
            match last packages with
            | None => Fail IndexError st
            | Some package =>
                match obj_fields package !! "spdx_id" with
                | None => Fail (AttributeError "spdx_id") st
                | Some package_spdx_id =>
                    match Relationship_init package_spdx_id (RelationshipType "CONTAINS")
                            file_spdx_id with
                    | inl l => Fail (ConstructorTypeErrors l) st
                    | inr relationship =>
                        match elements_build st !! "relationships" with
                        | None => Fail (KeyError "relationships") st
                        | Some relationships =>
                            if existsb (Relationship_eqb relationship) relationships
                            then Done tt st
                            else Done tt
                                   (set_elements_build
                                      (<["relationships" := relationships ++ [relationship]]>
                                         (elements_build st)) st)
                        end
                    end
                end
            end
        end
    end.

Section Engine.

Variable ext : Collaborators.

(** [construct_or_raise_parsing_error(cls, args)] for an element class *)
Definition construct_or_raise_parsing_error (class_name : ClassName)
    (args_for_construction : gmap string value) : M Object :=
  match construction_errors ext (TagValue.class_name class_name) args_for_construction with
  | Some l => raise (SPDXParsingError (Messages l))
  | None => ret (mkObject class_name args_for_construction)
  end.

(** [self.elements_build.setdefault(key, []).append(construct(...))]: the
    list is looked up (and created) before the element is constructed. *)
Definition build_and_append (class_name : ClassName) : M unit :=
  modify (fun st =>
    set_elements_build (setdefault_list (CLASS_MAPPING class_name) (elements_build st)) st) ;;
  fields <- (fun st => Done (el_fields (current_element st)) st) ;;
  o <- construct_or_raise_parsing_error class_name fields ;;
  modify (fun st =>
    let key := CLASS_MAPPING class_name in
    set_elements_build
      (<[key := default [] (elements_build st !! key) ++ [o]]> (elements_build st)) st).

(** After the two [pop]s the dictionary holds the field keys only. *)
Definition construct_current_element : M unit :=
  fun st =>
    let cur := current_element st in
    match el_class cur with
    | None => Done tt (set_current_element fresh_element st)
    | Some class_name =>
        let popped := set_current_element (mkElement None [] (el_fields cur)) st in
        match raise_parsing_error_if_logger_has_messages
                (el_logger cur) (Some (TagValue.class_name class_name)) with
        | Some l =>
            (logger_append (Items l) ;;
             modify (set_current_element fresh_element)) popped
        | None =>
            (try_except_SPDXParsingError
               (build_and_append class_name ;;
                if bool_decide (class_name = File)
                then check_for_preceding_package_and_build_contains_relationship
                else ret tt)
               (fun err => logger_append (get_messages err)) ;;
             modify (set_current_element fresh_element)) popped
        end
    end.

Definition initialize_new_current_element (class_name : ClassName) : M unit :=
  modify (fun st =>
    let cur := current_element st in
    match el_class cur, el_fields cur !! "spdx_id" with
    | Some c, Some id => set_element_stack (element_stack st ++ [(c, id)]) st
    | _, _ => st
    end) ;;
  construct_current_element ;;
  modify (fun st =>
    let cur := current_element st in
    set_current_element (mkElement (Some class_name) (el_logger cur) (el_fields cur)) st).

End Engine.

(** ** Values of the grammar's value nonterminals *)

Inductive text_or_line : Type :=
| TEXT (text : string)
| LINE (line : string).

Inductive line_or_no_assertion : Type :=
| lna_LINE (line : string)
| lna_NO_ASSERTION.

Inductive line_or_no_assertion_or_none : Type :=
| lnn_text_or_line (v : text_or_line)
| lnn_NO_ASSERTION
| lnn_NONE.

Inductive license_or_no_assertion_or_none : Type :=
| lic_NO_ASSERTION
| lic_NONE
| lic_LINE (line : string).

Inductive actor_or_no_assertion : Type :=
| act_NO_ASSERTION
| act_PERSON_VALUE (v : string)
| act_ORG_VALUE (v : string).

Inductive relationship_value : Type :=
| rel_DOC_REF_ID_LINE (doc_ref_id line : string)
| rel_LINE (line : string).

(** Python's [None] for an absent optional string. *)
Definition optional_str (o : option string) : atom :=
  match o with
  | Some s => Str s
  | None => PyNone
  end.

(** Python's [None] for an absent optional checksum. *)
Definition optional_checksum (o : option string) : atom :=
  match o with
  | Some c => Checksum c
  | None => PyNone
  end.

(** ** The verification-code and range patterns *)

Fixpoint str_drop (n : nat) (s : string) : string :=
  match n, s with
  | O, _ => s
  | S n', String _ s' => str_drop n' s'
  | S _, EmptyString => EmptyString
  end.

Fixpoint str_take (n : nat) (s : string) : string :=
  match n, s with
  | S n', String c s' => String c (str_take n' s')
  | _, _ => EmptyString
  end.

(** The index of the last occurrence of [c] in [s]. *)
Fixpoint last_index (c : ascii) (s : string) : option nat :=
  match s with
  | EmptyString => None
  | String a s' =>
      match last_index c s' with
      | Some i => Some (S i)
      | None => if Ascii.eqb a c then Some O else None
      end
  end.

Definition is_not_newline (c : ascii) : bool := negb (Ascii.eqb c "010"%char).

(** [(.+)\)] at the start of [s]: the greedy [.+] stays on the first line
    and backs off to the last closing parenthesis it can leave. *)
Definition dot_plus_paren (s : string) : option string :=
  let line := fst (span is_not_newline s) in
  match last_index ")" line with
  | Some (S m) => Some (str_take (S m) line)
  | _ => None
  end.

(** [\s*(.+)\)] at the start of [r], the greedy [\s*] giving back one
    character at a time, starting from [k] characters. *)
Fixpoint excludes_group_from (k : nat) (r : string) : option string :=
  match dot_plus_paren (str_drop k r) with
  | Some g => Some g
  | None =>
      match k with
      | O => None
      | S k' => excludes_group_from k' r
      end
  end.

(** [re.compile(r"([0-9a-f]+)\s*(\(excludes:\s*(.+)\))?").match(s)]: groups
    1 and 3, or [None] when there is no match. *)
Definition verif_code_regex_match (s : string) : option (string * option string) :=
  let '(code, rest) := span is_lower_hex s in
  match code with
  | EmptyString => None
  | String _ _ =>
      match strip_prefix "(excludes:" (snd (span is_space rest)) with
      | None => Some (code, None)
      | Some r => Some (code, excludes_group_from (String.length (fst (span is_space r))) r)
      end
  end.

Definition nonempty_digits (s : string) : bool :=
  match s with
  | EmptyString => false
  | String _ _ => str_forallb is_digit s
  end.

(** [re.compile(r"^(\d+):(\d+)$", re.UNICODE).match(s)] succeeds, on text
    of code points below 256, where [\d] is [is_digit]. *)
Definition range_re_match (s : string) : bool :=
  match str_split ":" s with
  | [a; b] => nonempty_digits a && nonempty_digits b
  | _ => false
  end.

Section Handlers.

Variable ext : Collaborators.

(** *** general parsing methods *)

Definition p_unknown_tag (lineno : nat) : M unit :=
  logger_append (Text ("Unknown tag provided in line " +:+ pretty lineno)).

Definition p_text (p1 : string) : atom := optional_str (str_from_text ext p1).

Definition p_line (p1 : string) : atom := Str p1.

Definition p_no_assertion : atom := SpdxNoAssertion.

Definition p_none : atom := SpdxNone.

Definition p_license (p1 : string) : M atom :=
  match licensing_parse ext p1 with
  | Ok e => ret (LicenseExpression e)
  | Raise e => raise e
  end.

Definition p_actor_values (p1 : string) : M atom :=
  match parse_actor ext p1 with
  | inr a => ret (Actor a)
  | inl l => raise (SPDXParsingError (Messages l))
  end.

Definition reduce_text_or_line (v : text_or_line) : atom :=
  match v with
  | TEXT t => p_text t
  | LINE l => p_line l
  end.

Definition reduce_line_or_no_assertion (v : line_or_no_assertion) : atom :=
  match v with
  | lna_LINE l => p_line l
  | lna_NO_ASSERTION => p_no_assertion
  end.

Definition reduce_line_or_no_assertion_or_none (v : line_or_no_assertion_or_none) : atom :=
  match v with
  | lnn_text_or_line t => reduce_text_or_line t
  | lnn_NO_ASSERTION => p_no_assertion
  | lnn_NONE => p_none
  end.

Definition reduce_license_or_no_assertion_or_none (v : license_or_no_assertion_or_none)
    : M atom :=
  match v with
  | lic_NO_ASSERTION => ret p_no_assertion
  | lic_NONE => ret p_none
  | lic_LINE l => p_license l
  end.

Definition reduce_actor_or_no_assertion (v : actor_or_no_assertion) : M atom :=
  match v with
  | act_NO_ASSERTION => ret p_no_assertion
  | act_PERSON_VALUE a => p_actor_values a
  | act_ORG_VALUE a => p_actor_values a
  end.

Definition p_spdx_id (p2 : string) : M unit :=
  fun st =>
    match ci_fields (creation_info st) !! "spdx_id" with
    | Some _ => current_set "spdx_id" (Atom (Str p2)) st
    | None => creation_set "spdx_id" (Atom (Str p2)) st
    end.

(** *** parsing methods for creation info / document level *)

Definition p_license_list_version (p2 : string) : M unit :=
  match Version_from_string ext p2 with
  | inr v => creation_set "license_list_version" (Atom (Version v))
  | inl err => creation_logger_append (Text err)
  end.

Definition p_doc_comment (p2 : atom) : M unit :=
  creation_set "document_comment" (Atom p2).

Definition p_doc_namespace (p2 : string) : M unit :=
  creation_set "document_namespace" (Atom (Str p2)).

Definition p_data_license (p2 : string) : M unit :=
  creation_set "data_license" (Atom (Str p2)).

Definition p_doc_name (p2 : string) : M unit :=
  creation_set "name" (Atom (Str p2)).

(** [parse_checksum(logger, text)], the logger being reached through
    [log]. *)
Definition call_parse_checksum (log : msg -> M unit) (text : string) : M (option string) :=
  match parse_checksum ext text with
  | Raise e => raise e
  | Ok (messages, checksum) =>
      fold_right (fun m k => log m ;; k) (ret tt) messages ;;
      ret checksum
  end.

Definition p_external_document_ref (p2 p3 p4 : string) : M unit :=
  let document_ref_id := p2 in
  let document_uri := p3 in
  checksum <- call_parse_checksum creation_logger_append p4 ;;
  match ExternalDocumentRef_errors ext document_ref_id document_uri checksum with
  | Some l => raise (ConstructorTypeErrors l)
  | None =>
      creation_setdefault_append "external_document_refs"
        (ExternalDocumentRef document_ref_id document_uri checksum)
  end.

Definition p_spdx_version (p2 : string) : M unit :=
  creation_set "spdx_version" (Atom (Str p2)).

Definition p_creator_comment (p2 : atom) : M unit :=
  creation_set "creator_comment" (Atom p2).

(** The list is looked up (and created) before the actor is parsed. *)
Definition p_creator (p2 : string) : M unit :=
  creation_setdefault "creators" ;;
  match parse_actor ext p2 with
  | inl l => raise (SPDXParsingError (Messages l))
  | inr a => creation_setdefault_append "creators" (Actor a)
  end.

Definition p_created (p2 : string) : M unit :=
  match datetime_from_str ext p2 with
  | Raise e => raise e
  | Ok d => creation_set "created" (Atom (Datetime d))
  end.

(** *** parsing methods for extracted licensing info *)

Definition p_extracted_license_id (p2 : string) : M unit :=
  initialize_new_current_element ext ExtractedLicensingInfo ;;
  current_set "license_id" (Atom (Str p2)).

Definition p_extracted_cross_reference (p2 : string) : M unit :=
  check_that_current_element_matches_class_for_value ExtractedLicensingInfo ;;
  current_setdefault_append "cross_references" (Str p2).

Definition p_license_comment (p2 : atom) : M unit :=
  check_that_current_element_matches_class_for_value ExtractedLicensingInfo ;;
  current_set "comment" (Atom p2).

Definition p_extracted_license_name (p2 : atom) : M unit :=
  check_that_current_element_matches_class_for_value ExtractedLicensingInfo ;;
  current_set "license_name" (Atom p2).

Definition p_extracted_license_text (p2 : atom) : M unit :=
  check_that_current_element_matches_class_for_value ExtractedLicensingInfo ;;
  current_set "extracted_text" (Atom p2).

(** *** parsing methods for file *)

Definition p_file_name (p2 : string) : M unit :=
  initialize_new_current_element ext File ;;
  current_set "name" (Atom (Str p2)).

Definition p_file_contributor (p2 : string) : M unit :=
  check_that_current_element_matches_class_for_value File ;;
  current_setdefault_append "contributors" (Str p2).

Definition p_file_notice (p2 : atom) : M unit :=
  check_that_current_element_matches_class_for_value File ;;
  current_set "notice" (Atom p2).

Definition p_file_copyright_text (p2 : atom) : M unit :=
  check_that_current_element_matches_class_for_value File ;;
  current_set "copyright_text" (Atom p2).

Definition p_file_license_comment (p2 : atom) : M unit :=
  check_that_current_element_matches_class_for_value File ;;
  current_set "license_comment" (Atom p2).

Definition p_file_attribution_text (p2 : atom) : M unit :=
  check_that_current_element_matches_class_for_value File ;;
  current_setdefault_append "attribution_texts" p2.

(** [p[2] == SpdxNone() or p[2] == SpdxNoAssertion()] *)
Definition is_sentinel (p2 : atom) : bool :=
  match p2 with
  | SpdxNone | SpdxNoAssertion => true
  | _ => false
  end.

Definition p_file_license_info (p2 : atom) : M unit :=
  check_that_current_element_matches_class_for_value File ;;
  if is_sentinel p2
  then current_set "license_info_in_file" (Atom p2)
  else current_setdefault_append "license_info_in_file" p2.

Definition p_file_comment (p2 : atom) : M unit :=
  check_that_current_element_matches_class_for_value File ;;
  current_set "comment" (Atom p2).

Definition p_file_type (p2 : file_type_value.t) : M unit :=
  check_that_current_element_matches_class_for_value File ;;
  current_setdefault_append "file_type" (FileType p2).

Definition p_file_checksum (p2 : string) : M unit :=
  check_that_current_element_matches_class_for_value File ;;
  checksum <- call_parse_checksum current_logger_append p2 ;;
  current_setdefault_append "checksums" (optional_checksum checksum).

Definition p_file_license_concluded (p2 : atom) : M unit :=
  check_that_current_element_matches_class_for_value File ;;
  current_set "license_concluded" (Atom p2).

(** *** parsing methods for package *)

Definition p_package_name (p2 : string) : M unit :=
  initialize_new_current_element ext Package ;;
  current_set "name" (Atom (Str p2)).

Definition p_pkg_description (p2 : atom) : M unit :=
  check_that_current_element_matches_class_for_value Package ;;
  current_set "description" (Atom p2).

Definition p_pkg_comment (p2 : atom) : M unit :=
  check_that_current_element_matches_class_for_value Package ;;
  current_set "comment" (Atom p2).

Definition p_pkg_attribution_text (p2 : atom) : M unit :=
  check_that_current_element_matches_class_for_value Package ;;
  current_setdefault_append "attribution_texts" p2.

Definition p_pkg_summary (p2 : atom) : M unit :=
  check_that_current_element_matches_class_for_value Package ;;
  current_set "summary" (Atom p2).

Definition p_pkg_copyright_text (p2 : atom) : M unit :=
  check_that_current_element_matches_class_for_value Package ;;
  current_set "copyright_text" (Atom p2).

(** [p[4]] is present when [len(p) == 5]. *)
Definition p_pkg_external_refs (p2 : string) (p4 : option atom) : M unit :=
  check_that_current_element_matches_class_for_value Package ;;
  match str_split " " p2 with
  | [category; reference_type; locator] =>
      let comment := default PyNone p4 in
      if is_ExternalPackageRefCategory ext (str_replace "-" "_" category)
      then
        let args : gmap string value :=
          <["category" := Atom (ExternalPackageRefCategory (str_replace "-" "_" category))]>
            (<["reference_type" := Atom (Str reference_type)]>
               (<["locator" := Atom (Str locator)]>
                  (<["comment" := Atom comment]> ∅))) in
        match construction_errors ext "ExternalPackageRef" args with
        | Some l => current_logger_append (Items l)
        | None =>
            current_setdefault_append "external_references"
              (ExternalPackageRef (str_replace "-" "_" category) reference_type locator
                 (match comment with Str c => Some c | _ => None end))
        end
      else current_logger_append (Text ("Invalid ExternalPackageRefCategory: " +:+ category))
  | _ => raise (ValueError "unpack")
  end.

Definition p_pkg_license_comment (p2 : atom) : M unit :=
  check_that_current_element_matches_class_for_value Package ;;
  current_set "license_comment" (Atom p2).

Definition p_pkg_license_declared (p2 : atom) : M unit :=
  check_that_current_element_matches_class_for_value Package ;;
  current_set "license_declared" (Atom p2).

Definition p_pkg_license_info_from_file (p2 : atom) : M unit :=
  check_that_current_element_matches_class_for_value Package ;;
  if is_sentinel p2
  then current_set "license_info_from_files" (Atom p2)
  else current_setdefault_append "license_info_from_files" p2.

Definition p_pkg_license_concluded (p2 : atom) : M unit :=
  check_that_current_element_matches_class_for_value Package ;;
  current_set "license_concluded" (Atom p2).

Definition p_pkg_source_info (p2 : atom) : M unit :=
  check_that_current_element_matches_class_for_value Package ;;
  current_set "source_info" (Atom p2).

Definition p_pkg_checksum (p2 : string) : M unit :=
  check_that_current_element_matches_class_for_value Package ;;
  checksum <- call_parse_checksum current_logger_append p2 ;;
  current_setdefault_append "checksums" (optional_checksum checksum).

Definition p_pkg_verification_code (p2 : string) : M unit :=
  check_that_current_element_matches_class_for_value Package ;;
  match verif_code_regex_match p2 with
  | None => raise (AttributeError "group")
  | Some (value, exc_files) =>
      let excluded_files :=
        match exc_files with
        | Some g => Some (str_split "," g)
        | None => None
        end in
      current_set "verification_code" (Atom (PackageVerificationCode value excluded_files))
  end.

Definition p_pkg_homepage (p2 : atom) : M unit :=
  check_that_current_element_matches_class_for_value Package ;;
  current_set "homepage" (Atom p2).

Definition p_pkg_download_location (p2 : atom) : M unit :=
  check_that_current_element_matches_class_for_value Package ;;
  current_set "download_location" (Atom p2).

Definition p_pkg_files_analyzed (p2 : string) : M unit :=
  check_that_current_element_matches_class_for_value Package ;;
  (if String.eqb p2 "false" || String.eqb p2 "False"
   then current_set "files_analyzed" (Atom (Bool false))
   else ret tt) ;;
  (if String.eqb p2 "true" || String.eqb p2 "True"
   then current_set "files_analyzed" (Atom (Bool true))
   else ret tt).

Definition p_pkg_originator (p2 : atom) : M unit :=
  check_that_current_element_matches_class_for_value Package ;;
  current_set "originator" (Atom p2).

Definition p_pkg_supplier (p2 : atom) : M unit :=
  check_that_current_element_matches_class_for_value Package ;;
  current_set "supplier" (Atom p2).

Definition p_pkg_file_name (p2 : string) : M unit :=
  check_that_current_element_matches_class_for_value Package ;;
  current_set "file_name" (Atom (Str p2)).

Definition p_package_version (p2 : string) : M unit :=
  check_that_current_element_matches_class_for_value Package ;;
  current_set "version" (Atom (Str p2)).

Definition p_primary_package_purpose (p2 : primary_package_purpose_value.t) : M unit :=
  check_that_current_element_matches_class_for_value Package ;;
  current_set "primary_package_purpose" (Atom (PackagePurpose p2)).

(** [self.current_element[key] = datetime_from_str(p[2])] *)
Definition current_set_date (key : string) (p2 : string) : M unit :=
  match datetime_from_str ext p2 with
  | Raise e => raise e
  | Ok d => current_set key (Atom (Datetime d))
  end.

Definition p_built_date (p2 : string) : M unit :=
  check_that_current_element_matches_class_for_value Package ;;
  current_set_date "built_date" p2.

Definition p_release_date (p2 : string) : M unit :=
  check_that_current_element_matches_class_for_value Package ;;
  current_set_date "release_date" p2.

Definition p_valid_until_date (p2 : string) : M unit :=
  check_that_current_element_matches_class_for_value Package ;;
  current_set_date "valid_until_date" p2.

(** *** parsing methods for snippet *)

Definition p_snippet_spdx_id (p2 : string) : M unit :=
  initialize_new_current_element ext Snippet ;;
  current_set "spdx_id" (Atom (Str p2)).

Definition p_snippet_name (p2 : string) : M unit :=
  check_that_current_element_matches_class_for_value Snippet ;;
  current_set "name" (Atom (Str p2)).

Definition p_snippet_comment (p2 : atom) : M unit :=
  check_that_current_element_matches_class_for_value Snippet ;;
  current_set "comment" (Atom p2).

Definition p_snippet_attribution_text (p2 : atom) : M unit :=
  check_that_current_element_matches_class_for_value Snippet ;;
  current_setdefault_append "attribution_texts" p2.

Definition p_snippet_copyright_text (p2 : atom) : M unit :=
  check_that_current_element_matches_class_for_value Snippet ;;
  current_set "copyright_text" (Atom p2).

Definition p_snippet_license_comment (p2 : atom) : M unit :=
  check_that_current_element_matches_class_for_value Snippet ;;
  current_set "license_comment" (Atom p2).

Definition p_snippet_from_file_spdxid (p2 : string) : M unit :=
  check_that_current_element_matches_class_for_value Snippet ;;
  current_set "file_spdx_id" (Atom (Str p2)).

Definition p_snippet_concluded_license (p2 : atom) : M unit :=
  check_that_current_element_matches_class_for_value Snippet ;;
  current_set "license_concluded" (Atom p2).

Definition p_snippet_license_info (p2 : atom) : M unit :=
  check_that_current_element_matches_class_for_value Snippet ;;
  if is_sentinel p2
  then current_set "license_info_in_snippet" (Atom p2)
  else current_setdefault_append "license_info_in_snippet" p2.

(** The two range handlers: [endpoint_of] picks the piece that holds the end
    point out of [p[2].split(":")]. *)
Definition set_range (key message : string) (endpoint_of : list string -> option string)
    (p2 : string) : M unit :=
  if range_re_match (strip p2)
  then
    let pieces := str_split ":" p2 in
    match head pieces, endpoint_of pieces with
    | Some a, Some b =>
        match py_int a, py_int b with
        | Some startpoint, Some endpoint =>
            current_set key (Atom (Range startpoint endpoint))
        | _, _ => raise (ValueError "int")
        end
    | _, _ => raise IndexError
    end
  else current_logger_append (Text message).

Definition p_snippet_byte_range (p2 : string) : M unit :=
  check_that_current_element_matches_class_for_value Snippet ;;
  set_range "byte_range" "Value for SnippetByteRange doesn't match valid range pattern."
    last p2.

Definition p_snippet_line_range (p2 : string) : M unit :=
  check_that_current_element_matches_class_for_value Snippet ;;
  set_range "line_range" "Value for SnippetLineRange doesn't match valid range pattern."
    (fun pieces => pieces !! 1%nat) p2.

(** *** parsing methods for annotation *)

(** [p2] is absent for the alternatives of one symbol, where [p[2]] is out
    of range. *)
Definition p_annotator (p2 : option string) : M unit :=
  initialize_new_current_element ext Annotation ;;
  match p2 with
  | None => raise IndexError
  | Some v =>
      match parse_actor ext v with
      | inr a => current_set "annotator" (Atom (Actor a))
      | inl l => current_logger_append (Items l)
      end
  end.

Definition p_annotation_date (p2 : string) : M unit :=
  check_that_current_element_matches_class_for_value Annotation ;;
  current_set_date "annotation_date" p2.

Definition p_annotation_comment (p2 : atom) : M unit :=
  check_that_current_element_matches_class_for_value Annotation ;;
  current_set "annotation_comment" (Atom p2).

Definition p_annotation_type (p2 : annotation_type_value.t) : M unit :=
  check_that_current_element_matches_class_for_value Annotation ;;
  current_set "annotation_type" (Atom (AnnotationType p2)).

Definition p_annotation_spdx_id (p2 : string) : M unit :=
  current_set "spdx_id" (Atom (Str p2)).

(** *** parsing methods for relationship *)

Definition p_relationship (p2 : string) (p4 : option atom) (lineno : nat) : M unit :=
  initialize_new_current_element ext Relationship ;;
  match str_split " " p2 with
  | [spdx_element_id; relationship_type; related_spdx_element_id] =>
      (if is_RelationshipType ext relationship_type
       then current_set "relationship_type" (Atom (RelationshipType relationship_type))
       else current_logger_append
              (Text ("Invalid RelationshipType " +:+ relationship_type +:+ ". Line: " +:+
                     pretty lineno))) ;;
      let related :=
        if String.eqb related_spdx_element_id "NONE" then SpdxNone
        else if String.eqb related_spdx_element_id "NOASSERTION" then SpdxNoAssertion
        else Str related_spdx_element_id in
      current_set "related_spdx_element_id" (Atom related) ;;
      current_set "spdx_element_id" (Atom (Str spdx_element_id)) ;;
      match p4 with
      | Some comment => current_set "comment" (Atom comment)
      | None => ret tt
      end
  | _ =>
      current_logger_append
        (Text ("Relationship couldn't be split in spdx_element_id, relationship_type and " +:+
               "related_spdx_element. Line: " +:+ pretty lineno))
  end.

Definition p_relationship_value_with_doc_ref (p1 p2 : string) : string :=
  p1 +:+ ":" +:+ p2.

Definition p_relationship_value_without_doc_ref (p1 : string) : string := p1.

Definition reduce_relationship_value (v : relationship_value) : string :=
  match v with
  | rel_DOC_REF_ID_LINE d l => p_relationship_value_with_doc_ref d l
  | rel_LINE l => p_relationship_value_without_doc_ref l
  end.

(** *** the error productions *)

Definition p_license_list_version_error (lineno : nat) : M unit :=
  creation_logger_append
    (Text ("Error while parsing LicenseListVersion: Token did not match specified grammar " +:+
           "rule. Line: " +:+ pretty lineno)).

Definition p_doc_comment_error (lineno : nat) : M unit :=
  creation_logger_append
    (Text ("Error while parsing DocumentComment: Token did not match specified grammar " +:+
           "rule. Line: " +:+ pretty lineno)).

Definition p_doc_namespace_error (lineno : nat) : M unit :=
  creation_logger_append
    (Text ("Error while parsing DocumentNamespace: Token did not match specified grammar " +:+
           "rule. Line: " +:+ pretty lineno)).

Definition p_data_license_error (lineno : nat) : M unit :=
  creation_logger_append
    (Text ("Error while parsing DataLicense: Token did not match specified grammar rule. " +:+
           "Line: " +:+ pretty lineno)).

Definition p_doc_name_error (lineno : nat) : M unit :=
  creation_logger_append
    (Text ("Error while parsing DocumentName: Token did not match specified grammar rule. " +:+
           "Line: " +:+ pretty lineno)).

Definition p_external_document_ref_error (lineno : nat) : M unit :=
  creation_logger_append
    (Text ("Error while parsing ExternalDocumentRef: Token did not match specified " +:+
           "grammar rule. Line: " +:+ pretty lineno)).

Definition p_spdx_version_error (lineno : nat) : M unit :=
  creation_logger_append
    (Text ("Error while parsing SPDXVersion: Token did not match specified grammar rule. " +:+
           "Line: " +:+ pretty lineno)).

Definition p_creator_comment_error (lineno : nat) : M unit :=
  creation_logger_append
    (Text ("Error while parsing CreatorComment: Token did not match specified grammar " +:+
           "rule. Line: " +:+ pretty lineno)).

Definition p_creator_error (lineno : nat) : M unit :=
  creation_logger_append
    (Text ("Error while parsing Creator: Token did not match specified grammar rule. " +:+
           "Line: " +:+ pretty lineno)).

Definition p_created_error (lineno : nat) : M unit :=
  creation_logger_append
    (Text ("Error while parsing Created: Token did not match specified grammar rule. " +:+
           "Line: " +:+ pretty lineno)).

Definition p_extracted_license_id_error (lineno : nat) : M unit :=
  current_logger_append
    (Text ("Error while parsing LicenseID: Token did not match specified grammar rule. " +:+
           "Line: " +:+ pretty lineno)).

Definition p_extracted_cross_reference_error (lineno : nat) : M unit :=
  current_logger_append
    (Text ("Error while parsing LicenseCrossReference: Token did not match specified " +:+
           "grammar rule. Line: " +:+ pretty lineno)).

Definition p_license_comment_error (lineno : nat) : M unit :=
  current_logger_append
    (Text ("Error while parsing LicenseComment: Token did not match specified grammar " +:+
           "rule. Line: " +:+ pretty lineno)).

Definition p_extracted_license_name_error (lineno : nat) : M unit :=
  current_logger_append
    (Text ("Error while parsing LicenseName: Token did not match specified grammar rule. " +:+
           "Line: " +:+ pretty lineno)).

Definition p_extracted_license_text_error (lineno : nat) : M unit :=
  current_logger_append
    (Text ("Error while parsing ExtractedText: Token did not match specified grammar " +:+
           "rule. Line: " +:+ pretty lineno)).

Definition p_file_name_error (p1 : string) (lineno : nat) : M unit :=
  initialize_new_current_element ext File ;;
  current_logger_append
    (Text ("Error while parsing " +:+ p1 +:+
           ": Token did not match specified grammar rule. Line: " +:+ pretty lineno)).

Definition p_file_contributor_error (lineno : nat) : M unit :=
  current_logger_append
    (Text ("Error while parsing FileContributor: Token did not match specified grammar " +:+
           "rule. Line: " +:+ pretty lineno)).

Definition p_file_notice_error (lineno : nat) : M unit :=
  current_logger_append
    (Text ("Error while parsing FileNotice: Token did not match specified grammar rule. " +:+
           "Line: " +:+ pretty lineno)).

Definition p_file_copyright_text_error (lineno : nat) : M unit :=
  current_logger_append
    (Text ("Error while parsing FileCopyrightText: Token did not match specified grammar " +:+
           "rule. Line: " +:+ pretty lineno)).

Definition p_file_license_comment_error (lineno : nat) : M unit :=
  current_logger_append
    (Text ("Error while parsing LicenseComments in file: Token did not match specified " +:+
           "grammar rule. Line: " +:+ pretty lineno)).

Definition p_file_attribution_text_error (lineno : nat) : M unit :=
  current_logger_append
    (Text ("Error while parsing FileAttributionText: Token did not match specified " +:+
           "grammar rule. Line: " +:+ pretty lineno)).

Definition p_file_license_info_error (lineno : nat) : M unit :=
  current_logger_append
    (Text ("Error while parsing LicenseInfoInFile: Token did not match specified grammar " +:+
           "rule. Line: " +:+ pretty lineno)).

Definition p_file_comment_error (lineno : nat) : M unit :=
  current_logger_append
    (Text ("Error while parsing FileComment: Token did not match specified grammar rule. " +:+
           "Line: " +:+ pretty lineno)).

Definition p_file_type_error (lineno : nat) : M unit :=
  current_logger_append
    (Text ("Error while parsing FileType: Token did not match any of the valid values. " +:+
           "Line: " +:+ pretty lineno)).

Definition p_file_checksum_error (lineno : nat) : M unit :=
  current_logger_append
    (Text ("Error while parsing Checksum in file: Token did not match specified grammar " +:+
           "rule. Line: " +:+ pretty lineno)).

Definition p_file_license_concluded_error (lineno : nat) : M unit :=
  current_logger_append
    (Text ("Error while parsing LicenseConcluded in file: Token did not match specified " +:+
           "grammar rule. Line: " +:+ pretty lineno)).

Definition p_package_name_error (p1 : string) (lineno : nat) : M unit :=
  initialize_new_current_element ext Package ;;
  current_logger_append
    (Text ("Error while parsing " +:+ p1 +:+
           ": Token did not match specified grammar rule. Line: " +:+ pretty lineno)).

Definition p_pkg_description_error (lineno : nat) : M unit :=
  current_logger_append
    (Text ("Error while parsing PackageDescription: Token did not match specified grammar " +:+
           "rule. Line: " +:+ pretty lineno)).

Definition p_pkg_comment_error (lineno : nat) : M unit :=
  current_logger_append
    (Text ("Error while parsing PackageComment: Token did not match specified grammar " +:+
           "rule. Line: " +:+ pretty lineno)).

Definition p_pkg_attribution_text_error (lineno : nat) : M unit :=
  current_logger_append
    (Text ("Error while parsing PackageAttributionText: Token did not match specified " +:+
           "grammar rule. Line: " +:+ pretty lineno)).

Definition p_pkg_summary_error (lineno : nat) : M unit :=
  current_logger_append
    (Text ("Error while parsing PackageSummary: Token did not match specified grammar " +:+
           "rule. Line: " +:+ pretty lineno)).

Definition p_pkg_copyright_text_error (lineno : nat) : M unit :=
  current_logger_append
    (Text ("Error while parsing PackageCopyrightText: Token did not match specified " +:+
           "grammar rule. Line: " +:+ pretty lineno)).

Definition p_pkg_external_refs_error (lineno : nat) : M unit :=
  current_logger_append
    (Text ("Error while parsing ExternalRef in package: Token did not match specified " +:+
           "grammar rule. Line: " +:+ pretty lineno)).

Definition p_pkg_license_comment_error (lineno : nat) : M unit :=
  current_logger_append
    (Text ("Error while parsing PackageLicenseComments: Token did not match specified " +:+
           "grammar rule. Line: " +:+ pretty lineno)).

Definition p_pkg_license_declared_error (lineno : nat) : M unit :=
  current_logger_append
    (Text ("Error while parsing LicenseDeclared in package: Token did not match specified " +:+
           "grammar rule. Line: " +:+ pretty lineno)).

Definition p_pkg_license_info_from_file_error (lineno : nat) : M unit :=
  current_logger_append
    (Text ("Error while parsing LicenseInfoFromFiles in package: Token did not match " +:+
           "specified grammar rule. Line: " +:+ pretty lineno)).

Definition p_pkg_license_concluded_error (lineno : nat) : M unit :=
  current_logger_append
    (Text ("Error while parsing LicenseConcluded in package: Token did not match " +:+
           "specified grammar rule. Line: " +:+ pretty lineno)).

Definition p_pkg_source_info_error (lineno : nat) : M unit :=
  current_logger_append
    (Text ("Error while parsing PackageSourceInfo: Token did not match specified grammar " +:+
           "rule. Line: " +:+ pretty lineno)).

Definition p_pkg_checksum_error (lineno : nat) : M unit :=
  current_logger_append
    (Text ("Error while parsing PackageChecksum: Token did not match specified grammar " +:+
           "rule. Line: " +:+ pretty lineno)).

Definition p_pkg_verification_code_error (lineno : nat) : M unit :=
  current_logger_append
    (Text ("Error while parsing PackageVerificationCode: Token did not match specified " +:+
           "grammar rule. Line: " +:+ pretty lineno)).

Definition p_pkg_homepage_error (lineno : nat) : M unit :=
  current_logger_append
    (Text ("Error while parsing PackageHomePage: Token did not match specified grammar " +:+
           "rule. Line: " +:+ pretty lineno)).

Definition p_pkg_download_location_error (lineno : nat) : M unit :=
  current_logger_append
    (Text ("Error while parsing PackageDownloadLocation: Token did not match specified " +:+
           "grammar rule. Line: " +:+ pretty lineno)).

Definition p_pkg_files_analyzed_error (lineno : nat) : M unit :=
  current_logger_append
    (Text ("Error while parsing FilesAnalyzed in package: Token did not match specified " +:+
           "grammar rule. Line: " +:+ pretty lineno)).

Definition p_pkg_originator_error (lineno : nat) : M unit :=
  current_logger_append
    (Text ("Error while parsing PackageOriginator: Token did not match specified grammar " +:+
           "rule. Line: " +:+ pretty lineno)).

Definition p_pkg_supplier_error (lineno : nat) : M unit :=
  current_logger_append
    (Text ("Error while parsing PackageSupplier: Token did not match specified grammar " +:+
           "rule. Line: " +:+ pretty lineno)).

Definition p_pkg_file_name_error (lineno : nat) : M unit :=
  current_logger_append
    (Text ("Error while parsing PackageFileName: Token did not match specified grammar " +:+
           "rule. Line: " +:+ pretty lineno)).

Definition p_package_version_error (lineno : nat) : M unit :=
  current_logger_append
    (Text ("Error while parsing PackageVersion: Token did not match specified grammar " +:+
           "rule. Line: " +:+ pretty lineno)).

Definition p_primary_package_purpose_error (lineno : nat) : M unit :=
  current_logger_append
    (Text ("Error while parsing PrimaryPackagePurpose: Token did not match specified " +:+
           "grammar rule. Line: " +:+ pretty lineno)).

Definition p_built_date_error (lineno : nat) : M unit :=
  current_logger_append
    (Text ("Error while parsing BuiltDate: Token did not match specified grammar rule. " +:+
           "Line: " +:+ pretty lineno)).

Definition p_release_date_error (lineno : nat) : M unit :=
  current_logger_append
    (Text ("Error while parsing ReleaseDate: Token did not match specified grammar rule. " +:+
           "Line: " +:+ pretty lineno)).

Definition p_valid_until_date_error (lineno : nat) : M unit :=
  current_logger_append
    (Text ("Error while parsing ValidUntilDate: Token did not match specified grammar " +:+
           "rule. Line: " +:+ pretty lineno)).

Definition p_snippet_spdx_id_error (lineno : nat) : M unit :=
  initialize_new_current_element ext Snippet ;;
  current_logger_append
    (Text ("Error while parsing SnippetSPDXID: Token did not match specified grammar " +:+
           "rule. Line: " +:+ pretty lineno)).

Definition p_snippet_name_error (lineno : nat) : M unit :=
  current_logger_append
    (Text ("Error while parsing SnippetName: Token did not match specified grammar rule. " +:+
           "Line: " +:+ pretty lineno)).

Definition p_snippet_comment_error (lineno : nat) : M unit :=
  current_logger_append
    (Text ("Error while parsing SnippetComment: Token did not match specified grammar " +:+
           "rule. Line: " +:+ pretty lineno)).

Definition p_snippet_attribution_text_error (lineno : nat) : M unit :=
  current_logger_append
    (Text ("Error while parsing SnippetAttributionText: Token did not match specified " +:+
           "grammar rule. Line: " +:+ pretty lineno)).

Definition p_snippet_copyright_text_error (lineno : nat) : M unit :=
  current_logger_append
    (Text ("Error while parsing SnippetCopyrightText: Token did not match specified " +:+
           "grammar rule. Line: " +:+ pretty lineno)).

Definition p_snippet_license_comment_error (lineno : nat) : M unit :=
  current_logger_append
    (Text ("Error while parsing SnippetLicenseComments: Token did not match specified " +:+
           "grammar rule. Line: " +:+ pretty lineno)).

Definition p_snippet_from_file_spdxid_error (lineno : nat) : M unit :=
  current_logger_append
    (Text ("Error while parsing SnippetFromFileSPDXID: Token did not match specified " +:+
           "grammar rule. Line: " +:+ pretty lineno)).

Definition p_snippet_concluded_license_error (lineno : nat) : M unit :=
  current_logger_append
    (Text ("Error while parsing SnippetLicenseConcluded: Token did not match specified " +:+
           "grammar rule. Line: " +:+ pretty lineno)).

Definition p_snippet_license_info_error (lineno : nat) : M unit :=
  current_logger_append
    (Text ("Error while parsing LicenseInfoInSnippet: Token did not match specified " +:+
           "grammar rule. Line: " +:+ pretty lineno)).

Definition p_snippet_byte_range_error (lineno : nat) : M unit :=
  current_logger_append
    (Text ("Error while parsing SnippetByteRange: Token did not match specified grammar " +:+
           "rule. Line: " +:+ pretty lineno)).

Definition p_snippet_line_range_error (lineno : nat) : M unit :=
  current_logger_append
    (Text ("Error while parsing SnippetLineRange: Token did not match specified grammar " +:+
           "rule. Line: " +:+ pretty lineno)).

Definition p_annotator_error (p1 : string) (lineno : nat) : M unit :=
  initialize_new_current_element ext Annotation ;;
  current_logger_append
    (Text ("Error while parsing " +:+ p1 +:+
           ": Token did not match specified grammar rule. Line: " +:+ pretty lineno)).

Definition p_annotation_date_error (lineno : nat) : M unit :=
  current_logger_append
    (Text ("Error while parsing AnnotationDate: Token did not match specified grammar " +:+
           "rule. Line: " +:+ pretty lineno)).

Definition p_annotation_comment_error (lineno : nat) : M unit :=
  current_logger_append
    (Text ("Error while parsing AnnotationComment: Token did not match specified grammar " +:+
           "rule. Line: " +:+ pretty lineno)).

Definition p_annotation_type_error (lineno : nat) : M unit :=
  current_logger_append
    (Text ("Error while parsing AnnotationType: Token did not match specified grammar " +:+
           "rule. Line: " +:+ pretty lineno)).

Definition p_annotation_spdx_id_error (lineno : nat) : M unit :=
  current_logger_append
    (Text ("Error while parsing SPDXREF in annotation: Token did not match specified " +:+
           "grammar rule. Line: " +:+ pretty lineno)).

Definition p_relationship_error (lineno : nat) : M unit :=
  initialize_new_current_element ext Relationship ;;
  current_logger_append
    (Text ("Error while parsing Relationship: Token did not match specified grammar rule. " +:+
           "Line: " +:+ pretty lineno)).

End Handlers.

(** ** The reductions of [attrib]

    One constructor for each production of an [attrib] alternative, with the
    values of its right-hand side; [X_error] is the production [X : TAG error],
    with the line number (and, where the action reads it, the text) of the
    tag.  The lexer and the LR driver are outside the sources. *)
Inductive attrib : Type :=
(* document level *)
| unknown_tag (lineno : nat)
| spdx_id (line : string)
| lics_list_ver (line : string)
| lics_list_ver_error (lineno : nat)
| doc_comment (v : text_or_line)
| doc_comment_error (lineno : nat)
| doc_namespace (line : string)
| doc_namespace_error (lineno : nat)
| data_lics (line : string)
| data_lics_error (lineno : nat)
| doc_name (line : string)
| doc_name_error (lineno : nat)
| ext_doc_ref (doc_ref_id : string) (doc_uri : string) (checksum : string)
| ext_doc_ref_error (lineno : nat)
| spdx_version (line : string)
| spdx_version_error (lineno : nat)
| creator_comment (v : text_or_line)
| creator_comment_error (lineno : nat)
| creator (actor : string)
| creator_error (lineno : nat)
| created (date : string)
| created_error (lineno : nat)
(* extracted licensing info *)
| extr_lic_id (line : string)
| extr_lic_id_error (lineno : nat)
| lic_xref (line : string)
| lic_xref_error (lineno : nat)
| lic_comment (v : text_or_line)
| lic_comment_error (lineno : nat)
| extr_lic_name (v : line_or_no_assertion)
| extr_lic_name_error (lineno : nat)
| extr_lic_text (v : text_or_line)
| extr_lic_text_error (lineno : nat)
(* file *)
| file_name (line : string)
| file_name_error (p1 : string) (lineno : nat)
| file_contrib (line : string)
| file_contrib_error (lineno : nat)
| file_notice (v : text_or_line)
| file_notice_error (lineno : nat)
| file_cr_text (v : line_or_no_assertion_or_none)
| file_cr_text_error (lineno : nat)
| file_lics_comment (v : text_or_line)
| file_lics_comment_error (lineno : nat)
| file_attribution_text (v : text_or_line)
| file_attribution_text_error (lineno : nat)
| file_lics_info (v : license_or_no_assertion_or_none)
| file_lics_info_error (lineno : nat)
| file_comment (v : text_or_line)
| file_comment_error (lineno : nat)
| file_type (v : file_type_value.t)
| file_type_error (lineno : nat)
| file_checksum (checksum : string)
| file_checksum_error (lineno : nat)
| file_conc (v : license_or_no_assertion_or_none)
| file_conc_error (lineno : nat)
(* package *)
| package_name (line : string)
| package_name_error (p1 : string) (lineno : nat)
| pkg_desc (v : text_or_line)
| pkg_desc_error (lineno : nat)
| pkg_comment (v : text_or_line)
| pkg_comment_error (lineno : nat)
| pkg_attribution_text (v : text_or_line)
| pkg_attribution_text_error (lineno : nat)
| pkg_summary (v : text_or_line)
| pkg_summary_error (lineno : nat)
| pkg_cr_text (v : line_or_no_assertion_or_none)
| pkg_cr_text_error (lineno : nat)
| pkg_ext_ref (line : string) (comment : option text_or_line)
| pkg_ext_ref_error (lineno : nat)
| pkg_lic_comment (v : text_or_line)
| pkg_lic_comment_error (lineno : nat)
| pkg_lic_decl (v : license_or_no_assertion_or_none)
| pkg_lic_decl_error (lineno : nat)
| pkg_lic_ff (v : license_or_no_assertion_or_none)
| pkg_lic_ff_error (lineno : nat)
| pkg_lic_conc (v : license_or_no_assertion_or_none)
| pkg_lic_conc_error (lineno : nat)
| pkg_src_info (v : text_or_line)
| pkg_src_info_error (lineno : nat)
| pkg_checksum (checksum : string)
| pkg_checksum_error (lineno : nat)
| pkg_verif (line : string)
| pkg_verif_error (lineno : nat)
| pkg_home (v : line_or_no_assertion_or_none)
| pkg_home_error (lineno : nat)
| pkg_down_location (v : line_or_no_assertion_or_none)
| pkg_down_location_error (lineno : nat)
| pkg_files_analyzed (line : string)
| pkg_files_analyzed_error (lineno : nat)
| pkg_orig (v : actor_or_no_assertion)
| pkg_orig_error (lineno : nat)
| pkg_supplier (v : actor_or_no_assertion)
| pkg_supplier_error (lineno : nat)
| pkg_file_name (line : string)
| pkg_file_name_error (lineno : nat)
| package_version (line : string)
| package_version_error (lineno : nat)
| primary_package_purpose (v : primary_package_purpose_value.t)
| primary_package_purpose_error (lineno : nat)
| built_date (date : string)
| built_date_error (lineno : nat)
| release_date (date : string)
| release_date_error (lineno : nat)
| valid_until_date (date : string)
| valid_until_date_error (lineno : nat)
(* snippet *)
| snip_spdx_id (line : string)
| snip_spdx_id_error (lineno : nat)
| snip_name (line : string)
| snip_name_error (lineno : nat)
| snip_comment (v : text_or_line)
| snip_comment_error (lineno : nat)
| snippet_attribution_text (v : text_or_line)
| snippet_attribution_text_error (lineno : nat)
| snip_cr_text (v : line_or_no_assertion_or_none)
| snip_cr_text_error (lineno : nat)
| snip_lic_comment (v : text_or_line)
| snip_lic_comment_error (lineno : nat)
| snip_file_spdx_id (line : string)
| snip_file_spdx_id_error (lineno : nat)
| snip_lics_conc (v : license_or_no_assertion_or_none)
| snip_lics_conc_error (lineno : nat)
| snip_lics_info (v : license_or_no_assertion_or_none)
| snip_lics_info_error (lineno : nat)
| snip_byte_range (line : string)
| snip_byte_range_error (lineno : nat)
| snip_line_range (line : string)
| snip_line_range_error (lineno : nat)
(* annotation *)
| annotator (person : string)
| annotator_error (p1 : string) (lineno : nat)
| annotator_TOOL_VALUE (tool : string)
| annotator_ORG_VALUE (org : string)
| annotation_date (date : string)
| annotation_date_error (lineno : nat)
| annotation_comment (v : text_or_line)
| annotation_comment_error (lineno : nat)
| annotation_type (v : annotation_type_value.t)
| annotation_type_error (lineno : nat)
| annotation_spdx_id (line : string)
| annotation_spdx_id_error (lineno : nat)
(* relationship *)
| relationship (v : relationship_value) (comment : option text_or_line) (lineno : nat)
| relationship_error (lineno : nat).

Section Parse.

Variable ext : Collaborators.

Definition reduce (a : attrib) : M unit :=
  match a with
  | unknown_tag lineno =>
      p_unknown_tag lineno
  | spdx_id line =>
      p_spdx_id line
  | lics_list_ver line =>
      p_license_list_version ext line
  | lics_list_ver_error lineno => p_license_list_version_error lineno
  | doc_comment v =>
      p_doc_comment (reduce_text_or_line ext v)
  | doc_comment_error lineno => p_doc_comment_error lineno
  | doc_namespace line =>
      p_doc_namespace line
  | doc_namespace_error lineno => p_doc_namespace_error lineno
  | data_lics line =>
      p_data_license line
  | data_lics_error lineno => p_data_license_error lineno
  | doc_name line =>
      p_doc_name line
  | doc_name_error lineno => p_doc_name_error lineno
  | ext_doc_ref doc_ref_id doc_uri checksum =>
      p_external_document_ref ext doc_ref_id doc_uri checksum
  | ext_doc_ref_error lineno => p_external_document_ref_error lineno
  | spdx_version line =>
      p_spdx_version line
  | spdx_version_error lineno => p_spdx_version_error lineno
  | creator_comment v =>
      p_creator_comment (reduce_text_or_line ext v)
  | creator_comment_error lineno => p_creator_comment_error lineno
  | creator actor =>
      p_creator ext actor
  | creator_error lineno => p_creator_error lineno
  | created date =>
      p_created ext date
  | created_error lineno => p_created_error lineno
  | extr_lic_id line =>
      p_extracted_license_id ext line
  | extr_lic_id_error lineno => p_extracted_license_id_error lineno
  | lic_xref line =>
      p_extracted_cross_reference line
  | lic_xref_error lineno => p_extracted_cross_reference_error lineno
  | lic_comment v =>
      p_license_comment (reduce_text_or_line ext v)
  | lic_comment_error lineno => p_license_comment_error lineno
  | extr_lic_name v =>
      p_extracted_license_name (reduce_line_or_no_assertion v)
  | extr_lic_name_error lineno => p_extracted_license_name_error lineno
  | extr_lic_text v =>
      p_extracted_license_text (reduce_text_or_line ext v)
  | extr_lic_text_error lineno => p_extracted_license_text_error lineno
  | file_name line =>
      p_file_name ext line
  | file_name_error p1 lineno => p_file_name_error ext p1 lineno
  | file_contrib line =>
      p_file_contributor line
  | file_contrib_error lineno => p_file_contributor_error lineno
  | file_notice v =>
      p_file_notice (reduce_text_or_line ext v)
  | file_notice_error lineno => p_file_notice_error lineno
  | file_cr_text v =>
      p_file_copyright_text (reduce_line_or_no_assertion_or_none ext v)
  | file_cr_text_error lineno => p_file_copyright_text_error lineno
  | file_lics_comment v =>
      p_file_license_comment (reduce_text_or_line ext v)
  | file_lics_comment_error lineno => p_file_license_comment_error lineno
  | file_attribution_text v =>
      p_file_attribution_text (reduce_text_or_line ext v)
  | file_attribution_text_error lineno => p_file_attribution_text_error lineno
  | file_lics_info v =>
      p2 <- reduce_license_or_no_assertion_or_none ext v ;; p_file_license_info p2
  | file_lics_info_error lineno => p_file_license_info_error lineno
  | file_comment v =>
      p_file_comment (reduce_text_or_line ext v)
  | file_comment_error lineno => p_file_comment_error lineno
  | file_type v =>
      p_file_type v
  | file_type_error lineno => p_file_type_error lineno
  | file_checksum checksum =>
      p_file_checksum ext checksum
  | file_checksum_error lineno => p_file_checksum_error lineno
  | file_conc v =>
      p2 <- reduce_license_or_no_assertion_or_none ext v ;; p_file_license_concluded p2
  | file_conc_error lineno => p_file_license_concluded_error lineno
  | package_name line =>
      p_package_name ext line
  | package_name_error p1 lineno => p_package_name_error ext p1 lineno
  | pkg_desc v =>
      p_pkg_description (reduce_text_or_line ext v)
  | pkg_desc_error lineno => p_pkg_description_error lineno
  | pkg_comment v =>
      p_pkg_comment (reduce_text_or_line ext v)
  | pkg_comment_error lineno => p_pkg_comment_error lineno
  | pkg_attribution_text v =>
      p_pkg_attribution_text (reduce_text_or_line ext v)
  | pkg_attribution_text_error lineno => p_pkg_attribution_text_error lineno
  | pkg_summary v =>
      p_pkg_summary (reduce_text_or_line ext v)
  | pkg_summary_error lineno => p_pkg_summary_error lineno
  | pkg_cr_text v =>
      p_pkg_copyright_text (reduce_line_or_no_assertion_or_none ext v)
  | pkg_cr_text_error lineno => p_pkg_copyright_text_error lineno
  | pkg_ext_ref line comment =>
      p_pkg_external_refs ext line (reduce_text_or_line ext <$> comment)
  | pkg_ext_ref_error lineno => p_pkg_external_refs_error lineno
  | pkg_lic_comment v =>
      p_pkg_license_comment (reduce_text_or_line ext v)
  | pkg_lic_comment_error lineno => p_pkg_license_comment_error lineno
  | pkg_lic_decl v =>
      p2 <- reduce_license_or_no_assertion_or_none ext v ;; p_pkg_license_declared p2
  | pkg_lic_decl_error lineno => p_pkg_license_declared_error lineno
  | pkg_lic_ff v =>
      p2 <- reduce_license_or_no_assertion_or_none ext v ;; p_pkg_license_info_from_file p2
  | pkg_lic_ff_error lineno => p_pkg_license_info_from_file_error lineno
  | pkg_lic_conc v =>
      p2 <- reduce_license_or_no_assertion_or_none ext v ;; p_pkg_license_concluded p2
  | pkg_lic_conc_error lineno => p_pkg_license_concluded_error lineno
  | pkg_src_info v =>
      p_pkg_source_info (reduce_text_or_line ext v)
  | pkg_src_info_error lineno => p_pkg_source_info_error lineno
  | pkg_checksum checksum =>
      p_pkg_checksum ext checksum
  | pkg_checksum_error lineno => p_pkg_checksum_error lineno
  | pkg_verif line =>
      p_pkg_verification_code line
  | pkg_verif_error lineno => p_pkg_verification_code_error lineno
  | pkg_home v =>
      p_pkg_homepage (reduce_line_or_no_assertion_or_none ext v)
  | pkg_home_error lineno => p_pkg_homepage_error lineno
  | pkg_down_location v =>
      p_pkg_download_location (reduce_line_or_no_assertion_or_none ext v)
  | pkg_down_location_error lineno => p_pkg_download_location_error lineno
  | pkg_files_analyzed line =>
      p_pkg_files_analyzed line
  | pkg_files_analyzed_error lineno => p_pkg_files_analyzed_error lineno
  | pkg_orig v =>
      p2 <- reduce_actor_or_no_assertion ext v ;; p_pkg_originator p2
  | pkg_orig_error lineno => p_pkg_originator_error lineno
  | pkg_supplier v =>
      p2 <- reduce_actor_or_no_assertion ext v ;; p_pkg_supplier p2
  | pkg_supplier_error lineno => p_pkg_supplier_error lineno
  | pkg_file_name line =>
      p_pkg_file_name line
  | pkg_file_name_error lineno => p_pkg_file_name_error lineno
  | package_version line =>
      p_package_version line
  | package_version_error lineno => p_package_version_error lineno
  | primary_package_purpose v =>
      p_primary_package_purpose v
  | primary_package_purpose_error lineno => p_primary_package_purpose_error lineno
  | built_date date =>
      p_built_date ext date
  | built_date_error lineno => p_built_date_error lineno
  | release_date date =>
      p_release_date ext date
  | release_date_error lineno => p_release_date_error lineno
  | valid_until_date date =>
      p_valid_until_date ext date
  | valid_until_date_error lineno => p_valid_until_date_error lineno
  | snip_spdx_id line =>
      p_snippet_spdx_id ext line
  | snip_spdx_id_error lineno => p_snippet_spdx_id_error ext lineno
  | snip_name line =>
      p_snippet_name line
  | snip_name_error lineno => p_snippet_name_error lineno
  | snip_comment v =>
      p_snippet_comment (reduce_text_or_line ext v)
  | snip_comment_error lineno => p_snippet_comment_error lineno
  | snippet_attribution_text v =>
      p_snippet_attribution_text (reduce_text_or_line ext v)
  | snippet_attribution_text_error lineno => p_snippet_attribution_text_error lineno
  | snip_cr_text v =>
      p_snippet_copyright_text (reduce_line_or_no_assertion_or_none ext v)
  | snip_cr_text_error lineno => p_snippet_copyright_text_error lineno
  | snip_lic_comment v =>
      p_snippet_license_comment (reduce_text_or_line ext v)
  | snip_lic_comment_error lineno => p_snippet_license_comment_error lineno
  | snip_file_spdx_id line =>
      p_snippet_from_file_spdxid line
  | snip_file_spdx_id_error lineno => p_snippet_from_file_spdxid_error lineno
  | snip_lics_conc v =>
      p2 <- reduce_license_or_no_assertion_or_none ext v ;; p_snippet_concluded_license p2
  | snip_lics_conc_error lineno => p_snippet_concluded_license_error lineno
  | snip_lics_info v =>
      p2 <- reduce_license_or_no_assertion_or_none ext v ;; p_snippet_license_info p2
  | snip_lics_info_error lineno => p_snippet_license_info_error lineno
  | snip_byte_range line =>
      p_snippet_byte_range line
  | snip_byte_range_error lineno => p_snippet_byte_range_error lineno
  | snip_line_range line =>
      p_snippet_line_range line
  | snip_line_range_error lineno => p_snippet_line_range_error lineno
  | annotator person =>
      p_annotator ext (Some person)
  | annotator_error p1 lineno => p_annotator_error ext p1 lineno
  | annotator_TOOL_VALUE tool =>
      p_annotator ext None
  | annotator_ORG_VALUE org =>
      p_annotator ext None
  | annotation_date date =>
      p_annotation_date ext date
  | annotation_date_error lineno => p_annotation_date_error lineno
  | annotation_comment v =>
      p_annotation_comment (reduce_text_or_line ext v)
  | annotation_comment_error lineno => p_annotation_comment_error lineno
  | annotation_type v =>
      p_annotation_type v
  | annotation_type_error lineno => p_annotation_type_error lineno
  | annotation_spdx_id line =>
      p_annotation_spdx_id line
  | annotation_spdx_id_error lineno => p_annotation_spdx_id_error lineno
  | relationship v comment lineno =>
      p_relationship ext (reduce_relationship_value v) (reduce_text_or_line ext <$> comment) lineno
  | relationship_error lineno => p_relationship_error ext lineno
  end.

(** [self.yacc.parse(text, lexer=self.lex)]: the actions of the reductions,
    in input order. *)
Fixpoint yacc_parse (text : list attrib) : M unit :=
  match text with
  | [] => ret tt
  | a :: rest => reduce a ;; yacc_parse rest
  end.

(** The [try: raise_parsing_error_if_logger_has_messages(
    self.creation_info.pop("logger"), "CreationInfo") except ...] block. *)
Definition merge_creation_info_logger : M unit :=
  fun st =>
    match raise_parsing_error_if_logger_has_messages
            (ci_logger (creation_info st)) (Some "CreationInfo") with
    | Some l => logger_append (Items l) st
    | None => Done tt st
    end.

(** Everything [parse] does before it looks at [self.logger]. *)
Definition end_of_input (text : list attrib) : M unit :=
  yacc_parse text ;;
  construct_current_element ext ;;
  merge_creation_info_logger.

(** [parse] on a parser in state [st]. *)
Definition parse_from (st : Parser) (text : list attrib) : result Document :=
  match end_of_input text st with
  | Fail e _ => Raise e
  | Done _ st' =>
      match raise_parsing_error_if_logger_has_messages (logger st') None with
      | Some l => Raise (SPDXParsingError (Messages l))
      | None =>
          let creation_info := ci_fields (creation_info st') in
          match construction_errors ext "CreationInfo" creation_info with
          | Some l => Raise (SPDXParsingError (Messages l))
          | None =>
              match Document_errors ext creation_info (elements_build st') with
              | Some l => Raise (SPDXParsingError (Messages l))
              | None => Ok (mkDocument creation_info (elements_build st'))
              end
          end
      end
  end.

(** [Parser().parse(text)] *)
Definition parse (text : list attrib) : result Document := parse_from init text.

End Parse.

(** ** Vocabulary of the statements *)

(** The value tags that belong to an element kind and whose action starts
    with [check_that_current_element_matches_class_for_value]: the kind it
    is called with. *)
Definition scope_class (a : attrib) : option ClassName :=
  match a with
  | lic_xref _ | lic_comment _ | extr_lic_name _ | extr_lic_text _ =>
      Some ExtractedLicensingInfo
  | file_contrib _ | file_notice _ | file_cr_text _ | file_lics_comment _ |
    file_attribution_text _ | file_lics_info _ | file_comment _ | file_type _ |
    file_checksum _ | file_conc _ =>
      Some File
  | pkg_desc _ | pkg_comment _ | pkg_attribution_text _ | pkg_summary _ | pkg_cr_text _ |
    pkg_ext_ref _ _ | pkg_lic_comment _ | pkg_lic_decl _ | pkg_lic_ff _ | pkg_lic_conc _ |
    pkg_src_info _ | pkg_checksum _ | pkg_verif _ | pkg_home _ | pkg_down_location _ |
    pkg_files_analyzed _ | pkg_orig _ | pkg_supplier _ | pkg_file_name _ |
    package_version _ | primary_package_purpose _ | built_date _ | release_date _ |
    valid_until_date _ =>
      Some Package
  | snip_name _ | snip_comment _ | snippet_attribution_text _ | snip_cr_text _ |
    snip_lic_comment _ | snip_file_spdx_id _ | snip_lics_conc _ | snip_lics_info _ |
    snip_byte_range _ | snip_line_range _ =>
      Some Snippet
  | annotation_date _ | annotation_comment _ | annotation_type _ =>
      Some Annotation
  | _ => None
  end.

(** The exception, if any, that reducing the value of the production raises
    before the production's own action runs (the leaf parsers of license
    expressions and actors). *)
Definition value_raises (ext : Collaborators) (a : attrib) : option exn :=
  match a with
  | file_lics_info v | file_conc v | pkg_lic_decl v | pkg_lic_ff v | pkg_lic_conc v
  | snip_lics_conc v | snip_lics_info v =>
      match v with
      | lic_LINE l => match licensing_parse ext l with Raise e => Some e | Ok _ => None end
      | _ => None
      end
  | pkg_orig v | pkg_supplier v =>
      match v with
      | act_PERSON_VALUE x | act_ORG_VALUE x =>
          match parse_actor ext x with
          | inl l => Some (SPDXParsingError (Messages l))
          | inr _ => None
          end
      | act_NO_ASSERTION => None
      end
  | _ => None
  end.

(** The same parser state with [c] as the ["class"] entry of the current
    element. *)
Definition with_class (c : option ClassName) (st : Parser) : Parser :=
  let e := current_element st in
  set_current_element (mkElement c (el_logger e) (el_fields e)) st.

(** Whether an action returned, and what it raised if not. *)
Definition raised {A : Type} (o : outcome A) : option exn :=
  match o with
  | Done _ _ => None
  | Fail e _ => Some e
  end.

(** Once the creation info has an id, no action changes it. *)
Definition keeps_document_id {A : Type} (v : value) (m : M A) : Prop :=
  forall st, ci_fields (creation_info st) !! "spdx_id" = Some v ->
             ci_fields (creation_info (final_state (m st))) !! "spdx_id" = Some v.

(** What [construct_current_element] does to an open element of class [c]
    without local errors, [r] being the answer of typed construction. *)
Definition finalize_with (r : option (list msg)) (c : ClassName) (st : Parser)
    : outcome unit :=
  let fields := el_fields (current_element st) in
  let key := CLASS_MAPPING c in
  let popped :=
    set_elements_build (setdefault_list key (elements_build st))
      (set_current_element (mkElement None [] fields) st) in
  match r with
  | Some l => Done tt (set_current_element fresh_element
                         (set_logger (logger st ++ [Items l]) popped))
  | None =>
      let added :=
        set_elements_build
          (<[key := default [] (elements_build popped !! key) ++ [mkObject c fields]]>
             (elements_build popped)) popped in
      if bool_decide (c = File)
      then match check_for_preceding_package_and_build_contains_relationship added with
           | Done _ st' => Done tt (set_current_element fresh_element st')
           | Fail e st' => Fail e st'
           end
      else Done tt (set_current_element fresh_element added)
  end.

(** The same parser state with [c] as the class of the current element and
    [l] as the document-level logger. *)
Definition tweak (c : option ClassName) (l : list msg) (st : Parser) : Parser :=
  set_logger l (with_class c st).

Definition map_state {A : Type} (f : Parser -> Parser) (o : outcome A) : outcome A :=
  match o with
  | Done a st => Done a (f st)
  | Fail e st => Fail e (f st)
  end.

(** An action that neither reads nor writes the class of the current element
    and the document-level logger. *)
Definition scope_blind {A : Type} (m : M A) : Prop :=
  forall st c l, m (tweak c l st) = map_state (tweak c l) (m st).

Definition begins_with_lower_hex (s : string) : bool :=
  match s with
  | String c _ => is_lower_hex c
  | EmptyString => false
  end.

(** Modelled from the spec: the fields that section 3 of the specification
    lists without calling them optional (typed construction itself is
    outside the sources). *)
Definition required_fields (class_name : string) : list string :=
  if String.eqb class_name "CreationInfo"
  then ["spdx_id"; "name"; "document_namespace"; "spdx_version"; "data_license"; "creators";
        "created"]
  else if String.eqb class_name "File" then ["name"]
  else if String.eqb class_name "Package" then ["name"]
  else [].

Definition missing_fields (class_name : string) (args : gmap string value) : option (list msg) :=
  match List.filter (fun k => bool_decide (args !! k = None)) (required_fields class_name) with
  | [] => None
  | l => Some [Fmt ("Error while constructing " +:+ class_name +:+ ": ") (map Text l)]
  end.

(** Modelled from the spec: collaborators whose leaf parsers accept every
    text and keep it as it is, and whose typed construction only asks for
    the [required_fields]. *)
Definition spec_collaborators : Collaborators :=
  {| str_from_text := Some;
     licensing_parse := Ok;
     parse_actor := inr;
     datetime_from_str := Ok;
     Version_from_string := inr;
     parse_checksum := fun text => Ok ([], Some text);
     is_RelationshipType := fun name =>
       bool_decide (name ∈ ["DESCRIBES"; "DESCRIBED_BY"; "CONTAINS"; "CONTAINED_BY";
                            "DEPENDENCY_OF"; "OTHER"]);
     is_ExternalPackageRefCategory := fun name =>
       bool_decide (name ∈ ["SECURITY"; "PACKAGE_MANAGER"; "PERSISTENT_ID"; "OTHER"]);
     ExternalDocumentRef_errors := fun _ _ checksum =>
       match checksum with
       | Some _ => None
       | None => Some [Text "SetterError ExternalDocumentRef: checksum must be Checksum"]
       end;
     construction_errors := missing_fields;
     Document_errors := fun _ _ => None |}.

(** The implicit-containment example of the specification. *)
Definition implicit_containment_example : list attrib :=
  [spdx_id "D"; package_name "P"; spdx_id "SPDXRef-P"; file_name "f.c"; spdx_id "SPDXRef-f";
   file_type file_type_value.SOURCE].

Definition example_package_args : gmap string value :=
  <["spdx_id" := Atom (Str "SPDXRef-P")]> (<["name" := Atom (Str "P")]> ∅).

Definition example_file_args : gmap string value :=
  <["file_type" := List [FileType file_type_value.SOURCE]]>
    (<["spdx_id" := Atom (Str "SPDXRef-f")]> (<["name" := Atom (Str "f.c")]> ∅)).

(** A parser in which a file is open whose license-info field holds the
    "none" sentinel: the state after [FileName: f.c] and
    [LicenseInfoInFile: NONE]. *)
Definition file_with_sentinel : Parser :=
  mkParser [] []
    (mkElement (Some File) []
       (<["license_info_in_file" := Atom SpdxNone]> (<["name" := Atom (Str "f.c")]> ∅)))
    (mkCreationInfoDict [] ∅) ∅.

Definition annotation_spdx_id_example : attrib := annotation_spdx_id "SPDXRef-f".

(** A parser in which a package is open. *)
Definition package_open : Parser :=
  mkParser [] [] (mkElement (Some Package) [] (<["name" := Atom (Str "P")]> ∅))
    (mkCreationInfoDict [] (<["spdx_id" := Atom (Str "D")]> ∅)) ∅.

(** The tags that open an element (start tags and those of their error
    productions that open one too): the kind they open. *)
Definition opens (a : attrib) : option ClassName :=
  match a with
  | extr_lic_id _ => Some ExtractedLicensingInfo
  | file_name _ | file_name_error _ _ => Some File
  | package_name _ | package_name_error _ _ => Some Package
  | snip_spdx_id _ | snip_spdx_id_error _ => Some Snippet
  | annotator _ | annotator_error _ _ | annotator_TOOL_VALUE _ | annotator_ORG_VALUE _ =>
      Some Annotation
  | relationship _ _ _ | relationship_error _ => Some Relationship
  | _ => None
  end.

(** The error productions whose action only appends to the local logger of
    the current element. *)
Definition local_error (a : attrib) : bool :=
  match a with
  | extr_lic_id_error _ | lic_xref_error _ | lic_comment_error _ | extr_lic_name_error _
  | extr_lic_text_error _ | file_contrib_error _ | file_notice_error _ | file_cr_text_error _
  | file_lics_comment_error _ | file_attribution_text_error _ | file_lics_info_error _
  | file_comment_error _ | file_type_error _ | file_checksum_error _ | file_conc_error _
  | pkg_desc_error _ | pkg_comment_error _ | pkg_attribution_text_error _ | pkg_summary_error _
  | pkg_cr_text_error _ | pkg_ext_ref_error _ | pkg_lic_comment_error _ | pkg_lic_decl_error _
  | pkg_lic_ff_error _ | pkg_lic_conc_error _ | pkg_src_info_error _ | pkg_checksum_error _
  | pkg_verif_error _ | pkg_home_error _ | pkg_down_location_error _
  | pkg_files_analyzed_error _ | pkg_orig_error _ | pkg_supplier_error _ | pkg_file_name_error _
  | package_version_error _ | primary_package_purpose_error _ | built_date_error _
  | release_date_error _ | valid_until_date_error _ | snip_name_error _ | snip_comment_error _
  | snippet_attribution_text_error _ | snip_cr_text_error _ | snip_lic_comment_error _
  | snip_file_spdx_id_error _ | snip_lics_conc_error _ | snip_lics_info_error _
  | snip_byte_range_error _ | snip_line_range_error _ | annotation_date_error _
  | annotation_comment_error _ | annotation_type_error _ | annotation_spdx_id_error _ => true
  | _ => false
  end.

(** The unknown tag and the error productions of the document-level tags:
    their action appends to the document-level or the creation-info logger. *)
Definition document_error (a : attrib) : bool :=
  match a with
  | unknown_tag _ | lics_list_ver_error _ | doc_comment_error _ | doc_namespace_error _
  | data_lics_error _ | doc_name_error _ | ext_doc_ref_error _ | spdx_version_error _
  | creator_comment_error _ | creator_error _ | created_error _ => true
  | _ => false
  end.

(** The error productions that open an element before they log. *)
Definition start_error (a : attrib) : bool :=
  match a with
  | file_name_error _ _ | package_name_error _ _ | snip_spdx_id_error _ | annotator_error _ _
  | relationship_error _ => true
  | _ => false
  end.

(** The tags of the document level, SPDXID apart (its target depends on the
    state), with their error productions and the unknown tag. *)
Definition document_level (a : attrib) : bool :=
  match a with
  | lics_list_ver _ | doc_comment _ | doc_namespace _ | data_lics _ | doc_name _
  | ext_doc_ref _ _ _ | spdx_version _ | creator_comment _ | creator _ | created _ => true
  | _ => document_error a
  end.

(** The value tags of the element kinds and their error productions: what
    neither opens an element nor belongs to the document level. *)
Definition element_value (a : attrib) : bool :=
  match a with
  | spdx_id _ => false
  | _ => match opens a with
         | Some _ => false
         | None => negb (document_level a)
         end
  end.

(** An action keeps a relation to a reference state, however it ends. *)
Definition maintains {A : Type} (R : Parser -> Parser -> Prop) (m : M A) : Prop :=
  forall st0 st, R st0 st -> R st0 (final_state (m st)).

(** Both loggers above the element level have only been appended to. *)
Definition log_grows (st0 st : Parser) : Prop :=
  logger st0 `prefix_of` logger st
  /\ ci_logger (creation_info st0) `prefix_of` ci_logger (creation_info st).

(** The element stack and every collection of finalized elements have only
    been appended to. *)
Definition build_grows (st0 st : Parser) : Prop :=
  element_stack st0 `prefix_of` element_stack st
  /\ forall key l, elements_build st0 !! key = Some l ->
       exists l', elements_build st !! key = Some l' /\ l `prefix_of` l'.

(** Both at once. *)
Definition grows (st0 st : Parser) : Prop := log_grows st0 st /\ build_grows st0 st.

(** An error is on record: at document level, in the creation info, or in
    an element that is open. *)
Definition has_errors (st : Parser) : Prop :=
  logger st <> [] \/ ci_logger (creation_info st) <> []
  \/ (el_class (current_element st) <> None /\ el_logger (current_element st) <> []).

(** No element has been finalized or opened: the collections, the element
    stack and the kind of the current element are the same. *)
Definition same_build (st0 st : Parser) : Prop :=
  elements_build st = elements_build st0
  /\ element_stack st = element_stack st0
  /\ el_class (current_element st) = el_class (current_element st0).

(** The creation info, its logger included, is the same. *)
Definition same_creation_info (st0 st : Parser) : Prop :=
  creation_info st = creation_info st0.

(** The current element is the same: kind, local logger and fields. *)
Definition same_current_element (st0 st : Parser) : Prop :=
  current_element st = current_element st0.

(** The local logger of a current element that is not open, emptied. *)
Definition forget (st : Parser) : Parser :=
  match el_class (current_element st) with
  | None => set_current_element (mkElement None [] (el_fields (current_element st))) st
  | Some _ => st
  end.

(** An action that does not see the local logger of an unopened element. *)
Definition forgetful {A : Type} (m : M A) : Prop :=
  forall st, map_state forget (m (forget st)) = map_state forget (m st).

(** A parser in which a file is being finalized after a package, with a
    relationship list in place. *)
Definition file_after_package : Parser :=
  mkParser [] []
    (mkElement None []
       (<["spdx_id" := Atom (Str "SPDXRef-f")]> (<["name" := Atom (Str "f.c")]> ∅)))
    (mkCreationInfoDict [] ∅)
    (<["relationships" := []]>
       (<["packages" := [mkObject Package (<["spdx_id" := Atom (Str "SPDXRef-P")]> ∅)]]> ∅)).

(** No space in a piece of a relationship or reference line. *)
Definition no_space (s : string) : bool :=
  str_forallb (fun c => negb (Ascii.eqb c " ")) s.

(** The related id of a relationship line: the two sentinels are spelled
    out. *)
Definition related_id (s : string) : atom :=
  if String.eqb s "NONE" then SpdxNone
  else if String.eqb s "NOASSERTION" then SpdxNoAssertion
  else Str s.

(** A parser in which a file is open. *)
Definition file_open : Parser :=
  mkParser [] [] (mkElement (Some File) [] (<["name" := Atom (Str "f.c")]> ∅))
    (mkCreationInfoDict [] (<["spdx_id" := Atom (Str "D")]> ∅)) ∅.

(** What an action answered or raised, and the current element it left. *)
Definition current_view {A : Type} (o : outcome A) : (A + exn) * Element :=
  match o with
  | Done a st => (inl a, current_element st)
  | Fail e st => (inr e, current_element st)
  end.

(** An action that reads and writes nothing but the current element. *)
Definition element_local {A : Type} (m : M A) : Prop :=
  forall st st', current_element st = current_element st' ->
                 current_view (m st) = current_view (m st').

(** The kind of the current element is the same. *)
Definition same_class (st0 st : Parser) : Prop :=
  el_class (current_element st) = el_class (current_element st0).

End TagValue.

(** * Properties of the relationship normalizer *)
Module RelationshipParserSpec.
Import RelationshipParser.

Lemma has_messages_app (l : Logger) (m : msg) : has_messages (l ++ [m]) = true.
Proof. destruct l; reflexivity. Qed.

Lemma has_messages_true (l : Logger) : l <> [] -> has_messages l = true.
Proof. destruct l; [congruence | reflexivity]. Qed.

Section Relationships.

Variable RelationshipType_getitem : string -> option RelationshipType.

Lemma parse_relationship_type_fails (d : relationship_dict) :
  type_fails RelationshipType_getitem d ->
  exists m, parse_relationship RelationshipType_getitem d
            = Raise (SPDXParsingError
                       (Messages [Fmt "Error while parsing relationship: " [Text m]])).
Proof.
  intros Hfail. unfold parse_relationship, try_parse_required_field_append_logger_when_failing.
  specialize (Hfail). unfold type_fails in Hfail.
  unfold parse_relationship_type in *.
  destruct (relationshipType d) as [| s | z | b]; simpl; eauto.
  destruct (RelationshipType_getitem (transform_json_str_to_enum_name s)) as [t|] eqn:E.
  - exfalso. apply (Hfail t). reflexivity.
  - simpl. eauto.
Qed.

Lemma parse_relationships_loop_all_fail (ds : list relationship_dict) :
  Forall (type_fails RelationshipType_getitem) ds ->
  forall acc logger,
  exists logger',
    parse_relationships_loop RelationshipType_getitem ds acc logger = Ok (acc, logger ++ logger')
    /\ length logger' = length ds.
Proof.
  induction 1 as [| d ds Hd _ IH]; intros acc logger.
  - exists []. simpl. rewrite app_nil_r. auto.
  - destruct (parse_relationship_type_fails d Hd) as [m Hm].
    simpl. rewrite Hm. simpl.
    destruct (IH acc (logger ++ [Fmt "Error while parsing relationship: " [Text m]]))
      as [l' [Hl' Hlen]].
    exists (Fmt "Error while parsing relationship: " [Text m] :: l').
    rewrite Hl'. split; [| simpl; congruence].
    f_equal. f_equal. rewrite <- app_assoc. reflexivity.
Qed.

(** C3.  When every one of N >= 1 entries has an unparsable
    [relationshipType], [parse_relationships] does collect the N messages in
    its local logger, but the failure it raises carries the boolean
    [logger.has_messages()], that is [True], in place of the message list:
    none of the N messages is exposed.  One level up,
    [parse_all_relationships] then iterates over that boolean in
    [append_all] and dies with a [TypeError]. *)
Theorem parse_relationships_raises_boolean (ds : list relationship_dict) :
  ds <> [] ->
  Forall (type_fails RelationshipType_getitem) ds ->
  parse_relationships RelationshipType_getitem ds = Raise (SPDXParsingError (Boolean true))
  /\ forall self_logger describes doc_id pkgs fls,
       parse_all_relationships RelationshipType_getitem self_logger
         (mkInputDoc (Some ds) describes doc_id pkgs fls) = Raise TypeError.
Proof.
  intros Hne Hall.
  destruct (parse_relationships_loop_all_fail ds Hall [] []) as [l' [Hloop Hlen]].
  assert (Hraise : parse_relationships RelationshipType_getitem ds
                   = Raise (SPDXParsingError (Boolean true))).
  { unfold parse_relationships. rewrite Hloop. simpl.
    destruct l' as [| m l']; [| reflexivity].
    destruct ds; [congruence | discriminate Hlen]. }
  split; [exact Hraise |].
  intros self_logger describes doc_id pkgs fls.
  unfold parse_all_relationships. simpl.
  destruct ds as [| d ds']; [congruence |]. simpl truthy.
  rewrite Hraise. reflexivity.
Qed.

End Relationships.

Lemma parse_relationships_raises_boolean_witness :
  let bad := mkRelationshipDict (PyStr "SPDXRef-A") (PyStr "SPDXRef-B") (PyStr "describes?") PyNone in
  let worse := mkRelationshipDict (PyStr "SPDXRef-A") (PyStr "SPDXRef-B") (PyInt 7) PyNone in
  parse_relationships named_members [bad; worse] = Raise (SPDXParsingError (Boolean true))
  /\ forall self_logger describes doc_id pkgs fls,
       parse_all_relationships named_members self_logger
         (mkInputDoc (Some [bad; worse]) describes doc_id pkgs fls) = Raise TypeError.
Proof.
  intros bad worse.
  apply (parse_relationships_raises_boolean named_members [bad; worse]).
  - discriminate.
  - repeat constructor; intros t; vm_compute; discriminate.
Defined.

(** *** Duplicate detection *)

Lemma elem_of_without_comment (r : Relationship) (created : list Relationship) :
  comment r = None ->
  r ∈ ignore_any_comments_in_relationship_list created
  <-> exists r', r' ∈ created /\ edge r' = edge r.
Proof.
  intros Hc. unfold ignore_any_comments_in_relationship_list.
  rewrite list_elem_of_In, in_map_iff. split.
  - intros [r' [Heq Hin]]. exists r'. rewrite list_elem_of_In. split; [exact Hin |].
    subst r. reflexivity.
  - intros [r' [Hin Heq]]. exists r'. rewrite list_elem_of_In in Hin. split; [| exact Hin].
    destruct r as [a t b c], r' as [a' t' b' c']. simpl in *.
    unfold edge in Heq. simpl in Heq. congruence.
Qed.

Lemma already_created_iff (created : list Relationship) (r : Relationship) :
  already_created created r = true
  <-> exists r', r' ∈ created /\ (edge r' = edge r \/ Some (edge r') = inverse_edge r).
Proof.
  unfold already_created. rewrite existsb_exists. split.
  - intros [r' [Hin Hb]]. exists r'. rewrite list_elem_of_In. split; [exact Hin |].
    apply orb_true_iff in Hb. destruct Hb as [Hb | Hb]; apply bool_decide_eq_true in Hb; auto.
  - intros [r' [Hin Hor]]. exists r'. rewrite list_elem_of_In in Hin. split; [exact Hin |].
    apply orb_true_iff. destruct Hor; [left | right]; apply bool_decide_eq_true; assumption.
Qed.

Lemma check_if_relationship_exists_invertible (r : Relationship)
    (created : list Relationship) :
  comment r = None ->
  is_Some (convert_relationship_types (relationship_type r)) ->
  check_if_relationship_exists r created = Ok (already_created created r).
Proof.
  intros Hc [t Ht]. unfold check_if_relationship_exists.
  destruct (already_created created r) eqn:Hac.
  - apply already_created_iff in Hac. destruct Hac as [r' [Hin Hor]].
    case_bool_decide as Hdirect; [reflexivity |].
    unfold convert_relationship. rewrite Ht.
    case_bool_decide as Hinv; [reflexivity |].
    exfalso. destruct Hor as [He | He].
    + apply Hdirect. apply elem_of_without_comment; eauto.
    + apply Hinv. apply elem_of_without_comment; [exact Hc |].
      exists r'. split; [exact Hin |].
      unfold inverse_edge in He. rewrite Ht in He. inversion He as [He']. reflexivity.
  - case_bool_decide as Hdirect.
    { apply elem_of_without_comment in Hdirect; [| exact Hc].
      destruct Hdirect as [r' [Hin He]].
      assert (already_created created r = true) by (apply already_created_iff; eauto).
      congruence. }
    unfold convert_relationship. rewrite Ht.
    case_bool_decide as Hinv; [| reflexivity].
    apply elem_of_without_comment in Hinv; [| exact Hc].
    destruct Hinv as [r' [Hin He]].
    assert (already_created created r = true).
    { apply already_created_iff. exists r'. split; [exact Hin |]. right.
      unfold inverse_edge. rewrite Ht. rewrite He. reflexivity. }
    congruence.
Qed.

Lemma implied_edge_step_strings (t : RelationshipType) (a b : string)
    (created edges : list Relationship) (logger : Logger) :
  is_Some (convert_relationship_types t) ->
  implied_edge_step t (PyStr a) (PyStr b) created (edges, logger)
  = Ok (edges ++ List.filter (fun r => negb (already_created created r)) [implied t a b], logger).
Proof.
  intros Ht. unfold implied_edge_step. cbv beta iota delta [Relationship_init].
  rewrite check_if_relationship_exists_invertible; [| reflexivity | exact Ht].
  simpl. unfold implied.
  destruct (already_created created _); simpl; [rewrite app_nil_r |]; reflexivity.
Qed.

Lemma parse_document_describes_loop_strings (doc : string) (created : list Relationship)
    (ids : list string) :
  forall edges logger,
    parse_document_describes_loop (PyStr doc) (map PyStr ids) created (edges, logger)
    = Ok (edges ++ List.filter (fun r => negb (already_created created r))
                     (map (implied DESCRIBES doc) ids), logger).
Proof.
  induction ids as [| i ids IH]; intros edges logger;
    cbn [map parse_document_describes_loop].
  - rewrite app_nil_r. reflexivity.
  - rewrite implied_edge_step_strings by (eexists; reflexivity).
    rewrite IH. rewrite <- app_assoc. do 2 f_equal.
    cbn [List.filter]. destruct (already_created created _); reflexivity.
Qed.

Lemma contained_files_loop_strings (pkg : string) (created : list Relationship)
    (ids : list string) :
  forall edges logger,
    contained_files_loop (PyStr pkg) (map PyStr ids) created (edges, logger)
    = Ok (edges ++ List.filter (fun r => negb (already_created created r))
                     (map (implied CONTAINS pkg) ids), logger).
Proof.
  induction ids as [| i ids IH]; intros edges logger;
    cbn [map contained_files_loop].
  - rewrite app_nil_r. reflexivity.
  - rewrite implied_edge_step_strings by (eexists; reflexivity).
    rewrite IH. rewrite <- app_assoc. do 2 f_equal.
    cbn [List.filter]. destruct (already_created created _); reflexivity.
Qed.

Lemma parse_has_files_loop_strings (created : list Relationship)
    (ps : list (string * list string)) :
  forall edges logger,
    parse_has_files_loop (map package_dict_of ps) created (edges, logger)
    = Ok (edges ++ List.filter (fun r => negb (already_created created r))
                     (flat_map (fun p => map (implied CONTAINS (fst p)) (snd p)) ps), logger).
Proof.
  induction ps as [| [pkg ids] ps IH]; intros edges logger;
    cbn [map parse_has_files_loop flat_map].
  - rewrite app_nil_r. reflexivity.
  - destruct ids as [| i ids].
    + cbn. apply IH.
    + cbn [truthy hasFiles pkg_SPDXID package_dict_of fst snd map].
      change (PyStr i :: map PyStr ids) with (map PyStr (i :: ids)).
      rewrite contained_files_loop_strings. rewrite IH.
      rewrite <- app_assoc. rewrite List.filter_app. reflexivity.
Qed.

Lemma dependency_of_loop_strings (file : string) (deps : list string) :
  forall edges logger,
    dependency_of_loop (PyStr file) (map PyStr deps) (edges, logger)
    = (edges ++ map (fun d => implied DEPENDENCY_OF d file) deps, logger).
Proof.
  induction deps as [| d deps IH]; intros edges logger;
    cbn [map dependency_of_loop Relationship_init].
  - rewrite app_nil_r. reflexivity.
  - rewrite IH. rewrite <- app_assoc. reflexivity.
Qed.

Lemma parse_file_dependencies_loop_strings (fs : list (string * list string)) :
  forall edges logger,
    parse_file_dependencies_loop (map file_dict_of fs) (edges, logger)
    = (edges ++ flat_map (fun f => map (fun d => implied DEPENDENCY_OF d (fst f)) (snd f)) fs,
       logger).
Proof.
  induction fs as [| [file deps] fs IH]; intros edges logger;
    cbn [map parse_file_dependencies_loop flat_map].
  - rewrite app_nil_r. reflexivity.
  - destruct deps as [| d deps].
    + cbn. apply IH.
    + cbn [truthy fileDependencies file_SPDXID file_dict_of fst snd map].
      change (PyStr d :: map PyStr deps) with (map PyStr (d :: deps)).
      rewrite dependency_of_loop_strings. rewrite IH.
      rewrite <- app_assoc. reflexivity.
Qed.

(** C4 fails as stated: the two entries of a repeated [documentDescribes]
    (or [hasFiles]) list are both turned into edges, because each candidate
    is looked up among the relationships of the earlier phases only, not
    among the edges the running phase has built. *)
Lemma repeated_entries_not_suppressed :
  parse_all_relationships named_members []
    (mkInputDoc None (Some [PyStr "SPDXRef-A"; PyStr "SPDXRef-A"]) (PyStr "SPDXRef-DOCUMENT")
       None None)
  = Ok [implied DESCRIBES "SPDXRef-DOCUMENT" "SPDXRef-A";
        implied DESCRIBES "SPDXRef-DOCUMENT" "SPDXRef-A"]
  /\ parse_all_relationships named_members []
       (mkInputDoc None None (PyStr "SPDXRef-DOCUMENT")
          (Some [mkPackageDict (PyStr "SPDXRef-P") (Some [PyStr "SPDXRef-F"; PyStr "SPDXRef-F"])])
          None)
     = Ok [implied CONTAINS "SPDXRef-P" "SPDXRef-F"; implied CONTAINS "SPDXRef-P" "SPDXRef-F"].
Proof. split; vm_compute; reflexivity. Qed.

(** C4, amended.  With string ids: every [fileDependencies] entry yields its
    [DEPENDENCY_OF] edge, repeated or not; a [documentDescribes] or
    [hasFiles] entry yields its [DESCRIBES] or [CONTAINS] edge exactly when
    neither that edge nor its inverse, comment ignored, is among the
    relationships created by the earlier phases; entries of one phase are
    not compared with each other. *)
Theorem implied_edges_of_each_phase :
  (forall fs : list (string * list string),
     parse_file_dependencies (map file_dict_of fs)
     = Ok (flat_map (fun f => map (fun d => implied DEPENDENCY_OF d (fst f)) (snd f)) fs))
  /\ (forall (doc : string) (ids : list string) (created : list Relationship),
        parse_document_describes (PyStr doc) (map PyStr ids) created
        = Ok (List.filter (fun r => negb (already_created created r))
                (map (implied DESCRIBES doc) ids)))
  /\ (forall (ps : list (string * list string)) (created : list Relationship),
        parse_has_files (map package_dict_of ps) created
        = Ok (List.filter (fun r => negb (already_created created r))
                (flat_map (fun p => map (implied CONTAINS (fst p)) (snd p)) ps))).
Proof.
  split; [| split].
  - intros fs. unfold parse_file_dependencies.
    rewrite parse_file_dependencies_loop_strings. reflexivity.
  - intros doc ids created. unfold parse_document_describes.
    rewrite parse_document_describes_loop_strings. reflexivity.
  - intros ps created. unfold parse_has_files.
    rewrite parse_has_files_loop_strings. reflexivity.
Qed.

(** C5 fails as stated: the candidate's own comment is not ignored.  A
    candidate that carries a comment is not found even in a list that holds
    that very relationship, because only the list is stripped of comments. *)
Lemma candidate_comment_not_ignored :
  let r := mkRelationship "SPDXRef-A" DESCRIBES "SPDXRef-B" (Some "c") in
  check_if_relationship_exists r [r] = Ok false.
Proof. vm_compute. reflexivity. Qed.

(** C5, amended.  For a candidate without a comment whose type is one of
    DESCRIBES, DESCRIBED_BY, CONTAINS, CONTAINED_BY (the candidates the
    describes and contains phases build), the duplicate test answers true
    if and only if some existing relationship, its comment ignored, states
    the candidate's fact or its inverse.  Hence an implied DESCRIBES
    (CONTAINS) edge is dropped when the same edge with any comment, or the
    DESCRIBED_BY (CONTAINED_BY) edge in the other direction, is already
    there, and is added otherwise. *)
Theorem duplicate_test_of_implied_edge (r : Relationship) (created : list Relationship) :
  comment r = None ->
  is_Some (convert_relationship_types (relationship_type r)) ->
  check_if_relationship_exists r created = Ok (already_created created r)
  /\ (already_created created r = true
      <-> exists r', r' ∈ created /\ (edge r' = edge r \/ Some (edge r') = inverse_edge r))
  /\ (relationship_type r = DESCRIBES ->
      parse_document_describes (PyStr (spdx_element_id r)) [PyStr (related_spdx_element_id r)]
        created
      = Ok (if already_created created r then [] else [r]))
  /\ (relationship_type r = CONTAINS ->
      parse_has_files
        [mkPackageDict (PyStr (spdx_element_id r)) (Some [PyStr (related_spdx_element_id r)])]
        created
      = Ok (if already_created created r then [] else [r])).
Proof.
  intros Hc Hinv. split; [| split; [| split]].
  - apply check_if_relationship_exists_invertible; assumption.
  - apply already_created_iff.
  - intros Ht. destruct r as [a t b c]. simpl in *. subst t c.
    unfold parse_document_describes.
    rewrite (parse_document_describes_loop_strings a created [b]).
    cbn [map List.filter app has_messages]. unfold implied.
    destruct (already_created created _); reflexivity.
  - intros Ht. destruct r as [a t b c]. simpl in *. subst t c.
    unfold parse_has_files.
    rewrite (parse_has_files_loop_strings created [(a, [b])]).
    cbn [map flat_map List.filter fst snd app has_messages]. unfold implied.
    destruct (already_created created _); reflexivity.
Qed.

Lemma duplicate_test_of_implied_edge_witness :
  let r := implied DESCRIBES "SPDXRef-DOCUMENT" "SPDXRef-A" in
  let created := [mkRelationship "SPDXRef-A" DESCRIBED_BY "SPDXRef-DOCUMENT" (Some "c")] in
  check_if_relationship_exists r created = Ok true
  /\ parse_document_describes (PyStr "SPDXRef-DOCUMENT") [PyStr "SPDXRef-A"] created = Ok [].
Proof.
  intros r created.
  destruct (duplicate_test_of_implied_edge r created) as [H1 [_ [H3 _]]].
  - reflexivity.
  - eexists; reflexivity.
  - split; [exact H1 | exact (H3 eq_refl)].
Defined.

End RelationshipParserSpec.

(** * Properties of the tag/value grammar engine *)
Module TagValueSpec.
Import TagValue.

(** *** The verification-code pattern *)

Lemma verif_code_regex_match_None (s : string) :
  begins_with_lower_hex s = false -> verif_code_regex_match s = None.
Proof.
  intros H. unfold verif_code_regex_match.
  destruct s as [| c s']; [reflexivity |].
  simpl in H. cbn [span]. rewrite H. reflexivity.
Qed.

Lemma verif_code_regex_match_Some (s : string) :
  begins_with_lower_hex s = true -> is_Some (verif_code_regex_match s).
Proof.
  intros H. unfold verif_code_regex_match.
  destruct s as [| c s']; [discriminate |].
  simpl in H. cbn [span]. rewrite H.
  destruct (span is_lower_hex s') as [a b].
  destruct (strip_prefix _ _); eexists; reflexivity.
Qed.

(** The scope check returns, and changes nothing but the document-level
    logger. *)
Lemma check_returns (c : ClassName) (st : Parser) :
  exists l, check_that_current_element_matches_class_for_value c st
            = Done tt (set_logger (logger st ++ l) st)
            /\ (l = [] \/ l = [not_in_scope c])
            /\ (el_class (current_element st) = Some c -> l = []).
Proof.
  unfold check_that_current_element_matches_class_for_value, logger_append, modify.
  destruct (el_class (current_element st)) as [c' |].
  - case_bool_decide as Hne.
    + exists [not_in_scope c]. split; [reflexivity |]. split; [auto |].
      intros Heq. congruence.
    + exists []. rewrite app_nil_r. destruct st. split; [reflexivity |]. auto.
  - exists [not_in_scope c]. split; [reflexivity |]. split; [auto | discriminate].
Qed.

(** C9.  The PackageVerificationCode action is not total on its LINE
    values.  Whatever the parser state, a value that does not begin with a
    lowercase hexadecimal digit makes the pattern match [None], and the
    action raises [AttributeError] on [match.group], where the range actions
    test their match and log a local error: no local error is appended and
    no field is set.  The exception is not caught anywhere: [parse] on a
    package name followed by such a value raises it.  The action returns
    only on a value that begins with such a digit. *)
Theorem verification_code_without_hex_prefix (p2 : string) :
  (begins_with_lower_hex p2 = false ->
   verif_code_regex_match p2 = None
   /\ (forall st, exists st',
         p_pkg_verification_code p2 st = Fail (AttributeError "group") st'
         /\ current_element st' = current_element st)
   /\ (forall ext name,
         parse ext [package_name name; pkg_verif p2] = Raise (AttributeError "group")))
  /\ (begins_with_lower_hex p2 = true ->
      forall st, exists st', p_pkg_verification_code p2 st = Done tt st').
Proof.
  split.
  - intros H. pose proof (verif_code_regex_match_None p2 H) as Hm.
    split; [exact Hm |]. split.
    + intros st. unfold p_pkg_verification_code, bind.
      destruct (check_returns Package st) as [l [Hc _]]. rewrite Hc, Hm.
      eexists. split; [reflexivity |]. destruct st; reflexivity.
    + intros ext name. unfold parse, parse_from, end_of_input.
      cbn [yacc_parse reduce]. unfold bind at 1 2.
      unfold p_package_name, initialize_new_current_element, construct_current_element.
      cbn. unfold p_pkg_verification_code, bind.
      cbn. rewrite Hm. reflexivity.
  - intros H st. destruct (verif_code_regex_match_Some p2 H) as [[v g] Hm].
    unfold p_pkg_verification_code, bind.
    destruct (check_returns Package st) as [l [Hc _]]. rewrite Hc, Hm.
    eexists. reflexivity.
Qed.

Lemma verification_code_without_hex_prefix_witness :
  verif_code_regex_match "xyz" = None
  /\ parse spec_collaborators [package_name "P"; pkg_verif "xyz"]
     = Raise (AttributeError "group").
Proof.
  destruct (proj1 (verification_code_without_hex_prefix "xyz")) as [H1 [_ H3]].
  - reflexivity.
  - split; [exact H1 | apply H3].
Defined.

(** *** License-info sentinels *)

Lemma sentinel_write (c : ClassName) (key : string) (s : atom) (st : Parser) :
  exists st',
    (check_that_current_element_matches_class_for_value c ;; current_set key (Atom s)) st
    = Done tt st'
    /\ el_fields (current_element st') = <[key := Atom s]> (el_fields (current_element st)).
Proof.
  unfold bind. destruct (check_returns c st) as [l [Hc _]]. rewrite Hc.
  eexists. split; [reflexivity |]. reflexivity.
Qed.

Lemma append_onto_atom (c : ClassName) (key : string) (p2 x : atom) (st : Parser) :
  el_fields (current_element st) !! key = Some (Atom x) ->
  exists st',
    (check_that_current_element_matches_class_for_value c ;; current_setdefault_append key p2) st
    = Fail (AttributeError "append") st'
    /\ el_fields (current_element st') = el_fields (current_element st).
Proof.
  intros Hx. unfold bind. destruct (check_returns c st) as [l [Hc _]]. rewrite Hc.
  unfold current_setdefault_append, setdefault_append.
  cbn [current_element set_logger el_fields]. rewrite Hx.
  eexists. split; reflexivity.
Qed.

(** C6.  A sentinel written to a license-info field replaces what the field
    held (last write wins in that direction).  A concrete entry arriving
    while the field holds a sentinel is not written at all:
    [setdefault(key, [])] answers the sentinel object, [.append] raises
    [AttributeError], and the field still holds the sentinel. *)
Theorem license_info_after_sentinel (st : Parser) (s p2 : atom) :
  is_sentinel s = true ->
  is_sentinel p2 = false ->
  (exists st', p_file_license_info s st = Done tt st'
     /\ el_fields (current_element st')
        = <["license_info_in_file" := Atom s]> (el_fields (current_element st)))
  /\ (exists st', p_pkg_license_info_from_file s st = Done tt st'
        /\ el_fields (current_element st')
           = <["license_info_from_files" := Atom s]> (el_fields (current_element st)))
  /\ (el_fields (current_element st) !! "license_info_in_file" = Some (Atom s) ->
      exists st', p_file_license_info p2 st = Fail (AttributeError "append") st'
        /\ el_fields (current_element st') = el_fields (current_element st))
  /\ (el_fields (current_element st) !! "license_info_from_files" = Some (Atom s) ->
      exists st', p_pkg_license_info_from_file p2 st = Fail (AttributeError "append") st'
        /\ el_fields (current_element st') = el_fields (current_element st)).
Proof.
  intros Hs Hp. unfold p_file_license_info, p_pkg_license_info_from_file.
  split; [| split; [| split]].
  - destruct (sentinel_write File "license_info_in_file" s st) as [st' [H1 H2]].
    exists st'. split; [| exact H2]. rewrite <- H1. unfold bind.
    destruct (check_that_current_element_matches_class_for_value File st); [| reflexivity].
    rewrite Hs. reflexivity.
  - destruct (sentinel_write Package "license_info_from_files" s st) as [st' [H1 H2]].
    exists st'. split; [| exact H2]. rewrite <- H1. unfold bind.
    destruct (check_that_current_element_matches_class_for_value Package st); [| reflexivity].
    rewrite Hs. reflexivity.
  - intros Hx.
    destruct (append_onto_atom File "license_info_in_file" p2 s st Hx) as [st' [H1 H2]].
    exists st'. split; [| exact H2]. rewrite <- H1. unfold bind.
    destruct (check_that_current_element_matches_class_for_value File st); [| reflexivity].
    rewrite Hp. reflexivity.
  - intros Hx.
    destruct (append_onto_atom Package "license_info_from_files" p2 s st Hx) as [st' [H1 H2]].
    exists st'. split; [| exact H2]. rewrite <- H1. unfold bind.
    destruct (check_that_current_element_matches_class_for_value Package st); [| reflexivity].
    rewrite Hp. reflexivity.
Qed.

Lemma license_info_after_sentinel_witness :
  exists st',
    p_file_license_info (LicenseExpression "MIT") file_with_sentinel
    = Fail (AttributeError "append") st'
    /\ el_fields (current_element st') = el_fields (current_element file_with_sentinel).
Proof.
  apply (license_info_after_sentinel file_with_sentinel SpdxNone (LicenseExpression "MIT")
           eq_refl eq_refl).
  vm_compute. reflexivity.
Defined.

(** *** The target of an SPDXID tag *)

(** C8 fails as stated: what decides is whether the creation info already
    has an id, not whether a start tag was seen.  An SPDXID after a start
    tag goes to the creation info when that has no id yet, and the second of
    two SPDXID tags before any start tag goes to the (unopened) current
    element. *)
Lemma spdx_id_target_counterexample :
  (exists st,
     yacc_parse spec_collaborators [package_name "P"; spdx_id "SPDXRef-P"] init = Done tt st
     /\ el_class (current_element st) = Some Package
     /\ el_fields (current_element st) !! "spdx_id" = None
     /\ ci_fields (creation_info st) !! "spdx_id" = Some (Atom (Str "SPDXRef-P")))
  /\ (exists st,
        yacc_parse spec_collaborators [spdx_id "D"; spdx_id "E"] init = Done tt st
        /\ el_class (current_element st) = None
        /\ el_fields (current_element st) !! "spdx_id" = Some (Atom (Str "E"))
        /\ ci_fields (creation_info st) !! "spdx_id" = Some (Atom (Str "D"))).
Proof.
  split; eexists; (split; [vm_compute; reflexivity |]); repeat split; vm_compute; reflexivity.
Qed.

Create HintDb handlers.
#[local] Hint Unfold p_unknown_tag p_license p_actor_values reduce_text_or_line
  reduce_line_or_no_assertion reduce_line_or_no_assertion_or_none
  reduce_license_or_no_assertion_or_none reduce_actor_or_no_assertion p_spdx_id
  p_license_list_version p_doc_comment p_doc_namespace p_data_license p_doc_name
  call_parse_checksum p_external_document_ref p_spdx_version p_creator_comment p_creator
  p_created p_extracted_license_id p_extracted_cross_reference p_license_comment
  p_extracted_license_name p_extracted_license_text p_file_name p_file_contributor
  p_file_notice p_file_copyright_text p_file_license_comment p_file_attribution_text
  is_sentinel p_file_license_info p_file_comment p_file_type p_file_checksum
  p_file_license_concluded p_package_name p_pkg_description p_pkg_comment
  p_pkg_attribution_text p_pkg_summary p_pkg_copyright_text p_pkg_external_refs
  p_pkg_license_comment p_pkg_license_declared p_pkg_license_info_from_file
  p_pkg_license_concluded p_pkg_source_info p_pkg_checksum p_pkg_verification_code
  p_pkg_homepage p_pkg_download_location p_pkg_files_analyzed p_pkg_originator
  p_pkg_supplier p_pkg_file_name p_package_version p_primary_package_purpose
  current_set_date p_built_date p_release_date p_valid_until_date p_snippet_spdx_id
  p_snippet_name p_snippet_comment p_snippet_attribution_text p_snippet_copyright_text
  p_snippet_license_comment p_snippet_from_file_spdxid p_snippet_concluded_license
  p_snippet_license_info set_range p_snippet_byte_range p_snippet_line_range p_annotator
  p_annotation_date p_annotation_comment p_annotation_type p_annotation_spdx_id
  p_relationship p_relationship_value_with_doc_ref p_relationship_value_without_doc_ref
  reduce_relationship_value p_license_list_version_error p_doc_comment_error
  p_doc_namespace_error p_data_license_error p_doc_name_error p_external_document_ref_error
  p_spdx_version_error p_creator_comment_error p_creator_error p_created_error
  p_extracted_license_id_error p_extracted_cross_reference_error p_license_comment_error
  p_extracted_license_name_error p_extracted_license_text_error p_file_name_error
  p_file_contributor_error p_file_notice_error p_file_copyright_text_error
  p_file_license_comment_error p_file_attribution_text_error p_file_license_info_error
  p_file_comment_error p_file_type_error p_file_checksum_error
  p_file_license_concluded_error p_package_name_error p_pkg_description_error
  p_pkg_comment_error p_pkg_attribution_text_error p_pkg_summary_error
  p_pkg_copyright_text_error p_pkg_external_refs_error p_pkg_license_comment_error
  p_pkg_license_declared_error p_pkg_license_info_from_file_error
  p_pkg_license_concluded_error p_pkg_source_info_error p_pkg_checksum_error
  p_pkg_verification_code_error p_pkg_homepage_error p_pkg_download_location_error
  p_pkg_files_analyzed_error p_pkg_originator_error p_pkg_supplier_error
  p_pkg_file_name_error p_package_version_error p_primary_package_purpose_error
  p_built_date_error p_release_date_error p_valid_until_date_error p_snippet_spdx_id_error
  p_snippet_name_error p_snippet_comment_error p_snippet_attribution_text_error
  p_snippet_copyright_text_error p_snippet_license_comment_error
  p_snippet_from_file_spdxid_error p_snippet_concluded_license_error
  p_snippet_license_info_error p_snippet_byte_range_error p_snippet_line_range_error
  p_annotator_error p_annotation_date_error p_annotation_comment_error
  p_annotation_type_error p_annotation_spdx_id_error p_relationship_error : handlers.

Section DocumentId.

Variable v : value.

Lemma keeps_bind {A B : Type} (m : M A) (k : A -> M B) :
  keeps_document_id v m -> (forall a, keeps_document_id v (k a)) ->
  keeps_document_id v (bind m k).
Proof.
  intros Hm Hk st Hst. unfold bind. specialize (Hm st Hst).
  destruct (m st) as [a st' | e st']; simpl in *; [apply Hk; exact Hm | exact Hm].
Qed.

Lemma keeps_ret {A : Type} (a : A) : keeps_document_id v (ret a).
Proof. intros st H. exact H. Qed.

Lemma keeps_raise {A : Type} (e : exn) : keeps_document_id v (@raise A e).
Proof. intros st H. exact H. Qed.

Lemma keeps_modify (f : Parser -> Parser) :
  (forall st, creation_info (f st) = creation_info st) -> keeps_document_id v (modify f).
Proof. intros Hf st H. unfold modify. simpl. rewrite Hf. exact H. Qed.

Lemma keeps_read {A : Type} (f : Parser -> A) :
  keeps_document_id v (fun st => Done (f st) st).
Proof. intros st H. exact H. Qed.

Lemma keeps_logger_append (m : msg) : keeps_document_id v (logger_append m).
Proof. apply keeps_modify. reflexivity. Qed.

Lemma keeps_current_logger_append (m : msg) : keeps_document_id v (current_logger_append m).
Proof. apply keeps_modify. reflexivity. Qed.

Lemma keeps_creation_logger_append (m : msg) : keeps_document_id v (creation_logger_append m).
Proof. intros st H. exact H. Qed.

Lemma keeps_current_set (key : string) (x : value) : keeps_document_id v (current_set key x).
Proof. apply keeps_modify. reflexivity. Qed.

Lemma keeps_current_setdefault_append (key : string) (a : atom) :
  keeps_document_id v (current_setdefault_append key a).
Proof.
  intros st H. unfold current_setdefault_append.
  destruct (setdefault_append key a _); exact H.
Qed.

Lemma keeps_creation_set (key : string) (x : value) :
  key <> "spdx_id" -> keeps_document_id v (creation_set key x).
Proof.
  intros Hne st H. unfold creation_set, modify. simpl.
  rewrite lookup_insert_ne by exact Hne. exact H.
Qed.

Lemma keeps_creation_setdefault_append (key : string) (a : atom) :
  key <> "spdx_id" -> keeps_document_id v (creation_setdefault_append key a).
Proof.
  intros Hne st H. unfold creation_setdefault_append, setdefault_append.
  destruct (ci_fields (creation_info st) !! key) as [[x | l] |]; simpl;
    try rewrite lookup_insert_ne by exact Hne; exact H.
Qed.

Lemma keeps_creation_setdefault (key : string) :
  key <> "spdx_id" -> keeps_document_id v (creation_setdefault key).
Proof.
  intros Hne st H. unfold creation_setdefault.
  destruct (ci_fields (creation_info st) !! key) as [[x | l] |]; simpl;
    try rewrite lookup_insert_ne by exact Hne; exact H.
Qed.

Lemma keeps_check (c : ClassName) :
  keeps_document_id v (check_that_current_element_matches_class_for_value c).
Proof.
  intros st H. destruct (check_returns c st) as [l [Hc _]]. rewrite Hc. exact H.
Qed.

Lemma keeps_check_for_preceding :
  keeps_document_id v check_for_preceding_package_and_build_contains_relationship.
Proof.
  intros st H. unfold check_for_preceding_package_and_build_contains_relationship.
  repeat case_match; exact H.
Qed.

Lemma keeps_try_except {A : Type} (body : M A) (handler : payload -> M A) :
  keeps_document_id v body -> (forall p, keeps_document_id v (handler p)) ->
  keeps_document_id v (try_except_SPDXParsingError body handler).
Proof.
  intros Hb Hh st H. unfold try_except_SPDXParsingError. specialize (Hb st H).
  destruct (body st) as [a st' | e st']; simpl in *; [exact Hb |].
  destruct e; try exact Hb. apply Hh. exact Hb.
Qed.

Lemma keeps_fold_log (log : msg -> M unit) (messages : list msg) :
  (forall m, keeps_document_id v (log m)) ->
  keeps_document_id v (fold_right (fun m k => log m ;; k) (ret tt) messages).
Proof.
  intros Hlog. induction messages as [| m l IH]; simpl.
  - apply keeps_ret.
  - apply keeps_bind; [apply Hlog | intros _; exact IH].
Qed.

Lemma keeps_p_spdx_id (p2 : string) : keeps_document_id v (p_spdx_id p2).
Proof. intros st H. unfold p_spdx_id. rewrite H. exact H. Qed.

Variable ext : Collaborators.

Lemma keeps_construct_current_element :
  keeps_document_id v (construct_current_element ext).
Proof.
  intros st H. unfold construct_current_element.
  destruct (el_class (current_element st)) as [c |]; [| exact H].
  destruct (raise_parsing_error_if_logger_has_messages _ _).
  - apply (keeps_bind (logger_append _) (fun _ => modify _)).
    + apply keeps_logger_append.
    + intros _. apply keeps_modify. reflexivity.
    + exact H.
  - apply (keeps_bind (try_except_SPDXParsingError _ _) (fun _ => modify _)); [| | exact H].
    + apply keeps_try_except; [| intros p; apply keeps_logger_append].
      apply keeps_bind.
      * unfold build_and_append, construct_or_raise_parsing_error.
        apply keeps_bind; [apply keeps_modify; reflexivity | intros _].
        apply keeps_bind; [apply keeps_read | intros fields].
        apply keeps_bind; [| intros o; apply keeps_modify; reflexivity].
        destruct (construction_errors ext _ _); [apply keeps_raise | apply keeps_ret].
      * intros _. case_bool_decide; [apply keeps_check_for_preceding | apply keeps_ret].
    + intros _. apply keeps_modify. reflexivity.
Qed.

Lemma keeps_initialize_new_current_element (c : ClassName) :
  keeps_document_id v (initialize_new_current_element ext c).
Proof.
  unfold initialize_new_current_element.
  apply keeps_bind.
  - apply keeps_modify. intros st. repeat case_match; reflexivity.
  - intros _. apply keeps_bind; [apply keeps_construct_current_element |].
    intros _. apply keeps_modify. reflexivity.
Qed.

Lemma keeps_call_parse_checksum (log : msg -> M unit) (text : string) :
  (forall m, keeps_document_id v (log m)) ->
  keeps_document_id v (call_parse_checksum ext log text).
Proof.
  intros Hlog. unfold call_parse_checksum.
  destruct (parse_checksum ext text) as [[messages checksum] | e]; [| apply keeps_raise].
  apply keeps_bind; [apply keeps_fold_log; exact Hlog | intros _; apply keeps_ret].
Qed.

Ltac keeps_step :=
  first
    [ apply keeps_initialize_new_current_element
    | apply keeps_call_parse_checksum; intros ?
    | apply keeps_check
    | apply keeps_p_spdx_id
    | apply keeps_logger_append
    | apply keeps_current_logger_append
    | apply keeps_creation_logger_append
    | apply keeps_current_set
    | apply keeps_current_setdefault_append
    | apply keeps_creation_set; discriminate
    | apply keeps_creation_setdefault_append; discriminate
    | apply keeps_creation_setdefault; discriminate
    | apply keeps_ret
    | apply keeps_raise
    | apply keeps_bind; [| intros ?]
    | case_match ].

Lemma keeps_reduce (a : attrib) : keeps_document_id v (reduce ext a).
Proof.
  destruct a; cbn [reduce]; autounfold with handlers; repeat keeps_step.
Qed.

Lemma keeps_yacc_parse (text : list attrib) : keeps_document_id v (yacc_parse ext text).
Proof.
  induction text as [| a text IH]; cbn [yacc_parse].
  - apply keeps_ret.
  - apply keeps_bind; [apply keeps_reduce | intros _; exact IH].
Qed.

End DocumentId.

(** C8, amended.  An SPDXID tag sets the creation-info id exactly when the
    creation info has no id yet, whether or not a start tag was seen;
    otherwise it sets the id of the current element (open or not) and leaves
    the creation info alone.  Once the creation info has an id it keeps that
    very id through every later reduction, so every later SPDXID tag goes to
    the current element. *)
Theorem spdx_id_target (p2 : string) (st : Parser) :
  (ci_fields (creation_info st) !! "spdx_id" = None ->
   p_spdx_id p2 st
   = Done tt (set_creation_info
                (mkCreationInfoDict (ci_logger (creation_info st))
                   (<["spdx_id" := Atom (Str p2)]> (ci_fields (creation_info st)))) st))
  /\ (forall v, ci_fields (creation_info st) !! "spdx_id" = Some v ->
        p_spdx_id p2 st
        = Done tt (set_current_element
                     (mkElement (el_class (current_element st)) (el_logger (current_element st))
                        (<["spdx_id" := Atom (Str p2)]> (el_fields (current_element st)))) st)
        /\ forall ext text,
             ci_fields (creation_info (final_state (yacc_parse ext text st))) !! "spdx_id"
             = Some v).
Proof.
  split.
  - intros H. unfold p_spdx_id. rewrite H. reflexivity.
  - intros v H. split.
    + unfold p_spdx_id. rewrite H. reflexivity.
    + intros ext text. apply keeps_yacc_parse. exact H.
Qed.

Lemma spdx_id_target_witness :
  p_spdx_id "SPDXRef-P" package_open
  = Done tt (set_current_element
               (mkElement (Some Package) []
                  (<["spdx_id" := Atom (Str "SPDXRef-P")]> (<["name" := Atom (Str "P")]> ∅)))
               package_open)
  /\ ci_fields (creation_info
                  (final_state
                     (yacc_parse spec_collaborators [spdx_id "SPDXRef-P"; spdx_id "X"]
                        package_open))) !! "spdx_id"
     = Some (Atom (Str "D")).
Proof.
  destruct (proj2 (spdx_id_target "SPDXRef-P" package_open) (Atom (Str "D"))) as [H1 H2].
  - vm_compute. reflexivity.
  - split; [exact H1 | apply H2].
Defined.

(** *** The end of a parse *)

Lemma run_bind {A B : Type} (m : M A) (k : A -> M B) (st st' : Parser) (a : A)
    (o : outcome B) :
  m st = Done a st' -> k a st' = o -> bind m k st = o.
Proof. intros H1 H2. unfold bind. rewrite H1. exact H2. Qed.

Lemma run_bind_fail {A B : Type} (m : M A) (k : A -> M B) (st st' : Parser) (e : exn) :
  m st = Fail e st' -> bind m k st = Fail e st'.
Proof. intros H. unfold bind. rewrite H. reflexivity. Qed.

Lemma check_for_preceding_no_parsing_error (st : Parser) :
  forall p st', check_for_preceding_package_and_build_contains_relationship st
                <> Fail (SPDXParsingError p) st'.
Proof.
  intros p st'. unfold check_for_preceding_package_and_build_contains_relationship.
  repeat case_match; discriminate.
Qed.

Lemma construct_current_element_eq (ext : Collaborators) (st : Parser) (c : ClassName) :
  el_class (current_element st) = Some c ->
  el_logger (current_element st) = [] ->
  construct_current_element ext st
  = finalize_with (construction_errors ext (class_name c) (el_fields (current_element st)))
      c st.
Proof.
  intros Hc Hl. unfold construct_current_element, finalize_with. rewrite Hc, Hl.
  cbn [raise_parsing_error_if_logger_has_messages].
  unfold bind at 1. unfold try_except_SPDXParsingError.
  unfold bind at 1. unfold build_and_append. unfold bind at 1 2 3.
  unfold modify at 1. unfold construct_or_raise_parsing_error.
  cbn [current_element set_elements_build set_current_element el_fields].
  destruct (construction_errors ext (class_name c) (el_fields (current_element st))) as [l |].
  - reflexivity.
  - cbn. case_bool_decide.
    + pose proof check_for_preceding_no_parsing_error as Hno.
      match goal with
      | |- context [check_for_preceding_package_and_build_contains_relationship ?s] =>
          specialize (Hno s);
          destruct (check_for_preceding_package_and_build_contains_relationship s)
            as [[] st' | e st']
      end.
      * reflexivity.
      * destruct e; try reflexivity. exfalso. eapply Hno. reflexivity.
    + reflexivity.
Qed.

Lemma construct_step (ext : Collaborators) (st : Parser) (c : ClassName)
    (r : option (list msg)) (o : outcome unit) :
  el_class (current_element st) = Some c ->
  el_logger (current_element st) = [] ->
  construction_errors ext (class_name c) (el_fields (current_element st)) = r ->
  finalize_with r c st = o ->
  construct_current_element ext st = o.
Proof.
  intros Hc Hl Hr Ho. rewrite (construct_current_element_eq ext st c Hc Hl), Hr. exact Ho.
Qed.

(* one action whose result is computed *)
Ltac run := eapply run_bind; [vm_compute; reflexivity |].

(* [construct_current_element] on a computed state, [H] telling that typed
   construction answers [r] *)
Ltac construct_with ext c r H :=
  eapply (construct_step ext _ c r);
  [ vm_compute; reflexivity | vm_compute; reflexivity | exact H | vm_compute; reflexivity ].

(* the six reductions of the example, [Hp] telling that typed construction
   of the package answers [r] *)
Ltac example_input ext r Hp :=
  do 3 run;
  eapply run_bind;
  [ unfold p_file_name; eapply run_bind; [| vm_compute; reflexivity];
    unfold initialize_new_current_element; run;
    eapply run_bind; [construct_with ext Package r Hp | vm_compute; reflexivity]
  | do 2 run; vm_compute; reflexivity ].

Lemma example_end_of_input (ext : Collaborators) :
  match construction_errors ext "Package" example_package_args,
        construction_errors ext "File" example_file_args with
  | None, None =>
      exists st, end_of_input ext implicit_containment_example init
                 = Fail (KeyError "relationships") st
  | Some _, None =>
      exists st, end_of_input ext implicit_containment_example init = Fail IndexError st
  | None, Some lf =>
      exists st, end_of_input ext implicit_containment_example init = Done tt st
                 /\ logger st = [Items lf]
  | Some lp, Some lf =>
      exists st, end_of_input ext implicit_containment_example init = Done tt st
                 /\ logger st = [Items lp; Items lf]
  end.
Proof.
  destruct (construction_errors ext "Package" example_package_args) as [lp |] eqn:Hp;
    destruct (construction_errors ext "File" example_file_args) as [lf |] eqn:Hf;
    eexists; unfold end_of_input, implicit_containment_example; cbn [yacc_parse reduce].
  - split;
      [ eapply run_bind; [example_input ext (Some lp) Hp |];
        eapply run_bind; [construct_with ext File (Some lf) Hf | vm_compute; reflexivity]
      | reflexivity ].
  - eapply run_bind; [example_input ext (Some lp) Hp |].
    eapply run_bind_fail. construct_with ext File (@None (list msg)) Hf.
  - split;
      [ eapply run_bind; [example_input ext (@None (list msg)) Hp |];
        eapply run_bind; [construct_with ext File (Some lf) Hf | vm_compute; reflexivity]
      | reflexivity ].
  - eapply run_bind; [example_input ext (@None (list msg)) Hp |].
    eapply run_bind_fail. construct_with ext File (@None (list msg)) Hf.
Qed.

(** C2.  On the implicit-containment example of the specification [parse]
    never returns a document, whatever the collaborators are.  When typed
    construction accepts both the package and the file, synthesis looks up
    [self.elements_build["relationships"]] before any relationship list
    exists and [parse] dies with [KeyError]; when it rejects the package
    only, the empty ["packages"] list is indexed with [-1]; when it rejects
    the file, the construction messages are raised at the end. *)
Theorem implicit_containment_example_raises (ext : Collaborators) :
  parse ext implicit_containment_example
  = match construction_errors ext "Package" example_package_args,
          construction_errors ext "File" example_file_args with
    | None, None => Raise (KeyError "relationships")
    | Some _, None => Raise IndexError
    | None, Some lf => Raise (SPDXParsingError (Messages [Items lf]))
    | Some lp, Some lf => Raise (SPDXParsingError (Messages [Items lp; Items lf]))
    end.
Proof.
  pose proof (example_end_of_input ext) as H. unfold parse, parse_from.
  destruct (construction_errors ext "Package" example_package_args) as [lp |];
    destruct (construction_errors ext "File" example_file_args) as [lf |].
  - destruct H as [st [H Hl]]. rewrite H. rewrite Hl. reflexivity.
  - destruct H as [st H]. rewrite H. reflexivity.
  - destruct H as [st [H Hl]]. rewrite H. rewrite Hl. reflexivity.
  - destruct H as [st H]. rewrite H. reflexivity.
Qed.

(** C7 fails as stated: an empty document-level logger is not enough for a
    document.  On the empty input the logger is empty after finalization,
    yet [parse] raises, because the creation info cannot be constructed. *)
Lemma empty_logger_without_document :
  exists st,
    end_of_input spec_collaborators [] init = Done tt st
    /\ logger st = []
    /\ forall d, parse spec_collaborators [] <> Ok d.
Proof.
  eexists. split; [vm_compute; reflexivity |]. split; [reflexivity |].
  intros d. vm_compute. discriminate.
Qed.

(** C7, amended.  An exception that escapes the grammar actions or the final
    finalization escapes [parse].  Otherwise, with [st] the state after
    end-of-input finalization and the merge of the creation-info logger: a
    non-empty document-level logger makes [parse] raise with exactly that
    message list, in order; a document is returned only when that logger is
    empty; and when it is empty, [parse] returns the document exactly when
    typed construction of the creation info and of the document both
    succeed, and raises the construction failure otherwise. *)
Theorem parse_outcome (ext : Collaborators) (text : list attrib) :
  (forall e st, end_of_input ext text init = Fail e st -> parse ext text = Raise e)
  /\ (forall st,
        end_of_input ext text init = Done tt st ->
        (logger st <> [] -> parse ext text = Raise (SPDXParsingError (Messages (logger st))))
        /\ (forall d, parse ext text = Ok d -> logger st = [])
        /\ (logger st = [] ->
            parse ext text
            = match construction_errors ext "CreationInfo" (ci_fields (creation_info st)) with
              | Some l => Raise (SPDXParsingError (Messages l))
              | None =>
                  match Document_errors ext (ci_fields (creation_info st))
                          (elements_build st) with
                  | Some l => Raise (SPDXParsingError (Messages l))
                  | None => Ok (mkDocument (ci_fields (creation_info st)) (elements_build st))
                  end
              end)).
Proof.
  split.
  - intros e st Hend. unfold parse, parse_from. rewrite Hend. reflexivity.
  - intros st Hend. unfold parse, parse_from. rewrite Hend.
    destruct (logger st) as [| m l] eqn:Hl; cbn [raise_parsing_error_if_logger_has_messages].
    + split; [congruence |]. split; reflexivity.
    + split; [reflexivity |]. split; discriminate.
Qed.

Lemma parse_outcome_witness :
  parse spec_collaborators [file_comment (LINE "c"); unknown_tag 2]
  = Raise (SPDXParsingError
             (Messages [not_in_scope File; Text "Unknown tag provided in line 2"])).
Proof.
  eapply (proj1 (proj2 (parse_outcome spec_collaborators
                          [file_comment (LINE "c"); unknown_tag 2])
                   _ ltac:(vm_compute; reflexivity))).
  discriminate.
Defined.

(** *** Value tags out of scope *)

Lemma check_in_scope (c : ClassName) (st : Parser) :
  el_class (current_element st) = Some c ->
  check_that_current_element_matches_class_for_value c st = Done tt st.
Proof.
  intros H. unfold check_that_current_element_matches_class_for_value. rewrite H.
  case_bool_decide; [congruence | reflexivity].
Qed.

Lemma check_out_of_scope (c : ClassName) (st : Parser) :
  el_class (current_element st) <> Some c ->
  check_that_current_element_matches_class_for_value c st
  = Done tt (set_logger (logger st ++ [not_in_scope c]) st).
Proof.
  intros H. unfold check_that_current_element_matches_class_for_value.
  destruct (el_class (current_element st)) as [c' |]; [| reflexivity].
  case_bool_decide as Hne; [reflexivity |].
  exfalso. apply H. f_equal. destruct (decide (c = c')); congruence.
Qed.

Lemma blind_ret {A : Type} (a : A) : scope_blind (ret a).
Proof. intros st c l. reflexivity. Qed.

Lemma blind_raise {A : Type} (e : exn) : scope_blind (@raise A e).
Proof. intros st c l. reflexivity. Qed.

Lemma blind_bind {A B : Type} (m : M A) (k : A -> M B) :
  scope_blind m -> (forall a, scope_blind (k a)) -> scope_blind (bind m k).
Proof.
  intros Hm Hk st c l. unfold bind. rewrite Hm.
  destruct (m st) as [a st' | e st']; simpl; [apply Hk | reflexivity].
Qed.

Lemma blind_current_set (key : string) (x : value) : scope_blind (current_set key x).
Proof. intros st c l. reflexivity. Qed.

Lemma blind_current_logger_append (m : msg) : scope_blind (current_logger_append m).
Proof. intros st c l. reflexivity. Qed.

Lemma blind_current_setdefault_append (key : string) (a : atom) :
  scope_blind (current_setdefault_append key a).
Proof.
  intros st c l. unfold current_setdefault_append.
  cbn [tweak with_class set_logger set_current_element current_element el_fields].
  destruct (setdefault_append key a (el_fields (current_element st))); reflexivity.
Qed.

Lemma blind_fold_log (messages : list msg) :
  scope_blind (fold_right (fun m k => current_logger_append m ;; k) (ret tt) messages).
Proof.
  induction messages as [| m l IH]; simpl.
  - apply blind_ret.
  - apply blind_bind; [apply blind_current_logger_append | intros _; exact IH].
Qed.

Lemma blind_call_parse_checksum (ext : Collaborators) (text : string) :
  scope_blind (call_parse_checksum ext current_logger_append text).
Proof.
  unfold call_parse_checksum.
  destruct (parse_checksum ext text) as [[messages checksum] | e]; [| apply blind_raise].
  apply blind_bind; [apply blind_fold_log | intros _; apply blind_ret].
Qed.

Ltac blind_step :=
  first
    [ apply blind_call_parse_checksum
    | apply blind_current_set
    | apply blind_current_logger_append
    | apply blind_current_setdefault_append
    | apply blind_ret
    | apply blind_raise
    | apply blind_bind; [| intros ?]
    | case_match ].

(** Every scope-checked value tag whose value reduces is the scope check
    followed by an action that is blind to the class in scope. *)
Lemma value_tag_shape (ext : Collaborators) (a : attrib) (C : ClassName) :
  scope_class a = Some C ->
  value_raises ext a = None ->
  exists body : M unit,
    scope_blind body
    /\ forall st,
         reduce ext a st
         = (check_that_current_element_matches_class_for_value C ;; body) st.
Proof.
  intros HC Hv.
  destruct a; try discriminate HC; injection HC as <-; cbn [reduce];
    autounfold with handlers;
    try (destruct v; cbn [value_raises] in Hv;
         cbn [reduce_license_or_no_assertion_or_none reduce_actor_or_no_assertion];
         unfold p_license, p_actor_values;
         try (destruct (licensing_parse ext line); [| discriminate Hv]);
         try (destruct (parse_actor ext v); [discriminate Hv |]));
    (eexists; split; [| intros st; reflexivity]);
    unfold set_range, current_set_date; repeat blind_step.
Qed.

Lemma value_tag_out_of_scope (ext : Collaborators) (a : attrib) (C : ClassName)
    (st : Parser) :
  scope_class a = Some C ->
  value_raises ext a = None ->
  el_class (current_element st) <> Some C ->
  reduce ext a st
  = map_state (tweak (el_class (current_element st)) (logger st ++ [not_in_scope C]))
      (reduce ext a (with_class (Some C) st)).
Proof.
  intros HC Hv Hout.
  destruct (value_tag_shape ext a C HC Hv) as [body [Hblind Hshape]].
  rewrite !Hshape. unfold bind.
  rewrite (check_out_of_scope C st Hout).
  rewrite (check_in_scope C (with_class (Some C) st)) by reflexivity.
  rewrite <- Hblind. f_equal. destruct st as [lg stk [cls elog flds] ci eb]. reflexivity.
Qed.

(** C1 fails as stated: the scope error is logged, but the field is written
    all the same.  A FileComment arriving while a package is open sets the
    package accumulator's ["comment"]. *)
Lemma out_of_scope_tag_changes_fields :
  el_class (current_element package_open) = Some Package
  /\ el_fields (current_element package_open) !! "comment" = None
  /\ exists st',
       reduce spec_collaborators (file_comment (LINE "c")) package_open = Done tt st'
       /\ logger st' = [not_in_scope File]
       /\ el_fields (current_element st') !! "comment" = Some (Atom (Str "c")).
Proof.
  split; [reflexivity |]. split; [vm_compute; reflexivity |].
  eexists. split; [vm_compute; reflexivity |]. split; vm_compute; reflexivity.
Qed.

(** C1, amended.  When a value tag of kind [C] whose action performs the
    scope check (every value tag but the annotation SPDXREF tag), with a
    value that its leaf parser accepts, is reduced while the current element
    is of another kind or no element is open: the scope error is appended to
    the document-level logger and the kind of the current element stays what
    it was; apart from that the action does exactly what it does when [C] is
    in scope: the same fields and local errors end up in the current
    element, and the same exception, if any, is raised. *)
Theorem scope_error_then_same_update (ext : Collaborators) (a : attrib) (C : ClassName)
    (st : Parser) :
  scope_class a = Some C ->
  value_raises ext a = None ->
  el_class (current_element st) <> Some C ->
  let o := reduce ext a st in
  let o' := reduce ext a (with_class (Some C) st) in
  logger (final_state o) = logger st ++ [not_in_scope C]
  /\ el_class (current_element (final_state o)) = el_class (current_element st)
  /\ el_fields (current_element (final_state o)) = el_fields (current_element (final_state o'))
  /\ el_logger (current_element (final_state o)) = el_logger (current_element (final_state o'))
  /\ raised o = raised o'.
Proof.
  intros HC Hv Hout o o'. subst o o'.
  rewrite (value_tag_out_of_scope ext a C st HC Hv Hout).
  destruct (reduce ext a (with_class (Some C) st)) as [u st' | e st']; simpl;
    repeat split; reflexivity.
Qed.

Lemma scope_error_then_same_update_witness :
  let o := reduce spec_collaborators (file_comment (LINE "c")) package_open in
  let o' := reduce spec_collaborators (file_comment (LINE "c"))
              (with_class (Some File) package_open) in
  logger (final_state o) = logger package_open ++ [not_in_scope File]
  /\ el_class (current_element (final_state o)) = el_class (current_element package_open)
  /\ el_fields (current_element (final_state o)) = el_fields (current_element (final_state o'))
  /\ el_logger (current_element (final_state o)) = el_logger (current_element (final_state o'))
  /\ raised o = raised o'.
Proof.
  apply (scope_error_then_same_update spec_collaborators (file_comment (LINE "c")) File
           package_open).
  - reflexivity.
  - reflexivity.
  - vm_compute. discriminate.
Defined.

(** C10.  The annotation SPDXREF action returns in every state, sets
    ["spdx_id"] on whatever the current element is, open or not and of any
    kind, and leaves the document-level logger (and everything else) as it
    was.  Every other value tag of an element kind, reduced while its kind is
    not in scope, appends the scope error. *)
Theorem annotation_spdx_id_unchecked :
  (forall (p2 : string) (st : Parser),
     p_annotation_spdx_id p2 st
     = Done tt
         (set_current_element
            (mkElement (el_class (current_element st)) (el_logger (current_element st))
               (<["spdx_id" := Atom (Str p2)]> (el_fields (current_element st)))) st))
  /\ (forall (ext : Collaborators) (a : attrib) (C : ClassName) (st : Parser),
        scope_class a = Some C ->
        value_raises ext a = None ->
        el_class (current_element st) <> Some C ->
        logger (final_state (reduce ext a st)) = logger st ++ [not_in_scope C]).
Proof.
  split.
  - intros p2 st. reflexivity.
  - intros ext a C st HC Hv Hout.
    rewrite (value_tag_out_of_scope ext a C st HC Hv Hout).
    destruct (reduce ext a (with_class (Some C) st)); reflexivity.
Qed.

Lemma annotation_spdx_id_unchecked_witness :
  logger (final_state (reduce spec_collaborators annotation_spdx_id_example package_open))
  = logger package_open
  /\ logger (final_state
               (reduce spec_collaborators (annotation_comment (LINE "c")) package_open))
     = logger package_open ++ [not_in_scope Annotation].
Proof.
  destruct annotation_spdx_id_unchecked as [H1 H2]. split.
  - unfold annotation_spdx_id_example. cbn [reduce]. rewrite H1. reflexivity.
  - apply H2.
    + reflexivity.
    + reflexivity.
    + vm_compute. discriminate.
Defined.

End TagValueSpec.

(** * Further properties of the relationship normalizer *)
Module RelationshipParserExtra.
Import RelationshipParser.
Import RelationshipParserSpec.


(** *** Inverse types *)

Lemma convert_relationship_types_involutive (t t' : RelationshipType) :
  convert_relationship_types t = Some t' -> convert_relationship_types t' = Some t.
Proof. destruct t; simpl; intros H; inversion H; reflexivity. Qed.

(** X1.  [convert_relationship] swaps the two ids and replaces the type by
    its paired type, keeping the comment; converting the result again gives
    the relationship back.  For a type outside the two pairs the lookup of
    the paired type fails with [KeyError]. *)
Theorem convert_relationship_round_trip (r : Relationship) :
  (forall t, convert_relationship_types (relationship_type r) = Some t ->
     convert_relationship r
     = Ok (mkRelationship (related_spdx_element_id r) t (spdx_element_id r) (comment r))
     /\ convert_relationship
          (mkRelationship (related_spdx_element_id r) t (spdx_element_id r) (comment r))
        = Ok r)
  /\ (convert_relationship_types (relationship_type r) = None ->
      convert_relationship r = Raise (KeyError "relationship_type")).
Proof.
  split.
  - intros t Ht. unfold convert_relationship. rewrite Ht. split; [reflexivity |].
    cbn [relationship_type]. rewrite (convert_relationship_types_involutive _ _ Ht).
    destruct r; reflexivity.
  - intros Hn. unfold convert_relationship. rewrite Hn. reflexivity.
Qed.

Lemma convert_relationship_round_trip_witness :
  convert_relationship (mkRelationship "SPDXRef-A" CONTAINS "SPDXRef-B" (Some "c"))
  = Ok (mkRelationship "SPDXRef-B" CONTAINED_BY "SPDXRef-A" (Some "c"))
  /\ convert_relationship (mkRelationship "SPDXRef-B" CONTAINED_BY "SPDXRef-A" (Some "c"))
     = Ok (mkRelationship "SPDXRef-A" CONTAINS "SPDXRef-B" (Some "c")).
Proof.
  exact (proj1 (convert_relationship_round_trip
                  (mkRelationship "SPDXRef-A" CONTAINS "SPDXRef-B" (Some "c")))
           CONTAINED_BY eq_refl).
Defined.

(** *** The duplicate test outside its callers' use *)

(** X2.  For a candidate whose type has no paired type (DEPENDENCY_OF and
    every type outside the two pairs) the duplicate test never answers
    [False]: it answers [True] when the candidate itself is in the
    comment-stripped list, and otherwise the lookup of the paired type
    raises [KeyError]. *)
Theorem duplicate_test_without_inverse (r : Relationship) (created : list Relationship) :
  convert_relationship_types (relationship_type r) = None ->
  (r ∈ ignore_any_comments_in_relationship_list created ->
   check_if_relationship_exists r created = Ok true)
  /\ (r ∉ ignore_any_comments_in_relationship_list created ->
      check_if_relationship_exists r created = Raise (KeyError "relationship_type"))
  /\ check_if_relationship_exists r created <> Ok false.
Proof.
  intros Hn. unfold check_if_relationship_exists, convert_relationship. rewrite Hn.
  case_bool_decide as Hin.
  - split; [reflexivity |]. split; [intros Hc; contradiction | discriminate].
  - split; [intros Hc; contradiction |]. split; [reflexivity | discriminate].
Qed.

Lemma duplicate_test_without_inverse_witness :
  check_if_relationship_exists (implied DEPENDENCY_OF "SPDXRef-A" "SPDXRef-B") []
  = Raise (KeyError "relationship_type").
Proof.
  apply (duplicate_test_without_inverse (implied DEPENDENCY_OF "SPDXRef-A" "SPDXRef-B") []
           eq_refl).
  rewrite list_elem_of_In. simpl. tauto.
Defined.

Lemma inverse_edge_convert (r r' : Relationship) :
  convert_relationship r = Ok r' ->
  inverse_edge r = Some (edge r') /\ inverse_edge r' = Some (edge r).
Proof.
  unfold convert_relationship, inverse_edge.
  destruct (convert_relationship_types (relationship_type r)) as [t |] eqn:Ht; [| discriminate].
  intros H. inversion H. subst r'. cbn [relationship_type edge spdx_element_id
    related_spdx_element_id]. rewrite (convert_relationship_types_involutive _ _ Ht).
  split; reflexivity.
Qed.

(** X3.  The duplicate test does not depend on the direction in which a
    fact is stated: a comment-free candidate and its converted form get the
    same answer against every list. *)
Theorem duplicate_test_direction (r r' : Relationship) (created : list Relationship) :
  comment r = None ->
  convert_relationship r = Ok r' ->
  check_if_relationship_exists r created = check_if_relationship_exists r' created.
Proof.
  intros Hc Hconv.
  destruct (inverse_edge_convert r r' Hconv) as [Hi Hi'].
  assert (Hc' : comment r' = None).
  { unfold convert_relationship in Hconv.
    destruct (convert_relationship_types (relationship_type r)); [| discriminate].
    inversion Hconv. exact Hc. }
  assert (Hs : is_Some (convert_relationship_types (relationship_type r))).
  { unfold inverse_edge in Hi.
    destruct (convert_relationship_types (relationship_type r)); [eauto | discriminate]. }
  assert (Hs' : is_Some (convert_relationship_types (relationship_type r'))).
  { unfold inverse_edge in Hi'.
    destruct (convert_relationship_types (relationship_type r')); [eauto | discriminate]. }
  rewrite (RelationshipParserSpec.check_if_relationship_exists_invertible r created Hc Hs).
  rewrite (RelationshipParserSpec.check_if_relationship_exists_invertible r' created Hc' Hs').
  f_equal. unfold already_created. rewrite Hi, Hi'.
  induction created as [| x created IH]; [reflexivity |]. simpl. rewrite IH. f_equal.
  destruct (bool_decide (edge x = edge r)) eqn:E1, (bool_decide (edge x = edge r')) eqn:E2;
    simpl.
  - reflexivity.
  - apply bool_decide_eq_true in E1. rewrite E1. symmetry. apply bool_decide_eq_true. reflexivity.
  - apply bool_decide_eq_true in E2. rewrite E2. apply bool_decide_eq_true. reflexivity.
  - apply bool_decide_eq_false in E1. apply bool_decide_eq_false in E2.
    transitivity false; [| symmetry]; apply bool_decide_eq_false; congruence.
Qed.

Lemma duplicate_test_direction_witness :
  let created := [mkRelationship "SPDXRef-A" DESCRIBES "SPDXRef-B" (Some "c")] in
  check_if_relationship_exists (implied DESCRIBES "SPDXRef-A" "SPDXRef-B") created
  = check_if_relationship_exists (implied DESCRIBED_BY "SPDXRef-B" "SPDXRef-A") created.
Proof.
  intros created.
  apply (duplicate_test_direction (implied DESCRIBES "SPDXRef-A" "SPDXRef-B")
           (implied DESCRIBED_BY "SPDXRef-B" "SPDXRef-A") created); reflexivity.
Defined.

(** *** Explicit relationships *)

Section Explicit.

Variable RelationshipType_getitem : string -> option RelationshipType.

(** X4.  [parse_relationship] returns a relationship exactly when the type
    text is a string whose normalized form names a member of the
    enumeration, both ids are strings and the comment is a string or absent;
    the relationship then holds that member, the two ids and the comment as
    they were given. *)
Theorem parse_relationship_success (d : relationship_dict) (r : Relationship) :
  parse_relationship RelationshipType_getitem d = Ok r
  <-> exists s,
        relationshipType d = PyStr s
        /\ RelationshipType_getitem (transform_json_str_to_enum_name s)
           = Some (relationship_type r)
        /\ spdxElementId d = PyStr (spdx_element_id r)
        /\ relatedSpdxElement d = PyStr (related_spdx_element_id r)
        /\ rd_comment d = optional_comment (comment r).
Proof.
  unfold parse_relationship, try_parse_required_field_append_logger_when_failing,
    parse_relationship_type.
  destruct d as [a b ty c]. cbn [relationshipType spdxElementId relatedSpdxElement rd_comment].
  split.
  - destruct ty as [| s | z | bb]; cbn; try discriminate.
    destruct (RelationshipType_getitem (transform_json_str_to_enum_name s)) as [t |] eqn:Ht;
      cbn; [| discriminate].
    destruct a as [| a | |], b as [| b | |], c as [| c | |]; cbn; try discriminate;
      intros H; inversion H; subst; exists s; cbn; auto.
  - intros [s [-> [Ht [-> [-> ->]]]]]. rewrite Ht. cbn.
    destruct r as [a t b [c |]]; reflexivity.
Qed.

Lemma parse_relationship_raises (d : relationship_dict) (e : exn) :
  parse_relationship RelationshipType_getitem d = Raise e ->
  exists m, e = SPDXParsingError (Messages [m]).
Proof.
  unfold parse_relationship, try_parse_required_field_append_logger_when_failing,
    parse_relationship_type.
  destruct d as [a b ty c]. cbn [relationshipType spdxElementId relatedSpdxElement rd_comment].
  destruct ty as [| s | z | bb]; cbn; try (intros H; inversion H; eauto; fail).
  destruct (RelationshipType_getitem (transform_json_str_to_enum_name s)) as [t |];
    cbn; [| intros H; inversion H; eauto].
  destruct a as [| a | |], b as [| b | |], c as [| c | |]; cbn; intros H; inversion H; eauto.
Qed.

Lemma parse_relationships_loop_all_ok (ds : list relationship_dict) (rs : list Relationship) :
  Forall2 (fun d r => parse_relationship RelationshipType_getitem d = Ok r) ds rs ->
  forall acc logger,
    parse_relationships_loop RelationshipType_getitem ds acc logger = Ok (acc ++ rs, logger).
Proof.
  induction 1 as [| d r ds rs Hd _ IH]; intros acc logger; cbn [parse_relationships_loop].
  - rewrite app_nil_r. reflexivity.
  - rewrite Hd, IH, <- app_assoc. reflexivity.
Qed.

Lemma parse_relationships_loop_spec (ds : list relationship_dict) :
  forall acc logger,
  exists oks errs,
    parse_relationships_loop RelationshipType_getitem ds acc logger
    = Ok (acc ++ oks, logger ++ errs)
    /\ (errs = [] ->
        Forall2 (fun d r => parse_relationship RelationshipType_getitem d = Ok r) ds oks)
    /\ ((exists d, d ∈ ds /\ forall r, parse_relationship RelationshipType_getitem d <> Ok r) ->
        errs <> []).
Proof.
  induction ds as [| d ds IH]; intros acc logger; cbn [parse_relationships_loop].
  - exists [], []. rewrite !app_nil_r. split; [reflexivity |]. split; [constructor |].
    intros [d [Hd _]]. inversion Hd.
  - destruct (parse_relationship RelationshipType_getitem d) as [r | e] eqn:Hd.
    + destruct (IH (acc ++ [r]) logger) as [oks [errs [Hl [Hok Herr]]]].
      exists (r :: oks), errs. rewrite Hl, <- app_assoc. split; [reflexivity |]. split.
      * intros He. constructor; [exact Hd | auto].
      * intros [d' [Hin Hfail]]. apply Herr. exists d'. split; [| exact Hfail].
        apply elem_of_cons in Hin. destruct Hin as [-> | Hin]; [| exact Hin].
        exfalso. apply (Hfail r). exact Hd.
    + destruct (parse_relationship_raises d e Hd) as [m ->]. cbn [append_all].
      destruct (IH acc (logger ++ [m])) as [oks [errs [Hl [Hok Herr]]]].
      exists oks, (m :: errs). rewrite Hl, <- app_assoc. split; [reflexivity |].
      split; [discriminate | intros _; discriminate].
Qed.

(** X5.  [parse_relationships] is all or nothing.  It returns a list
    exactly when every entry parses, and the list then holds the parsed
    relationships in the order of the entries.  As soon as one entry does
    not parse, whatever the others are, it raises with the boolean [True] in
    the place of the messages, and [parse_all_relationships] dies with
    [TypeError] on it. *)
Theorem parse_relationships_all_or_nothing (ds : list relationship_dict) :
  (forall rs, parse_relationships RelationshipType_getitem ds = Ok rs
              <-> Forall2 (fun d r => parse_relationship RelationshipType_getitem d = Ok r) ds rs)
  /\ ((exists d, d ∈ ds /\ forall r, parse_relationship RelationshipType_getitem d <> Ok r) ->
      parse_relationships RelationshipType_getitem ds = Raise (SPDXParsingError (Boolean true))
      /\ forall self_logger describes doc_id pkgs fls,
           parse_all_relationships RelationshipType_getitem self_logger
             (mkInputDoc (Some ds) describes doc_id pkgs fls) = Raise TypeError).
Proof.
  split.
  - intros rs. split.
    + unfold parse_relationships.
      destruct (parse_relationships_loop_spec ds [] []) as [oks [errs [Hl [Hok _]]]].
      rewrite Hl. cbn [app]. destruct errs as [| m errs]; cbn [has_messages].
      * intros H. inversion H. subst. auto.
      * discriminate.
    + intros H. unfold parse_relationships.
      rewrite (parse_relationships_loop_all_ok ds rs H). reflexivity.
  - intros Hbad.
    assert (Hraise : parse_relationships RelationshipType_getitem ds
                     = Raise (SPDXParsingError (Boolean true))).
    { unfold parse_relationships.
      destruct (parse_relationships_loop_spec ds [] []) as [oks [errs [Hl [_ Herr]]]].
      rewrite Hl. cbn [app]. specialize (Herr Hbad).
      destruct errs; [congruence | reflexivity]. }
    split; [exact Hraise |]. intros self_logger describes doc_id pkgs fls.
    unfold parse_all_relationships. cbn [relationships].
    destruct ds as [| d ds']; [destruct Hbad as [d [Hd _]]; inversion Hd |].
    cbn [truthy]. rewrite Hraise. reflexivity.
Qed.

End Explicit.

Lemma parse_relationships_all_or_nothing_witness :
  let good := mkRelationshipDict (PyStr "SPDXRef-A") (PyStr "SPDXRef-B") (PyStr "contained-by")
                PyNone in
  let bad := mkRelationshipDict (PyStr "SPDXRef-A") (PyInt 7) (PyStr "DESCRIBES") PyNone in
  parse_relationships named_members [good; good]
  = Ok [implied CONTAINED_BY "SPDXRef-A" "SPDXRef-B"; implied CONTAINED_BY "SPDXRef-A" "SPDXRef-B"]
  /\ parse_relationships named_members [good; bad] = Raise (SPDXParsingError (Boolean true)).
Proof.
  intros good bad. split.
  - apply (proj1 (parse_relationships_all_or_nothing named_members [good; good])).
    repeat constructor.
  - apply (proj2 (parse_relationships_all_or_nothing named_members [good; bad])).
    exists bad. split; [set_solver |]. intros r. vm_compute. discriminate.
Defined.

Lemma parse_relationship_success_witness :
  parse_relationship named_members
    (mkRelationshipDict (PyStr "SPDXRef-A") (PyStr "SPDXRef-B") (PyStr "described-by")
       (PyStr "c"))
  = Ok (mkRelationship "SPDXRef-A" DESCRIBED_BY "SPDXRef-B" (Some "c")).
Proof.
  apply (proj2 (parse_relationship_success named_members _ _)).
  exists "described-by". repeat split; reflexivity.
Defined.

(** *** The implied phases on ids of any type *)

Lemma implied_edge_step_target (t : RelationshipType) (a : string) (v : pyval)
    (created edges : list Relationship) (logger : Logger) :
  is_Some (convert_relationship_types t) ->
  implied_edge_step t (PyStr a) v created (edges, logger)
  = Ok (edges ++ List.filter (fun r => negb (already_created created r))
                   (map (implied t a) (string_ids [v])),
        logger ++ target_errors [v]).
Proof.
  intros Ht. destruct v as [| b | z | b].
  2: { rewrite implied_edge_step_strings by exact Ht. cbn. rewrite app_nil_r. reflexivity. }
  all: cbn; rewrite app_nil_r; reflexivity.
Qed.

Lemma string_ids_cons (v : pyval) (ids : list pyval) :
  string_ids (v :: ids) = string_ids [v] ++ string_ids ids.
Proof. unfold string_ids. cbn [flat_map]. rewrite app_nil_r. reflexivity. Qed.

Lemma target_errors_cons (v : pyval) (ids : list pyval) :
  target_errors (v :: ids) = target_errors [v] ++ target_errors ids.
Proof. unfold target_errors. cbn [flat_map]. rewrite app_nil_r. reflexivity. Qed.

Lemma target_errors_app (l1 l2 : list pyval) :
  target_errors (l1 ++ l2) = target_errors l1 ++ target_errors l2.
Proof. unfold target_errors. apply flat_map_app. Qed.

Lemma parse_document_describes_loop_targets (doc : string) (created : list Relationship)
    (ids : list pyval) :
  forall edges logger,
    parse_document_describes_loop (PyStr doc) ids created (edges, logger)
    = Ok (edges ++ List.filter (fun r => negb (already_created created r))
                     (map (implied DESCRIBES doc) (string_ids ids)),
          logger ++ target_errors ids).
Proof.
  induction ids as [| v ids IH]; intros edges logger; cbn [parse_document_describes_loop].
  - cbn. rewrite !app_nil_r. reflexivity.
  - rewrite implied_edge_step_target by (eexists; reflexivity).
    rewrite IH, (string_ids_cons v ids), (target_errors_cons v ids).
    rewrite map_app, List.filter_app, <- !app_assoc. reflexivity.
Qed.

Lemma contained_files_loop_targets (pkg : string) (created : list Relationship)
    (ids : list pyval) :
  forall edges logger,
    contained_files_loop (PyStr pkg) ids created (edges, logger)
    = Ok (edges ++ List.filter (fun r => negb (already_created created r))
                     (map (implied CONTAINS pkg) (string_ids ids)),
          logger ++ target_errors ids).
Proof.
  induction ids as [| v ids IH]; intros edges logger; cbn [contained_files_loop].
  - cbn. rewrite !app_nil_r. reflexivity.
  - rewrite implied_edge_step_target by (eexists; reflexivity).
    rewrite IH, (string_ids_cons v ids), (target_errors_cons v ids).
    rewrite map_app, List.filter_app, <- !app_assoc. reflexivity.
Qed.

Lemma parse_has_files_loop_targets (created : list Relationship)
    (ps : list (string * list pyval)) :
  forall edges logger,
    parse_has_files_loop (map package_with ps) created (edges, logger)
    = Ok (edges ++ List.filter (fun r => negb (already_created created r))
                     (flat_map (fun p => map (implied CONTAINS (fst p)) (string_ids (snd p))) ps),
          logger ++ target_errors (flat_map snd ps)).
Proof.
  induction ps as [| [pkg ids] ps IH]; intros edges logger;
    cbn [map parse_has_files_loop flat_map].
  - cbn. rewrite !app_nil_r. reflexivity.
  - cbn [package_with hasFiles pkg_SPDXID fst snd]. destruct ids as [| v ids].
    + cbn [truthy]. rewrite IH. reflexivity.
    + cbn [truthy]. rewrite contained_files_loop_targets, IH.
      rewrite target_errors_app, List.filter_app, <- !app_assoc. reflexivity.
Qed.

Lemma dependency_of_loop_sources (file : string) (deps : list pyval) :
  forall edges logger,
    dependency_of_loop (PyStr file) deps (edges, logger)
    = (edges ++ map (fun d => implied DEPENDENCY_OF d file) (string_ids deps),
       logger ++ source_errors deps).
Proof.
  induction deps as [| d deps IH]; intros edges logger; cbn [dependency_of_loop].
  - cbn. rewrite !app_nil_r. reflexivity.
  - destruct d as [| s | z | b]; cbn [Relationship_init]; rewrite IH; cbn;
      rewrite <- ?app_assoc; reflexivity.
Qed.

Lemma parse_file_dependencies_loop_sources (fs : list (string * list pyval)) :
  forall edges logger,
    parse_file_dependencies_loop (map file_with fs) (edges, logger)
    = (edges ++ flat_map (fun f => map (fun d => implied DEPENDENCY_OF d (fst f))
                                     (string_ids (snd f))) fs,
       logger ++ source_errors (flat_map snd fs)).
Proof.
  induction fs as [| [file deps] fs IH]; intros edges logger;
    cbn [map parse_file_dependencies_loop flat_map].
  - cbn. rewrite !app_nil_r. reflexivity.
  - cbn [file_with fileDependencies file_SPDXID fst snd]. destruct deps as [| d deps].
    + cbn [truthy]. rewrite IH. reflexivity.
    + cbn [truthy]. rewrite dependency_of_loop_sources, IH.
      unfold source_errors at 3. rewrite flat_map_app, <- !app_assoc. reflexivity.
Qed.

(** X6.  [parse_document_describes] with a string as document id and
    described ids of any type.  Every id is tried, the errors are collected:
    for each id that is no string the constructor's message list is logged
    as one item.  If there is such an id the phase raises one message that
    holds all the items in input order, and returns no edge at all; otherwise
    it returns the DESCRIBES edges that are not among the relationships
    created before, in input order. *)
Theorem parse_document_describes_closed_form (doc : string) (ids : list pyval)
    (created : list Relationship) :
  parse_document_describes (PyStr doc) ids created
  = match target_errors ids with
    | [] => Ok (List.filter (fun r => negb (already_created created r))
                  (map (implied DESCRIBES doc) (string_ids ids)))
    | errors =>
        Raise (SPDXParsingError
                 (Messages [Fmt "Error while creating describes_relationship : " errors]))
    end.
Proof.
  unfold parse_document_describes. rewrite parse_document_describes_loop_targets.
  cbn [app]. destruct (target_errors ids); reflexivity.
Qed.

(** X7.  [parse_has_files] with strings as package ids and contained ids of
    any type.  The ids of all packages are tried; for each id that is no
    string the constructor's message list is logged as one item.  If there
    is such an id the phase raises one message, which begins with the text
    of the describes phase, holding all the items in input order; otherwise
    it returns the CONTAINS edges that are not among the relationships
    created before, package by package in input order. *)
Theorem parse_has_files_closed_form (ps : list (string * list pyval))
    (created : list Relationship) :
  parse_has_files (map package_with ps) created
  = match target_errors (flat_map snd ps) with
    | [] => Ok (List.filter (fun r => negb (already_created created r))
                  (flat_map (fun p => map (implied CONTAINS (fst p)) (string_ids (snd p))) ps))
    | errors =>
        Raise (SPDXParsingError
                 (Messages [Fmt "Error while creating describes_relationship : " errors]))
    end.
Proof.
  unfold parse_has_files. rewrite parse_has_files_loop_targets.
  cbn [app]. destruct (target_errors (flat_map snd ps)); reflexivity.
Qed.

(** X8.  [parse_file_dependencies] with strings as file ids and
    dependencies of any type.  The dependency is the source of the edge and
    the file its target.  For each dependency that is no string the
    constructor's messages are logged one by one, not as one item.  If
    there is such a dependency the phase raises one message holding all of
    them in input order; otherwise it returns one DEPENDENCY_OF edge for
    every entry, file by file in input order. *)
Theorem parse_file_dependencies_closed_form (fs : list (string * list pyval)) :
  parse_file_dependencies (map file_with fs)
  = match source_errors (flat_map snd fs) with
    | [] => Ok (flat_map (fun f => map (fun d => implied DEPENDENCY_OF d (fst f))
                                     (string_ids (snd f))) fs)
    | errors =>
        Raise (SPDXParsingError
                 (Messages [Fmt "Error while creating dependency relationships: " errors]))
    end.
Proof.
  unfold parse_file_dependencies. rewrite parse_file_dependencies_loop_sources.
  cbn [app]. destruct (source_errors (flat_map snd fs)); reflexivity.
Qed.

(** *** The four phases together *)

Lemma string_ids_strings (ids : list string) : string_ids (map PyStr ids) = ids.
Proof. induction ids as [| i ids IH]; [reflexivity |]. cbn. f_equal. exact IH. Qed.

Lemma target_errors_strings (ids : list string) : target_errors (map PyStr ids) = [].
Proof. induction ids as [| i ids IH]; [reflexivity |]. exact IH. Qed.

Lemma parse_document_describes_strings (doc : string) (ids : list string)
    (created : list Relationship) :
  parse_document_describes (PyStr doc) (map PyStr ids) created
  = Ok (List.filter (fun r => negb (already_created created r))
          (map (implied DESCRIBES doc) ids)).
Proof.
  unfold parse_document_describes. rewrite parse_document_describes_loop_strings. reflexivity.
Qed.

Lemma parse_has_files_strings (ps : list (string * list string))
    (created : list Relationship) :
  parse_has_files (map package_dict_of ps) created
  = Ok (List.filter (fun r => negb (already_created created r))
          (flat_map (fun p => map (implied CONTAINS (fst p)) (snd p)) ps)).
Proof. unfold parse_has_files. rewrite parse_has_files_loop_strings. reflexivity. Qed.

Lemma parse_file_dependencies_strings (fs : list (string * list string)) :
  parse_file_dependencies (map file_dict_of fs)
  = Ok (flat_map (fun f => map (fun d => implied DEPENDENCY_OF d (fst f)) (snd f)) fs).
Proof.
  unfold parse_file_dependencies. rewrite parse_file_dependencies_loop_strings. reflexivity.
Qed.

Lemma truthy_cases {A : Type} (x : list A) :
  (x = [] /\ truthy (Some x) = None) \/ (x <> [] /\ truthy (Some x) = Some x).
Proof. destruct x; [left | right]; split; try reflexivity; congruence. Qed.

(** X9.  On a document whose explicit relationships parse and whose ids are
    strings, [parse_all_relationships] with an empty logger returns the
    explicit relationships, then the DESCRIBES edges not stated by an
    explicit relationship, then the CONTAINS edges stated neither by an
    explicit relationship nor by one of those DESCRIBES edges, then all
    DEPENDENCY_OF edges: each phase is checked against the output of all
    phases before it. *)
Theorem parse_all_relationships_well_formed
    (RelationshipType_getitem : string -> option RelationshipType)
    (ds : list relationship_dict) (rs : list Relationship) (doc : string)
    (ids : list string) (ps fs : list (string * list string)) :
  parse_relationships RelationshipType_getitem ds = Ok rs ->
  let described :=
    List.filter (fun r => negb (already_created rs r)) (map (implied DESCRIBES doc) ids) in
  let contained :=
    List.filter (fun r => negb (already_created (rs ++ described) r))
      (flat_map (fun p => map (implied CONTAINS (fst p)) (snd p)) ps) in
  let dependencies :=
    flat_map (fun f => map (fun d => implied DEPENDENCY_OF d (fst f)) (snd f)) fs in
  parse_all_relationships RelationshipType_getitem []
    (mkInputDoc (Some ds) (Some (map PyStr ids)) (PyStr doc) (Some (map package_dict_of ps))
       (Some (map file_dict_of fs)))
  = Ok (rs ++ described ++ contained ++ dependencies).
Proof.
  intros Hrs described contained dependencies.
  unfold parse_all_relationships.
  cbn [relationships documentDescribes SPDXID packages files]. cbv zeta.
  match goal with
  | |- match ?X with _ => _ end = _ => replace X with (Ok (rs, [] : Logger))
  end.
  2: { destruct ds as [| d ds']; cbn [truthy].
       - vm_compute in Hrs. inversion Hrs. reflexivity.
       - rewrite Hrs. reflexivity. }
  cbn [fst].
  match goal with
  | |- match ?X with _ => _ end = _ => replace X with (Ok (rs ++ described, [] : Logger))
  end.
  2: { destruct (truthy_cases (map PyStr ids)) as [[He ->] | [_ ->]].
       - subst described. destruct ids; [| discriminate]. cbn. rewrite app_nil_r. reflexivity.
       - rewrite parse_document_describes_strings. reflexivity. }
  cbn [fst].
  match goal with
  | |- match ?X with _ => _ end = _ =>
      replace X with (Ok ((rs ++ described) ++ contained, [] : Logger))
  end.
  2: { destruct (truthy_cases (map package_dict_of ps)) as [[He ->] | [_ ->]].
       - subst contained. destruct ps; [| discriminate]. cbn. rewrite app_nil_r. reflexivity.
       - rewrite parse_has_files_strings. reflexivity. }
  match goal with
  | |- match ?X with _ => _ end = _ =>
      replace X with (Ok (((rs ++ described) ++ contained) ++ dependencies, [] : Logger))
  end.
  2: { destruct (truthy_cases (map file_dict_of fs)) as [[He ->] | [_ ->]].
       - subst dependencies. destruct fs; [| discriminate]. cbn. rewrite app_nil_r. reflexivity.
       - rewrite parse_file_dependencies_strings. reflexivity. }
  cbn [has_messages]. rewrite <- !app_assoc. reflexivity.
Qed.

Lemma parse_all_relationships_well_formed_witness :
  parse_all_relationships named_members []
    (mkInputDoc
       (Some [mkRelationshipDict (PyStr "SPDXRef-A") (PyStr "SPDXRef-DOCUMENT")
                (PyStr "DESCRIBED_BY") (PyStr "c")])
       (Some (map PyStr ["SPDXRef-A"; "SPDXRef-P"])) (PyStr "SPDXRef-DOCUMENT")
       (Some (map package_dict_of [("SPDXRef-P", ["SPDXRef-F"])]))
       (Some (map file_dict_of [("SPDXRef-F", ["SPDXRef-G"])])))
  = Ok [mkRelationship "SPDXRef-A" DESCRIBED_BY "SPDXRef-DOCUMENT" (Some "c");
        implied DESCRIBES "SPDXRef-DOCUMENT" "SPDXRef-P";
        implied CONTAINS "SPDXRef-P" "SPDXRef-F";
        implied DEPENDENCY_OF "SPDXRef-G" "SPDXRef-F"].
Proof.
  apply (parse_all_relationships_well_formed named_members
           [mkRelationshipDict (PyStr "SPDXRef-A") (PyStr "SPDXRef-DOCUMENT")
              (PyStr "DESCRIBED_BY") (PyStr "c")]
           [mkRelationship "SPDXRef-A" DESCRIBED_BY "SPDXRef-DOCUMENT" (Some "c")]
           "SPDXRef-DOCUMENT" ["SPDXRef-A"; "SPDXRef-P"] [("SPDXRef-P", ["SPDXRef-F"])]
           [("SPDXRef-F", ["SPDXRef-G"])]).
  reflexivity.
Defined.

(** *** A logger that is not empty *)

Lemma extend_or_log_grows (phase : result (list Relationship))
    (rl rl' : list Relationship) (lg lg' : Logger) :
  extend_or_log phase (rl, lg) = Ok (rl', lg') -> exists l, lg' = lg ++ l.
Proof.
  unfold extend_or_log. destruct phase as [l | e].
  - intros H. inversion H. exists []. rewrite app_nil_r. reflexivity.
  - destruct e; try discriminate. destruct p as [l | b]; cbn; [| discriminate].
    intros H. inversion H. eauto.
Qed.

Lemma extend_or_log_raises (phase : result (list Relationship))
    (st : list Relationship * Logger) (e : exn) :
  extend_or_log phase st = Raise e -> forall p, e <> SPDXParsingError p.
Proof.
  unfold extend_or_log. destruct st as [rl lg]. destruct phase as [l | e']; [discriminate |].
  destruct e'; try (intros H; inversion H; discriminate).
  destruct p as [l | b]; cbn; [discriminate |]. intros H. inversion H. discriminate.
Qed.

Lemma optional_phase_grows (A : Type) (x : option (list A))
    (phase : list A -> list Relationship -> result (list Relationship))
    (st : list Relationship * Logger) :
  match
    match truthy x with
    | Some l => extend_or_log (phase l (fst st)) st
    | None => Ok st
    end
  with
  | Ok st' => exists l, snd st' = snd st ++ l
  | Raise e => forall p, e <> SPDXParsingError p
  end.
Proof.
  destruct (truthy x) as [l |].
  - destruct (extend_or_log (phase l (fst st)) st) as [[rl' lg'] | e] eqn:H.
    + destruct st as [rl lg]. apply extend_or_log_grows in H. exact H.
    + eapply extend_or_log_raises. exact H.
  - exists []. rewrite app_nil_r. reflexivity.
Qed.

(** X10.  The logger of the parser object is never emptied: called with a
    logger that holds messages (as it does after a call that failed),
    [parse_all_relationships] raises on every document, and a parsing error
    it raises begins with the old messages. *)
Theorem parse_all_relationships_stale_logger
    (RelationshipType_getitem : string -> option RelationshipType)
    (self_logger : Logger) (doc : input_doc_dict) :
  self_logger <> [] ->
  exists e,
    parse_all_relationships RelationshipType_getitem self_logger doc = Raise e
    /\ forall l, e = SPDXParsingError (Messages l) -> exists l', l = self_logger ++ l'.
Proof.
  intros Hne. unfold parse_all_relationships. cbv zeta.
  pose proof (optional_phase_grows _ (relationships doc)
                (fun l _ => parse_relationships RelationshipType_getitem l) ([], self_logger))
    as H1.
  cbv beta in H1.
  destruct (match truthy (relationships doc) with Some _ => _ | None => _ end)
    as [st1 | e1]; [| eexists; split; [reflexivity | intros l ->; exfalso; eapply H1; reflexivity]].
  destruct H1 as [l1 H1]. cbn [snd] in H1.
  pose proof (optional_phase_grows _ (documentDescribes doc)
                (fun l created => parse_document_describes (SPDXID doc) l created) st1) as H2.
  cbv beta in H2.
  destruct (match truthy (documentDescribes doc) with Some _ => _ | None => _ end)
    as [st2 | e2]; [| eexists; split; [reflexivity | intros l ->; exfalso; eapply H2; reflexivity]].
  destruct H2 as [l2 H2].
  pose proof (optional_phase_grows _ (packages doc)
                (fun l created => parse_has_files l created) st2) as H3.
  cbv beta in H3.
  destruct (match truthy (packages doc) with Some _ => _ | None => _ end)
    as [st3 | e3]; [| eexists; split; [reflexivity | intros l ->; exfalso; eapply H3; reflexivity]].
  destruct H3 as [l3 H3].
  pose proof (optional_phase_grows _ (files doc)
                (fun l _ => parse_file_dependencies l) st3) as H4.
  cbv beta in H4.
  destruct (match truthy (files doc) with Some _ => _ | None => _ end)
    as [[rl4 lg4] | e4];
    [| eexists; split; [reflexivity | intros l ->; exfalso; eapply H4; reflexivity]].
  destruct H4 as [l4 H4]. cbn [snd] in H4.
  assert (Hlg : lg4 = self_logger ++ (l1 ++ l2 ++ l3 ++ l4)).
  { rewrite H4, H3, H2, H1, <- !app_assoc. reflexivity. }
  rewrite has_messages_true.
  - eexists. split; [reflexivity |]. intros l Hl. inversion Hl. subst l. eauto.
  - rewrite Hlg. destruct self_logger; [congruence | discriminate].
Qed.

Lemma parse_all_relationships_stale_logger_witness :
  exists e,
    parse_all_relationships named_members [Text "earlier failure"]
      (mkInputDoc None None PyNone None None) = Raise e
    /\ forall l, e = SPDXParsingError (Messages l) -> exists l', l = [Text "earlier failure"] ++ l'.
Proof.
  apply (parse_all_relationships_stale_logger named_members [Text "earlier failure"]
           (mkInputDoc None None PyNone None None)).
  discriminate.
Defined.

End RelationshipParserExtra.

(** * Further properties of the tag/value grammar engine *)
Module TagValueExtra.
Import TagValue.
Import TagValueSpec.

Create HintDb actions.
#[local] Hint Unfold p_unknown_tag p_license p_actor_values reduce_text_or_line
  reduce_line_or_no_assertion reduce_line_or_no_assertion_or_none
  reduce_license_or_no_assertion_or_none reduce_actor_or_no_assertion p_spdx_id
  p_license_list_version p_doc_comment p_doc_namespace p_data_license p_doc_name
  call_parse_checksum p_external_document_ref p_spdx_version p_creator_comment p_creator
  p_created p_extracted_license_id p_extracted_cross_reference p_license_comment
  p_extracted_license_name p_extracted_license_text p_file_name p_file_contributor
  p_file_notice p_file_copyright_text p_file_license_comment p_file_attribution_text
  is_sentinel p_file_license_info p_file_comment p_file_type p_file_checksum
  p_file_license_concluded p_package_name p_pkg_description p_pkg_comment
  p_pkg_attribution_text p_pkg_summary p_pkg_copyright_text p_pkg_external_refs
  p_pkg_license_comment p_pkg_license_declared p_pkg_license_info_from_file
  p_pkg_license_concluded p_pkg_source_info p_pkg_checksum p_pkg_verification_code
  p_pkg_homepage p_pkg_download_location p_pkg_files_analyzed p_pkg_originator
  p_pkg_supplier p_pkg_file_name p_package_version p_primary_package_purpose
  current_set_date p_built_date p_release_date p_valid_until_date p_snippet_spdx_id
  p_snippet_name p_snippet_comment p_snippet_attribution_text p_snippet_copyright_text
  p_snippet_license_comment p_snippet_from_file_spdxid p_snippet_concluded_license
  p_snippet_license_info set_range p_snippet_byte_range p_snippet_line_range p_annotator
  p_annotation_date p_annotation_comment p_annotation_type p_annotation_spdx_id
  p_relationship p_relationship_value_with_doc_ref p_relationship_value_without_doc_ref
  reduce_relationship_value p_license_list_version_error p_doc_comment_error
  p_doc_namespace_error p_data_license_error p_doc_name_error p_external_document_ref_error
  p_spdx_version_error p_creator_comment_error p_creator_error p_created_error
  p_extracted_license_id_error p_extracted_cross_reference_error p_license_comment_error
  p_extracted_license_name_error p_extracted_license_text_error p_file_name_error
  p_file_contributor_error p_file_notice_error p_file_copyright_text_error
  p_file_license_comment_error p_file_attribution_text_error p_file_license_info_error
  p_file_comment_error p_file_type_error p_file_checksum_error
  p_file_license_concluded_error p_package_name_error p_pkg_description_error
  p_pkg_comment_error p_pkg_attribution_text_error p_pkg_summary_error
  p_pkg_copyright_text_error p_pkg_external_refs_error p_pkg_license_comment_error
  p_pkg_license_declared_error p_pkg_license_info_from_file_error
  p_pkg_license_concluded_error p_pkg_source_info_error p_pkg_checksum_error
  p_pkg_verification_code_error p_pkg_homepage_error p_pkg_download_location_error
  p_pkg_files_analyzed_error p_pkg_originator_error p_pkg_supplier_error
  p_pkg_file_name_error p_package_version_error p_primary_package_purpose_error
  p_built_date_error p_release_date_error p_valid_until_date_error p_snippet_spdx_id_error
  p_snippet_name_error p_snippet_comment_error p_snippet_attribution_text_error
  p_snippet_copyright_text_error p_snippet_license_comment_error
  p_snippet_from_file_spdxid_error p_snippet_concluded_license_error
  p_snippet_license_info_error p_snippet_byte_range_error p_snippet_line_range_error
  p_annotator_error p_annotation_date_error p_annotation_comment_error
  p_annotation_type_error p_annotation_spdx_id_error p_relationship_error : actions.

(** *** Relations kept by every action *)

Section Maintains.

Variable R : Parser -> Parser -> Prop.

Lemma maintains_bind {A B : Type} (m : M A) (k : A -> M B) :
  maintains R m -> (forall a, maintains R (k a)) -> maintains R (bind m k).
Proof.
  intros Hm Hk st0 st H. unfold bind. specialize (Hm st0 st H).
  destruct (m st) as [a st' | e st']; simpl in *; [apply Hk; exact Hm | exact Hm].
Qed.

Lemma maintains_ret {A : Type} (a : A) : maintains R (ret a).
Proof. intros st0 st H. exact H. Qed.

Lemma maintains_raise {A : Type} (e : exn) : maintains R (@raise A e).
Proof. intros st0 st H. exact H. Qed.

Lemma maintains_read {A : Type} (f : Parser -> A) : maintains R (fun st => Done (f st) st).
Proof. intros st0 st H. exact H. Qed.

Lemma maintains_modify (f : Parser -> Parser) :
  (forall st0 st, R st0 st -> R st0 (f st)) -> maintains R (modify f).
Proof. intros Hf st0 st H. apply Hf. exact H. Qed.

Lemma maintains_try_except {A : Type} (body : M A) (handler : payload -> M A) :
  maintains R body -> (forall p, maintains R (handler p)) ->
  maintains R (try_except_SPDXParsingError body handler).
Proof.
  intros Hb Hh st0 st H. unfold try_except_SPDXParsingError. specialize (Hb st0 st H).
  destruct (body st) as [a st' | e st']; simpl in *; [exact Hb |].
  destruct e; try exact Hb. apply Hh. exact Hb.
Qed.

Lemma maintains_fold_log (log : msg -> M unit) (messages : list msg) :
  (forall m, maintains R (log m)) ->
  maintains R (fold_right (fun m k => log m ;; k) (ret tt) messages).
Proof.
  intros Hlog. induction messages as [| m l IH]; simpl.
  - apply maintains_ret.
  - apply maintains_bind; [apply Hlog | intros _; exact IH].
Qed.

Lemma maintains_call_parse_checksum (ext : Collaborators) (log : msg -> M unit)
    (text : string) :
  (forall m, maintains R (log m)) -> maintains R (call_parse_checksum ext log text).
Proof.
  intros Hlog. unfold call_parse_checksum.
  destruct (parse_checksum ext text) as [[messages checksum] | e]; [| apply maintains_raise].
  apply maintains_bind; [apply maintains_fold_log; exact Hlog | intros _; apply maintains_ret].
Qed.

(** What is left to show of a relation: that the primitive actions keep
    it. *)
Hypothesis R_logger_append : forall m, maintains R (logger_append m).
Hypothesis R_current_logger_append : forall m, maintains R (current_logger_append m).
Hypothesis R_creation_logger_append : forall m, maintains R (creation_logger_append m).
Hypothesis R_current_set : forall key x, maintains R (current_set key x).
Hypothesis R_current_setdefault_append :
  forall key a, maintains R (current_setdefault_append key a).
Hypothesis R_creation_set : forall key x, maintains R (creation_set key x).
Hypothesis R_creation_setdefault_append :
  forall key a, maintains R (creation_setdefault_append key a).
Hypothesis R_creation_setdefault : forall key, maintains R (creation_setdefault key).
Hypothesis R_p_spdx_id : forall p2, maintains R (p_spdx_id p2).

Lemma maintains_check (c : ClassName) :
  maintains R (check_that_current_element_matches_class_for_value c).
Proof.
  intros st0 st H. unfold check_that_current_element_matches_class_for_value.
  destruct (el_class (current_element st)) as [c' |]; [| apply R_logger_append; exact H].
  case_bool_decide; [apply R_logger_append; exact H | exact H].
Qed.

Variable ext : Collaborators.

Hypothesis R_initialize_new_current_element :
  forall c, maintains R (initialize_new_current_element ext c).

Ltac maintains_step :=
  first
    [ apply R_initialize_new_current_element
    | apply maintains_call_parse_checksum; intros ?
    | apply maintains_check
    | apply R_p_spdx_id
    | apply R_logger_append
    | apply R_current_logger_append
    | apply R_creation_logger_append
    | apply R_current_set
    | apply R_current_setdefault_append
    | apply R_creation_set
    | apply R_creation_setdefault_append
    | apply R_creation_setdefault
    | apply maintains_ret
    | apply maintains_raise
    | apply maintains_bind; [| intros ?]
    | case_match ].

Lemma maintains_reduce (a : attrib) : maintains R (reduce ext a).
Proof.
  destruct a; cbn [reduce]; autounfold with actions; repeat maintains_step.
Qed.

Lemma maintains_yacc_parse (text : list attrib) : maintains R (yacc_parse ext text).
Proof.
  induction text as [| a text IH]; cbn [yacc_parse].
  - apply maintains_ret.
  - apply maintains_bind; [apply maintains_reduce | intros _; exact IH].
Qed.

End Maintains.

(** *** What is only ever appended to *)

Lemma grows_refl (st : Parser) : grows st st.
Proof.
  repeat split; try reflexivity. intros key l H. exists l. split; [exact H | reflexivity].
Qed.

Lemma grows_trans (st0 st1 st2 : Parser) : grows st0 st1 -> grows st1 st2 -> grows st0 st2.
Proof.
  intros [[Ha Hb] [Hc Hd]] [[Ha' Hb'] [Hc' Hd']]. repeat split.
  - etransitivity; eassumption.
  - etransitivity; eassumption.
  - etransitivity; eassumption.
  - intros key l H. destruct (Hd key l H) as [l1 [H1 Hp1]].
    destruct (Hd' key l1 H1) as [l2 [H2 Hp2]]. exists l2. split; [exact H2 |].
    etransitivity; eassumption.
Qed.

(* an action whose final state is related to its initial state *)
Lemma maintains_grows_step {A : Type} (m : M A) :
  (forall st, grows st (final_state (m st))) -> maintains grows m.
Proof. intros H st0 st H0. eapply grows_trans; [exact H0 | apply H]. Qed.

Lemma grows_same (st st' : Parser) :
  logger st `prefix_of` logger st' ->
  ci_logger (creation_info st) `prefix_of` ci_logger (creation_info st') ->
  element_stack st `prefix_of` element_stack st' ->
  elements_build st' = elements_build st ->
  grows st st'.
Proof.
  intros Ha Hb Hc Hd. repeat split; try assumption.
  intros key l H. exists l. rewrite Hd. split; [exact H | reflexivity].
Qed.

Ltac grows_simple :=
  apply grows_same; simpl; first [reflexivity | apply prefix_app_r; reflexivity].

Lemma grows_logger_append (m : msg) : maintains grows (logger_append m).
Proof. apply maintains_grows_step. intros st. grows_simple. Qed.

Lemma grows_current_logger_append (m : msg) : maintains grows (current_logger_append m).
Proof. apply maintains_grows_step. intros st. grows_simple. Qed.

Lemma grows_creation_logger_append (m : msg) : maintains grows (creation_logger_append m).
Proof. apply maintains_grows_step. intros st. grows_simple. Qed.

Lemma grows_current_set (key : string) (x : value) : maintains grows (current_set key x).
Proof. apply maintains_grows_step. intros st. grows_simple. Qed.

Lemma grows_current_setdefault_append (key : string) (a : atom) :
  maintains grows (current_setdefault_append key a).
Proof.
  apply maintains_grows_step. intros st. unfold current_setdefault_append.
  destruct (setdefault_append key a _); grows_simple.
Qed.

Lemma grows_creation_set (key : string) (x : value) : maintains grows (creation_set key x).
Proof. apply maintains_grows_step. intros st. grows_simple. Qed.

Lemma grows_creation_setdefault_append (key : string) (a : atom) :
  maintains grows (creation_setdefault_append key a).
Proof.
  apply maintains_grows_step. intros st. unfold creation_setdefault_append.
  destruct (setdefault_append key a _); grows_simple.
Qed.

Lemma grows_creation_setdefault (key : string) : maintains grows (creation_setdefault key).
Proof.
  apply maintains_grows_step. intros st. unfold creation_setdefault.
  destruct (ci_fields (creation_info st) !! key) as [[x | l] |]; grows_simple.
Qed.

Lemma grows_p_spdx_id (p2 : string) : maintains grows (p_spdx_id p2).
Proof.
  apply maintains_grows_step. intros st. unfold p_spdx_id.
  destruct (ci_fields (creation_info st) !! "spdx_id"); grows_simple.
Qed.

Lemma grows_build_insert (st : Parser) (key : string) (l : list Object) :
  (forall l0, elements_build st !! key = Some l0 -> l0 `prefix_of` l) ->
  grows st (set_elements_build (<[key := l]> (elements_build st)) st).
Proof.
  intros H. repeat split; simpl; try reflexivity.
  intros k l0 Hk. destruct (decide (k = key)) as [-> | Hne].
  - exists l. rewrite lookup_insert_eq. split; [reflexivity | apply H; exact Hk].
  - exists l0. rewrite lookup_insert_ne by congruence. split; [exact Hk | reflexivity].
Qed.

Lemma grows_setdefault_list (st : Parser) (key : string) :
  grows st (set_elements_build (setdefault_list key (elements_build st)) st).
Proof.
  unfold setdefault_list. destruct (elements_build st !! key) eqn:H.
  - destruct st; apply grows_refl.
  - apply grows_build_insert. intros l0 H0. congruence.
Qed.

Lemma grows_append_object (st : Parser) (key : string) (o : Object) :
  grows st (set_elements_build
              (<[key := default [] (elements_build st !! key) ++ [o]]> (elements_build st)) st).
Proof.
  apply grows_build_insert. intros l0 H0. rewrite H0. simpl. apply prefix_app_r. reflexivity.
Qed.

Lemma grows_check_for_preceding :
  maintains grows check_for_preceding_package_and_build_contains_relationship.
Proof.
  apply maintains_grows_step. intros st.
  unfold check_for_preceding_package_and_build_contains_relationship.
  repeat case_match; simpl; try apply grows_refl.
  apply grows_build_insert. intros old Hold.
  match goal with
  | H : elements_build st !! "relationships" = Some ?x |- old `prefix_of` ?x ++ _ =>
      rewrite H in Hold; inversion Hold; subst; apply prefix_app_r; reflexivity
  end.
Qed.

Section Grows.

Variable ext : Collaborators.

Lemma grows_construct_current_element : maintains grows (construct_current_element ext).
Proof.
  intros st0 st H. unfold construct_current_element.
  destruct (el_class (current_element st)) as [c |].
  2: { eapply grows_trans; [exact H |]. grows_simple. }
  destruct (raise_parsing_error_if_logger_has_messages _ _).
  - apply (maintains_bind grows (logger_append _) (fun _ => modify _)).
    + apply grows_logger_append.
    + intros _. apply maintains_grows_step. intros s. grows_simple.
    + eapply grows_trans; [exact H |]. grows_simple.
  - apply (maintains_bind grows (try_except_SPDXParsingError _ _) (fun _ => modify _)).
    + apply maintains_try_except; [| intros p; apply grows_logger_append].
      apply maintains_bind.
      * unfold build_and_append, construct_or_raise_parsing_error.
        apply maintains_bind;
          [apply maintains_grows_step; intros s; apply grows_setdefault_list | intros _].
        apply maintains_bind; [apply maintains_read | intros fields].
        apply maintains_bind;
          [| intros o; apply maintains_grows_step; intros s; apply grows_append_object].
        destruct (construction_errors ext _ _); [apply maintains_raise | apply maintains_ret].
      * intros _. case_bool_decide; [apply grows_check_for_preceding | apply maintains_ret].
    + intros _. apply maintains_grows_step. intros s. grows_simple.
    + eapply grows_trans; [exact H |]. grows_simple.
Qed.

Lemma grows_initialize_new_current_element (c : ClassName) :
  maintains grows (initialize_new_current_element ext c).
Proof.
  unfold initialize_new_current_element.
  apply maintains_bind.
  - apply maintains_grows_step. intros st. unfold modify. simpl.
    repeat case_match; try apply grows_refl.
    apply grows_same; simpl; first [reflexivity | apply prefix_app_r; reflexivity].
  - intros _. apply maintains_bind; [apply grows_construct_current_element |].
    intros _. apply maintains_grows_step. intros st. grows_simple.
Qed.

Lemma grows_yacc_parse (text : list attrib) : maintains grows (yacc_parse ext text).
Proof.
  apply maintains_yacc_parse;
    auto using grows_logger_append, grows_current_logger_append, grows_creation_logger_append,
      grows_current_set, grows_current_setdefault_append, grows_creation_set,
      grows_creation_setdefault_append, grows_creation_setdefault, grows_p_spdx_id,
      grows_initialize_new_current_element.
Qed.

Lemma grows_merge_creation_info_logger : maintains grows merge_creation_info_logger.
Proof.
  intros st0 st H. unfold merge_creation_info_logger.
  destruct (raise_parsing_error_if_logger_has_messages _ _); [| exact H].
  apply grows_logger_append. exact H.
Qed.

Lemma grows_end_of_input (text : list attrib) : maintains grows (end_of_input ext text).
Proof.
  unfold end_of_input. apply maintains_bind; [apply grows_yacc_parse | intros _].
  apply maintains_bind; [apply grows_construct_current_element | intros _].
  apply grows_merge_creation_info_logger.
Qed.

End Grows.

(** X11.  Errors of the document level and of the creation info are never
    taken back: whatever is reduced, and however it ends, both loggers keep
    what they held, in the same order, and are only appended to; the same
    holds up to the end of [parse]'s finalization. *)
Theorem loggers_only_grow (ext : Collaborators) (text : list attrib) (st : Parser) :
  log_grows st (final_state (yacc_parse ext text st))
  /\ log_grows st (final_state (end_of_input ext text st)).
Proof.
  split.
  - apply (grows_yacc_parse ext text st st (grows_refl st)).
  - apply (grows_end_of_input ext text st st (grows_refl st)).
Qed.

(** X12.  Finalized elements are never removed, replaced or reordered:
    whatever is reduced, and however it ends, every collection keeps the
    elements it held, in the same order at the same places, and so does the
    element stack. *)
Theorem collections_only_grow (ext : Collaborators) (text : list attrib) (st : Parser) :
  build_grows st (final_state (yacc_parse ext text st))
  /\ build_grows st (final_state (end_of_input ext text st)).
Proof.
  split.
  - apply (grows_yacc_parse ext text st st (grows_refl st)).
  - apply (grows_end_of_input ext text st st (grows_refl st)).
Qed.

(** *** Errors on record *)

Section HasErrors.

Variable ext : Collaborators.


Lemma has_errors_grows (st st' : Parser) :
  grows st st' ->
  logger st <> [] \/ ci_logger (creation_info st) <> [] ->
  has_errors st'.
Proof.
  intros [[[k Hk] [k' Hk']] _] [H | H]; [left; rewrite Hk | right; left; rewrite Hk'];
    intros Heq; apply app_eq_nil in Heq; tauto.
Qed.

Lemma has_errors_same (st st' : Parser) :
  logger st `prefix_of` logger st' ->
  ci_logger (creation_info st) `prefix_of` ci_logger (creation_info st') ->
  el_class (current_element st') = el_class (current_element st) ->
  el_logger (current_element st) `prefix_of` el_logger (current_element st') ->
  has_errors st -> has_errors st'.
Proof.
  intros [k Hk] [k' Hk'] Hc [k'' Hk''] [H | [H | [H1 H2]]].
  - left. rewrite Hk. intros Heq. apply app_eq_nil in Heq. tauto.
  - right. left. rewrite Hk'. intros Heq. apply app_eq_nil in Heq. tauto.
  - right. right. rewrite Hc, Hk''. split; [exact H1 |].
    intros Heq. apply app_eq_nil in Heq. tauto.
Qed.

Ltac errors_simple :=
  intros st0 st H; revert H; apply has_errors_same; simpl;
  first [reflexivity | apply prefix_app_r; reflexivity].

Lemma errors_logger_append (m : msg) :
  maintains (fun _ st => has_errors st) (logger_append m).
Proof. errors_simple. Qed.

Lemma errors_current_logger_append (m : msg) :
  maintains (fun _ st => has_errors st) (current_logger_append m).
Proof. errors_simple. Qed.

Lemma errors_creation_logger_append (m : msg) :
  maintains (fun _ st => has_errors st) (creation_logger_append m).
Proof. errors_simple. Qed.

Lemma errors_current_set (key : string) (x : value) :
  maintains (fun _ st => has_errors st) (current_set key x).
Proof. errors_simple. Qed.

Lemma errors_current_setdefault_append (key : string) (a : atom) :
  maintains (fun _ st => has_errors st) (current_setdefault_append key a).
Proof.
  intros st0 st. unfold current_setdefault_append.
  destruct (setdefault_append key a _); [| auto].
  apply has_errors_same; simpl; reflexivity.
Qed.

Lemma errors_creation_set (key : string) (x : value) :
  maintains (fun _ st => has_errors st) (creation_set key x).
Proof. errors_simple. Qed.

Lemma errors_creation_setdefault_append (key : string) (a : atom) :
  maintains (fun _ st => has_errors st) (creation_setdefault_append key a).
Proof.
  intros st0 st. unfold creation_setdefault_append.
  destruct (setdefault_append key a _); [| auto].
  apply has_errors_same; simpl; reflexivity.
Qed.

Lemma errors_creation_setdefault (key : string) :
  maintains (fun _ st => has_errors st) (creation_setdefault key).
Proof.
  intros st0 st. unfold creation_setdefault.
  destruct (ci_fields (creation_info st) !! key) as [[x | l] |]; auto.
Qed.

Lemma errors_p_spdx_id (p2 : string) :
  maintains (fun _ st => has_errors st) (p_spdx_id p2).
Proof.
  intros st0 st. unfold p_spdx_id.
  destruct (ci_fields (creation_info st) !! "spdx_id");
    apply has_errors_same; simpl; reflexivity.
Qed.

(** Finalization reports the local errors of the element it closes. *)
Lemma errors_construct_current_element (st : Parser) :
  has_errors st ->
  let st' := final_state (construct_current_element ext st) in
  logger st' <> [] \/ ci_logger (creation_info st') <> [].
Proof.
  intros H st'.
  assert (Hg : grows st st') by apply (grows_construct_current_element ext st st (grows_refl st)).
  destruct H as [H | [H | [Hc Hl]]].
  - left. destruct Hg as [[[k Hk] _] _]. rewrite Hk. intros Heq.
    apply app_eq_nil in Heq. tauto.
  - right. destruct Hg as [[_ [k Hk]] _]. rewrite Hk. intros Heq.
    apply app_eq_nil in Heq. tauto.
  - left. subst st'. unfold construct_current_element.
    destruct (el_class (current_element st)) as [c |]; [| congruence].
    destruct (el_logger (current_element st)) as [| m l]; [congruence |].
    cbn. intros Heq. apply app_eq_nil in Heq. destruct Heq. discriminate.
Qed.

Lemma errors_initialize_new_current_element (c : ClassName) :
  maintains (fun _ st => has_errors st) (initialize_new_current_element ext c).
Proof.
  unfold initialize_new_current_element.
  apply maintains_bind.
  - intros st0 st. unfold modify. simpl. repeat case_match; auto.
  - intros _. apply maintains_bind.
    + intros st0 st H. destruct (errors_construct_current_element st H) as [H' | H'];
        [left | right; left]; exact H'.
    + intros _ st0 st [H | [H | [H1 H2]]].
      * left. exact H.
      * right. left. exact H.
      * right. right. split; [discriminate | exact H2].
Qed.

Lemma errors_yacc_parse (text : list attrib) :
  maintains (fun _ st => has_errors st) (yacc_parse ext text).
Proof.
  apply maintains_yacc_parse;
    auto using errors_logger_append, errors_current_logger_append,
      errors_creation_logger_append, errors_current_set, errors_current_setdefault_append,
      errors_creation_set, errors_creation_setdefault_append, errors_creation_setdefault,
      errors_p_spdx_id, errors_initialize_new_current_element.
Qed.

Lemma yacc_parse_app (text1 text2 : list attrib) (st : Parser) :
  yacc_parse ext (text1 ++ text2) st = (yacc_parse ext text1 ;; yacc_parse ext text2) st.
Proof.
  revert st. induction text1 as [| a text1 IH]; intros st; cbn [app yacc_parse].
  - reflexivity.
  - unfold bind. destruct (reduce ext a st) as [[] st' | e st']; [| reflexivity].
    rewrite IH. reflexivity.
Qed.

(** [parse] on the rest of the input, from the state reached so far. *)
Lemma parse_from_app (text1 text2 : list attrib) (st st1 : Parser) :
  yacc_parse ext text1 st = Done tt st1 ->
  parse_from ext st (text1 ++ text2) = parse_from ext st1 text2.
Proof.
  intros H. unfold parse_from, end_of_input. unfold bind at 1 3.
  rewrite yacc_parse_app. unfold bind at 1. rewrite H. reflexivity.
Qed.

Lemma parse_from_raises (text1 text2 : list attrib) (st st1 : Parser) (e : exn) :
  yacc_parse ext text1 st = Fail e st1 ->
  parse_from ext st (text1 ++ text2) = Raise e.
Proof.
  intros H. unfold parse_from, end_of_input. unfold bind at 1.
  rewrite yacc_parse_app. unfold bind at 1. rewrite H. reflexivity.
Qed.

Lemma has_errors_no_document (st : Parser) (text : list attrib) :
  has_errors st ->
  exists e, parse_from ext st text = Raise e.
Proof.
  intros H. unfold parse_from, end_of_input. unfold bind at 1.
  pose proof (errors_yacc_parse text st st H) as H1.
  destruct (yacc_parse ext text st) as [[] st1 | e st1]; [| eauto]. cbn [final_state] in H1.
  unfold bind. pose proof (errors_construct_current_element st1 H1) as H2. cbv zeta in H2.
  destruct (construct_current_element ext st1) as [[] st2 | e st2]; [| eauto].
  cbn [final_state] in H2. unfold merge_creation_info_logger.
  destruct (ci_logger (creation_info st2)) as [| m l] eqn:Hci;
    cbn [raise_parsing_error_if_logger_has_messages].
  - destruct H2 as [H2 | H2]; [| congruence].
    destruct (logger st2) as [| m l]; [congruence |]. cbn. eauto.
  - cbn. destruct (logger st2 ++ _) eqn:Hl; [| cbn; eauto].
    apply app_eq_nil in Hl. destruct Hl. discriminate.
Qed.

End HasErrors.

(** X13.  An error on record is fatal, whatever follows: from a state that
    holds a document-level error, a creation-info error, or a local error of
    an element that is open, [parse] raises on every further input. *)
Theorem errors_are_fatal (ext : Collaborators) (st : Parser) (text : list attrib) :
  has_errors st ->
  exists e, parse_from ext st text = Raise e.
Proof. apply has_errors_no_document. Qed.

(** *** Error productions *)

Lemma construct_current_element_resets (ext : Collaborators) (st st' : Parser) :
  construct_current_element ext st = Done tt st' -> current_element st' = fresh_element.
Proof.
  unfold construct_current_element.
  destruct (el_class (current_element st)) as [c |].
  2: { intros H. inversion H. reflexivity. }
  destruct (raise_parsing_error_if_logger_has_messages _ _); unfold bind;
    match goal with |- context [match ?m ?s with _ => _ end] => destruct (m s) end;
    intros H; inversion H; reflexivity.
Qed.

(** A start tag begins from a clean slate. *)
Lemma initialize_new_current_element_opens (ext : Collaborators) (c : ClassName)
    (st st' : Parser) :
  initialize_new_current_element ext c st = Done tt st' ->
  current_element st' = mkElement (Some c) [] ∅.
Proof.
  unfold initialize_new_current_element. unfold bind at 1. unfold modify at 1.
  unfold bind.
  match goal with |- context [construct_current_element ext ?s] =>
    destruct (construct_current_element ext s) as [[] s' | e s'] eqn:Hc end; [| discriminate].
  apply construct_current_element_resets in Hc.
  unfold modify. intros H. inversion H. simpl. rewrite Hc. reflexivity.
Qed.

Lemma document_error_logs (ext : Collaborators) (a : attrib) (st : Parser) :
  document_error a = true ->
  exists m, reduce ext a st = logger_append m st \/ reduce ext a st = creation_logger_append m st.
Proof.
  intros Ha. destruct a; try discriminate Ha; cbn [reduce]; autounfold with actions; eauto.
Qed.

Lemma start_error_logs (ext : Collaborators) (a : attrib) (st : Parser) :
  start_error a = true ->
  exists c m,
    reduce ext a st = (initialize_new_current_element ext c ;; current_logger_append m) st.
Proof.
  intros Ha. destruct a; try discriminate Ha; cbn [reduce]; autounfold with actions; eauto.
Qed.

Lemma local_error_logs (ext : Collaborators) (a : attrib) :
  local_error a = true ->
  exists m, forall st, reduce ext a st = current_logger_append m st.
Proof.
  intros Ha. destruct a; try discriminate Ha; cbn [reduce]; autounfold with actions; eauto.
Qed.

Lemma reported_error_logs (ext : Collaborators) (a : attrib) (st st' : Parser) :
  document_error a || start_error a = true ->
  reduce ext a st = Done tt st' ->
  has_errors st'.
Proof.
  intros Ha. apply orb_true_iff in Ha. destruct Ha as [Ha | Ha].
  - destruct (document_error_logs ext a st Ha) as [m [-> | ->]];
      unfold logger_append, creation_logger_append, modify; intros H; inversion H;
      [left | right; left]; simpl; intros Heq; apply app_eq_nil in Heq;
      destruct Heq; discriminate.
  - destruct (start_error_logs ext a st Ha) as [c [m ->]]. unfold bind.
    destruct (initialize_new_current_element ext c st) as [[] s' | e s'] eqn:Hi;
      [| discriminate].
    apply initialize_new_current_element_opens in Hi.
    unfold current_logger_append, modify. intros H. inversion H.
    right. right. simpl. rewrite Hi. simpl. split; discriminate.
Qed.

Lemma yacc_parse_one (ext : Collaborators) (a : attrib) (st : Parser) :
  yacc_parse ext [a] st = reduce ext a st.
Proof.
  cbn [yacc_parse]. unfold bind, ret. destruct (reduce ext a st) as [[] s | e s]; reflexivity.
Qed.

(** X14.  The unknown tag, a malformed document-level line and a malformed
    start line that opens an element are always reported: wherever such a
    reduction occurs in the input, [parse] raises. *)
Theorem reported_error_is_fatal (ext : Collaborators) (a : attrib)
    (text1 text2 : list attrib) (st : Parser) :
  document_error a || start_error a = true ->
  exists e, parse_from ext st (text1 ++ a :: text2) = Raise e.
Proof.
  intros Ha.
  destruct (yacc_parse ext text1 st) as [[] st1 | e st1] eqn:H1.
  2: { exists e. eapply parse_from_raises. exact H1. }
  rewrite (parse_from_app ext text1 (a :: text2) st st1 H1).
  change (a :: text2) with ([a] ++ text2).
  destruct (reduce ext a st1) as [[] st2 | e st2] eqn:H2.
  2: { exists e. eapply parse_from_raises. rewrite yacc_parse_one. exact H2. }
  rewrite (parse_from_app ext [a] text2 st1 st2) by (rewrite yacc_parse_one; exact H2).
  apply has_errors_no_document. eapply reported_error_logs; eassumption.
Qed.

Lemma reported_error_is_fatal_witness :
  exists e,
    parse_from spec_collaborators init
      ([spdx_id "SPDXRef-DOCUMENT"] ++ unknown_tag 2 :: [doc_name "n"]) = Raise e.
Proof.
  apply (reported_error_is_fatal spec_collaborators (unknown_tag 2)
           [spdx_id "SPDXRef-DOCUMENT"] [doc_name "n"] init).
  reflexivity.
Defined.

Lemma errors_are_fatal_witness :
  exists e, parse_from spec_collaborators (set_logger [Text "earlier error"] init) [] = Raise e.
Proof.
  apply (errors_are_fatal spec_collaborators (set_logger [Text "earlier error"] init) []).
  left. discriminate.
Defined.

(** *** The local logger of an element that is not open *)

Lemma forget_open (st : Parser) (c : ClassName) :
  el_class (current_element st) = Some c -> forget st = st.
Proof. intros H. unfold forget. rewrite H. reflexivity. Qed.

Lemma forgetful_unopened {A : Type} (m : M A) :
  (forall st, el_class (current_element st) = None ->
              map_state forget (m (forget st)) = map_state forget (m st)) ->
  forgetful m.
Proof.
  intros H st. destruct (el_class (current_element st)) as [c |] eqn:Hc.
  - rewrite (forget_open st c Hc). reflexivity.
  - apply H. exact Hc.
Qed.

Lemma forgetful_ret {A : Type} (a : A) : forgetful (ret a).
Proof.
  intros st. unfold ret, map_state. f_equal. unfold forget.
  destruct st as [lg stk [[c |] elog flds] ci eb]; reflexivity.
Qed.

Lemma forgetful_raise {A : Type} (e : exn) : forgetful (@raise A e).
Proof.
  intros st. unfold raise, map_state. f_equal. unfold forget.
  destruct st as [lg stk [[c |] elog flds] ci eb]; reflexivity.
Qed.

Lemma forgetful_bind {A B : Type} (m : M A) (k : A -> M B) :
  forgetful m -> (forall a, forgetful (k a)) -> forgetful (bind m k).
Proof.
  intros Hm Hk st. unfold bind. specialize (Hm st).
  destruct (m (forget st)) as [a s1 | e s1], (m st) as [a' s2 | e' s2];
    simpl in Hm; inversion Hm as [[Ha Hs]]; subst.
  - rewrite <- (Hk a' s1), <- (Hk a' s2), Hs. reflexivity.
  - simpl. rewrite Hs. reflexivity.
Qed.

Ltac forgetful_prim :=
  apply forgetful_unopened; intros st Hc;
  destruct st as [lg stk [cls elog flds] [cilog cifl] eb]; simpl in Hc; subst cls;
  cbv [forget logger_append current_logger_append creation_logger_append current_set
       current_setdefault_append creation_set creation_setdefault_append creation_setdefault
       p_spdx_id check_that_current_element_matches_class_for_value modify
       current_element el_class el_fields el_logger set_current_element creation_info
       ci_fields ci_logger set_creation_info set_logger logger element_stack elements_build];
  repeat case_match; reflexivity.

Lemma forgetful_logger_append (m : msg) : forgetful (logger_append m).
Proof. forgetful_prim. Qed.

Lemma forgetful_current_logger_append (m : msg) : forgetful (current_logger_append m).
Proof. forgetful_prim. Qed.

Lemma forgetful_creation_logger_append (m : msg) : forgetful (creation_logger_append m).
Proof. forgetful_prim. Qed.

Lemma forgetful_current_set (key : string) (x : value) : forgetful (current_set key x).
Proof. forgetful_prim. Qed.

Lemma forgetful_current_setdefault_append (key : string) (a : atom) :
  forgetful (current_setdefault_append key a).
Proof. forgetful_prim. Qed.

Lemma forgetful_creation_set (key : string) (x : value) : forgetful (creation_set key x).
Proof. forgetful_prim. Qed.

Lemma forgetful_creation_setdefault_append (key : string) (a : atom) :
  forgetful (creation_setdefault_append key a).
Proof. forgetful_prim. Qed.

Lemma forgetful_creation_setdefault (key : string) : forgetful (creation_setdefault key).
Proof. forgetful_prim. Qed.

Lemma forgetful_p_spdx_id (p2 : string) : forgetful (p_spdx_id p2).
Proof. forgetful_prim. Qed.

Lemma forgetful_check (c : ClassName) :
  forgetful (check_that_current_element_matches_class_for_value c).
Proof. forgetful_prim. Qed.

Lemma forgetful_fold_log (log : msg -> M unit) (messages : list msg) :
  (forall m, forgetful (log m)) ->
  forgetful (fold_right (fun m k => log m ;; k) (ret tt) messages).
Proof.
  intros Hlog. induction messages as [| m l IH]; simpl.
  - apply forgetful_ret.
  - apply forgetful_bind; [apply Hlog | intros _; exact IH].
Qed.

Lemma forgetful_call_parse_checksum (ext : Collaborators) (log : msg -> M unit)
    (text : string) :
  (forall m, forgetful (log m)) -> forgetful (call_parse_checksum ext log text).
Proof.
  intros Hlog. unfold call_parse_checksum.
  destruct (parse_checksum ext text) as [[messages checksum] | e]; [| apply forgetful_raise].
  apply forgetful_bind; [apply forgetful_fold_log; exact Hlog | intros _; apply forgetful_ret].
Qed.

Section Forgetful.

Variable ext : Collaborators.

Lemma forgetful_construct_current_element : forgetful (construct_current_element ext).
Proof.
  apply forgetful_unopened. intros st Hc.
  destruct st as [lg stk [cls elog flds] ci eb]. simpl in Hc. subst cls. reflexivity.
Qed.

Lemma forgetful_initialize_new_current_element (c : ClassName) :
  forgetful (initialize_new_current_element ext c).
Proof.
  apply forgetful_unopened. intros st Hc.
  destruct st as [lg stk [cls elog flds] ci eb]. simpl in Hc. subst cls. reflexivity.
Qed.

Ltac forgetful_step :=
  first
    [ apply forgetful_initialize_new_current_element
    | apply forgetful_call_parse_checksum; intros ?
    | apply forgetful_check
    | apply forgetful_p_spdx_id
    | apply forgetful_logger_append
    | apply forgetful_current_logger_append
    | apply forgetful_creation_logger_append
    | apply forgetful_current_set
    | apply forgetful_current_setdefault_append
    | apply forgetful_creation_set
    | apply forgetful_creation_setdefault_append
    | apply forgetful_creation_setdefault
    | apply forgetful_ret
    | apply forgetful_raise
    | apply forgetful_bind; [| intros ?]
    | case_match ].

Lemma forgetful_reduce (a : attrib) : forgetful (reduce ext a).
Proof.
  destruct a; cbn [reduce]; autounfold with actions; repeat forgetful_step.
Qed.

Lemma forgetful_yacc_parse (text : list attrib) : forgetful (yacc_parse ext text).
Proof.
  induction text as [| a text IH]; cbn [yacc_parse].
  - apply forgetful_ret.
  - apply forgetful_bind; [apply forgetful_reduce | intros _; exact IH].
Qed.

Lemma forgetful_merge_creation_info_logger : forgetful merge_creation_info_logger.
Proof.
  apply forgetful_unopened. intros st Hc.
  destruct st as [lg stk [cls elog flds] [cilog cifl] eb]. simpl in Hc. subst cls.
  unfold merge_creation_info_logger. simpl. destruct cilog; reflexivity.
Qed.

Lemma forgetful_end_of_input (text : list attrib) : forgetful (end_of_input ext text).
Proof.
  unfold end_of_input. apply forgetful_bind; [apply forgetful_yacc_parse | intros _].
  apply forgetful_bind; [apply forgetful_construct_current_element | intros _].
  apply forgetful_merge_creation_info_logger.
Qed.

Lemma forget_keeps (st : Parser) :
  logger (forget st) = logger st
  /\ creation_info (forget st) = creation_info st
  /\ elements_build (forget st) = elements_build st.
Proof. unfold forget. destruct (el_class (current_element st)); auto. Qed.

Lemma parse_from_forget (st : Parser) (text : list attrib) :
  parse_from ext (forget st) text = parse_from ext st text.
Proof.
  unfold parse_from. pose proof (forgetful_end_of_input text st) as H.
  destruct (end_of_input ext text (forget st)) as [[] s1 | e s1],
           (end_of_input ext text st) as [[] s2 | e' s2];
    simpl in H; inversion H as [Hs]; [| reflexivity].
  destruct (forget_keeps s1) as [Ha [Hb Hc]]. destruct (forget_keeps s2) as [Ha' [Hb' Hc']].
  rewrite <- Ha, <- Hb, <- Hc, <- Ha', <- Hb', <- Hc', Hs. reflexivity.
Qed.

End Forgetful.

(** X15.  A malformed value line (and a malformed LicenseID line, whose
    action, unlike those of the other start tags, opens nothing) is reported
    exactly when an element is open.  While none is open its message goes to
    a local logger that nothing ever reads: [parse] answers as if the line
    were not there.  While one is open, [parse] raises whatever follows. *)
Theorem local_error_dropped_or_fatal (ext : Collaborators) (a : attrib) (st : Parser)
    (text : list attrib) :
  local_error a = true ->
  (el_class (current_element st) = None ->
   parse_from ext st (a :: text) = parse_from ext st text)
  /\ (el_class (current_element st) <> None ->
      exists e, parse_from ext st (a :: text) = Raise e).
Proof.
  intros Ha. destruct (local_error_logs ext a Ha) as [m Hm].
  assert (Hstep : parse_from ext st (a :: text)
                  = parse_from ext (final_state (current_logger_append m st)) text).
  { change (a :: text) with ([a] ++ text). apply parse_from_app.
    rewrite yacc_parse_one, Hm. reflexivity. }
  rewrite Hstep. split.
  - intros Hc. rewrite <- parse_from_forget, <- (parse_from_forget ext st). f_equal.
    destruct st as [lg stk [cls elog flds] ci eb]. simpl in Hc. subst cls. reflexivity.
  - intros Hc. apply has_errors_no_document. right. right. simpl. split; [exact Hc |].
    intros Heq. apply app_eq_nil in Heq. destruct Heq. discriminate.
Qed.

Lemma local_error_dropped_or_fatal_witness :
  parse_from spec_collaborators init [file_comment_error 1; spdx_id "SPDXRef-DOCUMENT"]
  = parse_from spec_collaborators init [spdx_id "SPDXRef-DOCUMENT"]
  /\ exists e, parse_from spec_collaborators package_open [extr_lic_id_error 7] = Raise e.
Proof.
  split.
  - apply (local_error_dropped_or_fatal spec_collaborators (file_comment_error 1) init
             [spdx_id "SPDXRef-DOCUMENT"] eq_refl).
    reflexivity.
  - apply (local_error_dropped_or_fatal spec_collaborators (extr_lic_id_error 7) package_open
             [] eq_refl).
    discriminate.
Defined.

(** *** What a tag leaves alone *)

Ltac frame_prim :=
  solve
    [ let H := fresh in
      intros ? ? H; unfold same_build, same_creation_info, same_current_element in *;
      unfold check_that_current_element_matches_class_for_value, p_spdx_id, logger_append,
        current_logger_append, creation_logger_append, current_set, current_setdefault_append,
        creation_set, creation_setdefault_append, creation_setdefault, modify;
      repeat case_match; simpl; first [exact H | intuition congruence] ].

Ltac frame_step :=
  first
    [ frame_prim
    | apply maintains_call_parse_checksum; intros ?
    | apply maintains_ret
    | apply maintains_raise
    | apply maintains_bind; [| intros ?]
    | case_match ].

Lemma same_build_reduce (ext : Collaborators) (a : attrib) :
  opens a = None -> maintains same_build (reduce ext a).
Proof.
  intros Ha. destruct a; try discriminate Ha; cbn [reduce]; autounfold with actions;
    repeat frame_step.
Qed.

Lemma same_creation_info_reduce (ext : Collaborators) (a : attrib) :
  element_value a = true -> maintains same_creation_info (reduce ext a).
Proof.
  intros Ha. destruct a; try discriminate Ha; cbn [reduce]; autounfold with actions;
    repeat frame_step.
Qed.

Lemma same_current_element_reduce (ext : Collaborators) (a : attrib) :
  document_level a = true -> maintains same_current_element (reduce ext a).
Proof.
  intros Ha. destruct a; try discriminate Ha; cbn [reduce]; autounfold with actions;
    repeat frame_step.
Qed.

(** X16.  Only a tag that opens an element finalizes one: every other
    reduction, however it ends, leaves the collections, the element stack
    and the kind of the current element as they were.  A value tag of an
    element kind leaves the creation info alone, and a document-level tag
    leaves the current element alone. *)
Theorem tags_leave_alone (ext : Collaborators) (a : attrib) (st : Parser) :
  let st' := final_state (reduce ext a st) in
  (opens a = None -> same_build st st')
  /\ (element_value a = true -> same_creation_info st st')
  /\ (document_level a = true -> same_current_element st st').
Proof.
  intros st'. subst st'. split; [| split]; intros Ha.
  - apply (same_build_reduce ext a Ha st st). repeat split.
  - apply (same_creation_info_reduce ext a Ha st st). reflexivity.
  - apply (same_current_element_reduce ext a Ha st st). reflexivity.
Qed.

Lemma tags_leave_alone_witness :
  same_build package_open
    (final_state (reduce spec_collaborators (file_comment (LINE "c")) package_open))
  /\ same_creation_info package_open
       (final_state (reduce spec_collaborators (file_comment (LINE "c")) package_open))
  /\ same_current_element package_open
       (final_state (reduce spec_collaborators (doc_name "n") package_open)).
Proof.
  split; [| split].
  - apply (proj1 (tags_leave_alone spec_collaborators (file_comment (LINE "c")) package_open)).
    reflexivity.
  - apply (proj1 (proj2 (tags_leave_alone spec_collaborators (file_comment (LINE "c"))
                           package_open))).
    reflexivity.
  - apply (proj2 (proj2 (tags_leave_alone spec_collaborators (doc_name "n") package_open))).
    reflexivity.
Defined.

(** *** Finalization *)

Lemma append_after_setdefault (key : string) (o : Object) (d : gmap string (list Object)) :
  <[key := default [] (setdefault_list key d !! key) ++ [o]]> (setdefault_list key d)
  = <[key := default [] (d !! key) ++ [o]]> d.
Proof.
  unfold setdefault_list. destruct (d !! key) as [l |] eqn:H.
  - rewrite H. reflexivity.
  - rewrite lookup_insert_eq, insert_insert_eq. reflexivity.
Qed.

(** X17.  Finalizing an open element of any kind but File never raises.
    It leaves a fresh current element and either one more object, in the
    last place of the collection of its kind, or one more item in the
    document-level logger, never both: the local errors when there are any,
    else the messages of typed construction, in which case the collection
    exists afterwards, empty if it was not there. *)
Theorem finalization_outcome (ext : Collaborators) (st : Parser) (c : ClassName) :
  el_class (current_element st) = Some c ->
  c <> File ->
  let cur := current_element st in
  let key := CLASS_MAPPING c in
  exists st',
    construct_current_element ext st = Done tt st'
    /\ current_element st' = fresh_element
    /\ creation_info st' = creation_info st
    /\ element_stack st' = element_stack st
    /\ match el_logger cur, construction_errors ext (class_name c) (el_fields cur) with
       | _ :: _, _ =>
           logger st'
           = logger st ++ [Items [Fmt ("Error while parsing " +:+ class_name c +:+ ": ")
                                    (el_logger cur)]]
           /\ elements_build st' = elements_build st
       | [], Some l =>
           logger st' = logger st ++ [Items l]
           /\ elements_build st' = setdefault_list key (elements_build st)
       | [], None =>
           logger st' = logger st
           /\ elements_build st'
              = <[key := default [] (elements_build st !! key) ++ [mkObject c (el_fields cur)]]>
                  (elements_build st)
       end.
Proof.
  intros Hc Hne cur key. subst cur key.
  destruct (el_logger (current_element st)) as [| m l] eqn:Hl.
  - rewrite (construct_current_element_eq ext st c Hc Hl). unfold finalize_with.
    destruct (construction_errors ext (class_name c) (el_fields (current_element st))).
    + eexists. split; [reflexivity |]. repeat split.
    + rewrite bool_decide_eq_false_2 by exact Hne.
      eexists. split; [reflexivity |]. repeat split.
      cbn [elements_build set_elements_build set_current_element].
      apply append_after_setdefault.
  - unfold construct_current_element. rewrite Hc, Hl.
    eexists. split; [reflexivity |]. repeat split.
Qed.

Lemma finalization_outcome_witness :
  exists st',
    construct_current_element spec_collaborators package_open = Done tt st'
    /\ current_element st' = fresh_element
    /\ logger st' = []
    /\ elements_build st' !! "packages"
       = Some [mkObject Package (<["name" := Atom (Str "P")]> ∅)].
Proof.
  destruct (finalization_outcome spec_collaborators package_open Package eq_refl)
    as [st' [H1 [H2 [_ [_ H3]]]]].
  - discriminate.
  - exists st'. split; [exact H1 |]. split; [exact H2 |].
    destruct H3 as [H3 H4]. split; [exact H3 |]. rewrite H4. reflexivity.
Defined.

(** *** Implicit containment *)

Lemma Relationship_eqb_refl (r : Object) : Relationship_eqb r r = true.
Proof. unfold Relationship_eqb. apply bool_decide_eq_true. reflexivity. Qed.

Lemma Relationship_init_contains (a b : value) (r : Object) :
  Relationship_init a (RelationshipType "CONTAINS") b = inr r ->
  obj_class r = Relationship
  /\ obj_fields r !! "spdx_element_id" = Some a
  /\ obj_fields r !! "relationship_type" = Some (Atom (RelationshipType "CONTAINS"))
  /\ obj_fields r !! "related_spdx_element_id" = Some b
  /\ obj_fields r !! "comment" = None.
Proof.
  unfold Relationship_init. intros H.
  repeat case_match; try discriminate; inversion H; subst; simpl;
    repeat split; reflexivity.
Qed.

(** X18.  When the synthesis of the implicit CONTAINS relationship returns,
    it has changed nothing but the relationship list, to which it has
    appended at most one relationship: the edge from the id of the last
    package to the id of the file, without comment, and only if no equal
    relationship was in the list.  It is idempotent: run again on its own
    result it changes nothing. *)
Theorem contains_synthesis (st st' : Parser) :
  check_for_preceding_package_and_build_contains_relationship st = Done tt st' ->
  check_for_preceding_package_and_build_contains_relationship st' = Done tt st'
  /\ (st' = st
      \/ exists relationships package relationship,
           elements_build st !! "relationships" = Some relationships
           /\ (exists packages, elements_build st !! "packages" = Some packages
                                /\ last packages = Some package)
           /\ st' = set_elements_build
                      (<["relationships" := relationships ++ [relationship]]>
                         (elements_build st)) st
           /\ obj_class relationship = Relationship
           /\ obj_fields relationship !! "spdx_element_id" = obj_fields package !! "spdx_id"
           /\ obj_fields relationship !! "relationship_type"
              = Some (Atom (RelationshipType "CONTAINS"))
           /\ obj_fields relationship !! "related_spdx_element_id"
              = el_fields (current_element st) !! "spdx_id"
           /\ obj_fields relationship !! "comment" = None
           /\ existsb (Relationship_eqb relationship) relationships = false).
Proof.
  unfold check_for_preceding_package_and_build_contains_relationship at 1.
  destruct (el_fields (current_element st) !! "spdx_id") as [file_id |] eqn:Hf;
    [| discriminate].
  destruct (elements_build st !! "packages") as [packages |] eqn:Hp.
  2: { intros H. inversion H. subst st'. split; [| left; reflexivity].
       unfold check_for_preceding_package_and_build_contains_relationship.
       rewrite Hf, Hp. reflexivity. }
  destruct (last packages) as [package |] eqn:Hlast; [| discriminate].
  destruct (obj_fields package !! "spdx_id") as [package_id |] eqn:Hid; [| discriminate].
  destruct (Relationship_init package_id (RelationshipType "CONTAINS") file_id)
    as [l | relationship] eqn:Hr; [discriminate |].
  destruct (elements_build st !! "relationships") as [relationships |] eqn:Hrel;
    [| discriminate].
  destruct (existsb (Relationship_eqb relationship) relationships) eqn:Hex;
    intros H; inversion H; subst st'.
  - split; [| left; reflexivity].
    unfold check_for_preceding_package_and_build_contains_relationship.
    rewrite Hf, Hp, Hlast, Hid, Hr, Hrel, Hex. reflexivity.
  - split.
    + unfold check_for_preceding_package_and_build_contains_relationship.
      cbn [current_element elements_build set_elements_build].
      rewrite Hf, lookup_insert_ne by discriminate. rewrite Hp, Hlast, Hid, Hr.
      rewrite lookup_insert_eq, existsb_app. cbn [existsb].
      rewrite Relationship_eqb_refl, orb_true_r. reflexivity.
    + right. exists relationships, package, relationship.
      destruct (Relationship_init_contains _ _ _ Hr) as [H1 [H2 [H3 [H4 H5]]]].
      split; [reflexivity |]. split; [eauto |]. split; [reflexivity |].
      repeat split; congruence.
Qed.

Lemma contains_synthesis_witness :
  exists st',
    check_for_preceding_package_and_build_contains_relationship file_after_package
    = Done tt st'
    /\ check_for_preceding_package_and_build_contains_relationship st' = Done tt st'.
Proof.
  eexists. split; [vm_compute; reflexivity |].
  apply (contains_synthesis file_after_package). vm_compute. reflexivity.
Defined.

(** *** Start tags *)

Lemma local_ret {A : Type} (a : A) : element_local (ret a).
Proof. intros st st' H. simpl. rewrite H. reflexivity. Qed.

Lemma local_raise {A : Type} (e : exn) : element_local (@raise A e).
Proof. intros st st' H. simpl. rewrite H. reflexivity. Qed.

Lemma local_bind {A B : Type} (m : M A) (k : A -> M B) :
  element_local m -> (forall a, element_local (k a)) -> element_local (bind m k).
Proof.
  intros Hm Hk st st' H. unfold bind. specialize (Hm st st' H).
  destruct (m st) as [a s | e s], (m st') as [a' s' | e' s']; simpl in Hm;
    inversion Hm; subst; [apply Hk; assumption | simpl; congruence].
Qed.

Lemma local_current_set (key : string) (x : value) : element_local (current_set key x).
Proof. intros st st' H. simpl. rewrite H. reflexivity. Qed.

Lemma local_current_logger_append (m : msg) : element_local (current_logger_append m).
Proof. intros st st' H. simpl. rewrite H. reflexivity. Qed.

Ltac local_step :=
  first
    [ apply local_current_set
    | apply local_current_logger_append
    | apply local_ret
    | apply local_raise
    | apply local_bind; [| intros ?]
    | case_match ].

Ltac class_prim :=
  solve
    [ let H := fresh in
      intros ? ? H; unfold same_class in *;
      unfold current_logger_append, current_set, modify; simpl; exact H ].

Ltac class_step :=
  first
    [ class_prim
    | apply maintains_ret
    | apply maintains_raise
    | apply maintains_bind; [| intros ?]
    | case_match ].

Lemma start_tag_shape (ext : Collaborators) (a : attrib) (c : ClassName) :
  opens a = Some c ->
  exists body : M unit,
    element_local body
    /\ maintains same_class body
    /\ forall st, reduce ext a st = (initialize_new_current_element ext c ;; body) st.
Proof.
  intros Ha.
  destruct a; try discriminate Ha; injection Ha as <-; cbn [reduce];
    autounfold with actions;
    (eexists; split; [| split; [| intros st; reflexivity]]);
    match goal with
    | |- element_local _ => repeat local_step
    | |- maintains _ _ => repeat class_step
    end.
Qed.

(** X20.  A start tag begins from a clean slate: when its action returns,
    the current element is of the kind the tag opens and holds what the tag
    itself wrote and nothing else, whatever the parser state was before. *)
Theorem start_tag_clean_slate (ext : Collaborators) (a : attrib) (c : ClassName)
    (st1 st2 s1 s2 : Parser) :
  opens a = Some c ->
  reduce ext a st1 = Done tt s1 ->
  reduce ext a st2 = Done tt s2 ->
  el_class (current_element s1) = Some c
  /\ current_element s1 = current_element s2.
Proof.
  intros Ha. destruct (start_tag_shape ext a c Ha) as [body [Hlocal [Hclass Hshape]]].
  rewrite !Hshape. unfold bind.
  destruct (initialize_new_current_element ext c st1) as [[] t1 | e t1] eqn:H1;
    [| discriminate].
  destruct (initialize_new_current_element ext c st2) as [[] t2 | e t2] eqn:H2;
    [| discriminate].
  apply initialize_new_current_element_opens in H1, H2.
  intros Hb1 Hb2. split.
  - pose proof (Hclass t1 t1 eq_refl) as Hk. rewrite Hb1 in Hk. simpl in Hk.
    unfold same_class in Hk. rewrite Hk, H1. reflexivity.
  - assert (Hcur : current_element t1 = current_element t2) by congruence.
    pose proof (Hlocal t1 t2 Hcur) as Hv. rewrite Hb1, Hb2 in Hv. simpl in Hv. congruence.
Qed.

Lemma start_tag_clean_slate_witness :
  exists s1 s2,
    reduce spec_collaborators (file_name "g.c") package_open = Done tt s1
    /\ reduce spec_collaborators (file_name "g.c") init = Done tt s2
    /\ el_class (current_element s1) = Some File
    /\ current_element s1 = current_element s2.
Proof.
  eexists. eexists. split; [vm_compute; reflexivity |]. split; [vm_compute; reflexivity |].
  apply (start_tag_clean_slate spec_collaborators (file_name "g.c") File package_open init).
  - reflexivity.
  - vm_compute. reflexivity.
  - vm_compute. reflexivity.
Defined.

(** *** Repeated tags *)

Lemma setdefault_append_list (key : string) (atoms : list atom) :
  atoms <> [] ->
  forall (c : ClassName) (st : Parser) (l0 : list atom),
    el_class (current_element st) = Some c ->
    default (List []) (el_fields (current_element st) !! key) = List l0 ->
    fold_right (fun a k => (check_that_current_element_matches_class_for_value c ;;
                            current_setdefault_append key a) ;; k) (ret tt) atoms st
    = Done tt (set_current_element
                 (mkElement (Some c) (el_logger (current_element st))
                    (<[key := List (l0 ++ atoms)]> (el_fields (current_element st)))) st).
Proof.
  induction atoms as [| a atoms IH]; [congruence |]. intros _ c st l0 Hc Hl.
  cbn [fold_right]. unfold bind at 1. unfold bind at 1.
  rewrite (check_in_scope c st Hc).
  unfold current_setdefault_append, setdefault_append.
  assert (Hstep : exists d,
            match el_fields (current_element st) !! key with
            | Some (Atom _) => None
            | Some (List l) => Some (<[key := List (l ++ [a])]> (el_fields (current_element st)))
            | None => Some (<[key := List [a]]> (el_fields (current_element st)))
            end = Some d
            /\ d = <[key := List (l0 ++ [a])]> (el_fields (current_element st))).
  { destruct (el_fields (current_element st) !! key) as [[x | l] |]; simpl in Hl;
      try discriminate; inversion Hl; subst; eexists; split; reflexivity. }
  destruct Hstep as [d [-> ->]].
  destruct atoms as [| a' atoms].
  - cbn [fold_right ret]. do 2 f_equal. rewrite <- Hc.
    destruct st as [lg stk [cls elog flds] ci eb]; reflexivity.
  - rewrite (IH ltac:(discriminate) c _ (l0 ++ [a])).
    + cbn [current_element set_current_element el_logger el_fields el_class].
      rewrite insert_insert_eq, <- app_assoc. rewrite <- Hc.
      destruct st as [lg stk [cls elog flds] ci eb]; reflexivity.
    + cbn. exact Hc.
    + cbn [current_element set_current_element el_fields].
      rewrite lookup_insert_eq. reflexivity.
Qed.

(** X21.  The values of a repeated tag are collected in input order: a run
    of FileContributor lines in an open file, or of LicenseCrossReference
    lines in an open extracted license, leaves the list the field held (the
    empty list if the field was absent) followed by the values of the run, in
    the order of the lines; nothing else changes. *)
Theorem repeated_tag_keeps_order (ext : Collaborators) (values : list string)
    (st : Parser) (l0 : list atom) :
  values <> [] ->
  (el_class (current_element st) = Some File ->
   default (List []) (el_fields (current_element st) !! "contributors") = List l0 ->
   yacc_parse ext (map file_contrib values) st
   = Done tt (set_current_element
                (mkElement (Some File) (el_logger (current_element st))
                   (<["contributors" := List (l0 ++ map Str values)]>
                      (el_fields (current_element st)))) st))
  /\ (el_class (current_element st) = Some ExtractedLicensingInfo ->
      default (List []) (el_fields (current_element st) !! "cross_references") = List l0 ->
      yacc_parse ext (map lic_xref values) st
      = Done tt (set_current_element
                   (mkElement (Some ExtractedLicensingInfo) (el_logger (current_element st))
                      (<["cross_references" := List (l0 ++ map Str values)]>
                         (el_fields (current_element st)))) st)).
Proof.
  intros Hne.
  assert (Hmap : map Str values <> []) by (destruct values; [congruence | discriminate]).
  split; intros Hc Hl.
  - rewrite <- (setdefault_append_list "contributors" (map Str values) Hmap File st l0 Hc Hl).
    clear. revert st. induction values as [| v values IH]; intros st; [reflexivity |].
    cbn [map yacc_parse fold_right reduce]. unfold p_file_contributor, bind at 1 3.
    destruct (bind _ _ st); [apply IH | reflexivity].
  - rewrite <- (setdefault_append_list "cross_references" (map Str values) Hmap
                  ExtractedLicensingInfo st l0 Hc Hl).
    clear. revert st. induction values as [| v values IH]; intros st; [reflexivity |].
    cbn [map yacc_parse fold_right reduce]. unfold p_extracted_cross_reference, bind at 1 3.
    destruct (bind _ _ st); [apply IH | reflexivity].
Qed.

Lemma repeated_tag_keeps_order_witness :
  yacc_parse spec_collaborators (map file_contrib ["Ann"; "Bob"; "Ann"]) file_open
  = Done tt (set_current_element
               (mkElement (Some File) []
                  (<["contributors" := List [Str "Ann"; Str "Bob"; Str "Ann"]]>
                     (<["name" := Atom (Str "f.c")]> ∅))) file_open).
Proof.
  apply (proj1 (repeated_tag_keeps_order spec_collaborators ["Ann"; "Bob"; "Ann"] file_open []
                  ltac:(discriminate)));
    reflexivity.
Defined.

(** *** Lines that are split at spaces *)

Lemma str_split_app (sep : ascii) (a r : string) :
  str_forallb (fun c => negb (Ascii.eqb c sep)) a = true ->
  str_split sep (a +:+ String sep r) = a :: str_split sep r.
Proof.
  induction a as [| c a IH]; intros H; simpl.
  - rewrite Ascii.eqb_refl. reflexivity.
  - cbn [str_forallb] in H. apply andb_true_iff in H. destruct H as [Hc Ha].
    apply negb_true_iff in Hc. rewrite Hc, (IH Ha). reflexivity.
Qed.

Lemma str_split_no_sep (sep : ascii) (a : string) :
  str_forallb (fun c => negb (Ascii.eqb c sep)) a = true ->
  str_split sep a = [a].
Proof.
  induction a as [| c a IH]; intros H; cbn [str_split]; [reflexivity |].
  cbn [str_forallb] in H. apply andb_true_iff in H. destruct H as [Hc Ha].
  apply negb_true_iff in Hc. rewrite Hc, (IH Ha). reflexivity.
Qed.

Lemma str_split_three (a t b : string) :
  no_space a = true -> no_space t = true -> no_space b = true ->
  str_split " " (a +:+ " " +:+ t +:+ " " +:+ b) = [a; t; b].
Proof.
  intros Ha Ht Hb. change (" " +:+ t +:+ " " +:+ b) with (String " " (t +:+ String " " b)).
  rewrite (str_split_app " " a _ Ha), (str_split_app " " t _ Ht), (str_split_no_sep " " b Hb).
  reflexivity.
Qed.

(** X22.  A Relationship line of three pieces separated by single spaces
    opens a relationship whose ids are the first and the third piece: the
    third piece is turned into a sentinel when it spells NONE or
    NOASSERTION, the first never is.  Both ids (and the comment) are set
    even when the second piece is no relationship type, in which case the
    type is left unset and one local error is logged.  A line without a
    space sets nothing and logs one local error. *)
Theorem relationship_line (ext : Collaborators) (a t b : string)
    (comment : option text_or_line) (lineno : nat) (st st0 : Parser) :
  initialize_new_current_element ext Relationship st = Done tt st0 ->
  (no_space a = true -> no_space t = true -> no_space b = true ->
   reduce ext (relationship (rel_LINE (a +:+ " " +:+ t +:+ " " +:+ b)) comment lineno) st
   = Done tt
       (set_current_element
          (mkElement (Some Relationship)
             (if is_RelationshipType ext t then []
              else [Text ("Invalid RelationshipType " +:+ t +:+ ". Line: " +:+ pretty lineno)])
             (match comment with
              | Some v => <["comment" := Atom (reduce_text_or_line ext v)]>
              | None => fun fields => fields
              end
                (<["spdx_element_id" := Atom (Str a)]>
                   (<["related_spdx_element_id" := Atom (related_id b)]>
                      (if is_RelationshipType ext t
                       then <["relationship_type" := Atom (RelationshipType t)]> ∅
                       else ∅)))))
          st0))
  /\ (no_space a = true ->
      reduce ext (relationship (rel_LINE a) comment lineno) st
      = Done tt
          (set_current_element
             (mkElement (Some Relationship)
                [Text ("Relationship couldn't be split in spdx_element_id, relationship_type " +:+
                       "and related_spdx_element. Line: " +:+ pretty lineno)]
                ∅)
             st0)).
Proof.
  intros Hinit. pose proof (initialize_new_current_element_opens _ _ _ _ Hinit) as Hcur.
  split.
  - intros Ha Ht Hb. cbn [reduce reduce_relationship_value].
    unfold p_relationship_value_without_doc_ref, p_relationship. unfold bind at 1.
    rewrite Hinit, (str_split_three a t b Ha Ht Hb).
    destruct st0 as [lg stk cur ci eb]. simpl in Hcur. subst cur. unfold related_id.
    destruct (is_RelationshipType ext t), comment as [v |]; reflexivity.
  - intros Ha. cbn [reduce reduce_relationship_value].
    unfold p_relationship_value_without_doc_ref, p_relationship. unfold bind at 1.
    rewrite Hinit, (str_split_no_sep " " a Ha).
    destruct st0 as [lg stk cur ci eb]. simpl in Hcur. subst cur. reflexivity.
Qed.

Lemma relationship_line_witness :
  reduce spec_collaborators
    (relationship (rel_LINE ("NONE" +:+ " " +:+ "describes" +:+ " " +:+ "NONE")) None 3) init
  = Done tt
      (set_current_element
         (mkElement (Some Relationship) [Text "Invalid RelationshipType describes. Line: 3"]
            (<["spdx_element_id" := Atom (Str "NONE")]>
               (<["related_spdx_element_id" := Atom SpdxNone]> ∅)))
         init).
Proof.
  apply (proj1 (relationship_line spec_collaborators "NONE" "describes" "NONE" None 3 init
                  (set_current_element (mkElement (Some Relationship) [] ∅) init) eq_refl));
    reflexivity.
Defined.

(** X23.  An ExternalRef line that does not consist of exactly three
    pieces separated by single spaces is not logged: the unpacking raises
    [ValueError], which nothing catches, so [parse] raises it wherever the
    line occurs in an input that got that far.  A line of three pieces whose
    category is unknown only logs a local error, naming the category as it
    was written. *)
Theorem external_ref_line (ext : Collaborators) (p2 : string)
    (comment : option text_or_line) :
  (length (str_split " " p2) <> 3 ->
   forall (text1 text2 : list attrib) (st st1 : Parser),
     yacc_parse ext text1 st = Done tt st1 ->
     parse_from ext st (text1 ++ pkg_ext_ref p2 comment :: text2) = Raise (ValueError "unpack"))
  /\ (forall (category reference_type locator : string) (st : Parser),
        str_split " " p2 = [category; reference_type; locator] ->
        is_ExternalPackageRefCategory ext (str_replace "-" "_" category) = false ->
        el_class (current_element st) = Some Package ->
        reduce ext (pkg_ext_ref p2 comment) st
        = Done tt
            (set_current_element
               (mkElement (Some Package)
                  (el_logger (current_element st)
                   ++ [Text ("Invalid ExternalPackageRefCategory: " +:+ category)])
                  (el_fields (current_element st)))
               st)).
Proof.
  split.
  - intros Hlen text1 text2 st st1 H1.
    rewrite (parse_from_app ext text1 _ st st1 H1).
    change (pkg_ext_ref p2 comment :: text2) with ([pkg_ext_ref p2 comment] ++ text2).
    assert (Hfail : exists st2, reduce ext (pkg_ext_ref p2 comment) st1
                                = Fail (ValueError "unpack") st2).
    { cbn [reduce]. unfold p_pkg_external_refs, bind.
      destruct (check_returns Package st1) as [l [Hc _]]. rewrite Hc.
      destruct (str_split " " p2) as [| x [| y [| z [| w r]]]]; try (eexists; reflexivity).
      exfalso. apply Hlen. reflexivity. }
    destruct Hfail as [st2 Hfail].
    apply (parse_from_raises ext [pkg_ext_ref p2 comment] text2 st1 st2).
    rewrite yacc_parse_one. exact Hfail.
  - intros category reference_type locator st Hsplit Hcat Hc.
    cbn [reduce]. unfold p_pkg_external_refs, bind.
    rewrite (check_in_scope Package st Hc), Hsplit, Hcat.
    unfold current_logger_append, modify. rewrite Hc. reflexivity.
Qed.

Lemma external_ref_line_witness :
  parse_from spec_collaborators init
    ([spdx_id "SPDXRef-DOCUMENT"; package_name "P"]
     ++ pkg_ext_ref "SECURITY cpe23Type" None :: [pkg_comment (LINE "c")])
  = Raise (ValueError "unpack").
Proof.
  apply (proj1 (external_ref_line spec_collaborators "SECURITY cpe23Type" None)
           ltac:(vm_compute; discriminate)
           [spdx_id "SPDXRef-DOCUMENT"; package_name "P"] [pkg_comment (LINE "c")] init
           (final_state
              (yacc_parse spec_collaborators [spdx_id "SPDXRef-DOCUMENT"; package_name "P"]
                 init))).
  vm_compute. reflexivity.
Defined.

(** *** Finalization of a file *)

(** X19.  A file that is finalized without local errors and accepted by
    typed construction is appended to the files.  When no package list
    exists, nothing else happens.  When a package list and a relationship
    list exist, the CONTAINS relationship from the last package to the file
    is appended as well, unless an equal relationship is in the list. *)
Theorem file_finalization (ext : Collaborators) (st : Parser) :
  el_class (current_element st) = Some File ->
  el_logger (current_element st) = [] ->
  construction_errors ext "File" (el_fields (current_element st)) = None ->
  let fields := el_fields (current_element st) in
  let files := default [] (elements_build st !! "files") ++ [mkObject File fields] in
  (is_Some (fields !! "spdx_id") ->
   elements_build st !! "packages" = None ->
   construct_current_element ext st
   = Done tt (set_current_element fresh_element
                (set_elements_build (<["files" := files]> (elements_build st)) st)))
  /\ (forall file_id packages package package_id relationship relationships,
        fields !! "spdx_id" = Some file_id ->
        elements_build st !! "packages" = Some packages ->
        last packages = Some package ->
        obj_fields package !! "spdx_id" = Some package_id ->
        Relationship_init package_id (RelationshipType "CONTAINS") file_id = inr relationship ->
        elements_build st !! "relationships" = Some relationships ->
        construct_current_element ext st
        = Done tt (set_current_element fresh_element
                     (set_elements_build
                        ((if existsb (Relationship_eqb relationship) relationships
                          then fun build => build
                          else <["relationships" := relationships ++ [relationship]]>)
                           (<["files" := files]> (elements_build st))) st))).
Proof.
  intros Hc Hl Herr fields files. subst fields files.
  rewrite (construct_current_element_eq ext st File Hc Hl). cbn [class_name]. rewrite Herr.
  unfold finalize_with. rewrite bool_decide_eq_true_2 by reflexivity.
  cbn [CLASS_MAPPING elements_build set_elements_build set_current_element].
  rewrite append_after_setdefault.
  unfold check_for_preceding_package_and_build_contains_relationship.
  cbn [current_element elements_build el_fields set_elements_build set_current_element].
  split.
  - intros [file_id Hid] Hp. rewrite Hid, lookup_insert_ne by discriminate.
    rewrite Hp. reflexivity.
  - intros file_id packages package package_id relationship relationships
      Hid Hp Hlast Hpid Hr Hrel.
    rewrite Hid, lookup_insert_ne by discriminate. rewrite Hp, Hlast, Hpid, Hr.
    rewrite lookup_insert_ne by discriminate. rewrite Hrel.
    destruct (existsb (Relationship_eqb relationship) relationships); reflexivity.
Qed.

Lemma file_finalization_witness :
  exists st',
    construct_current_element spec_collaborators (with_class (Some File) file_after_package)
    = Done tt st'
    /\ length <$> (elements_build st' !! "files") = Some 1
    /\ length <$> (elements_build st' !! "relationships") = Some 1.
Proof.
  eexists. split.
  - apply (proj2 (file_finalization spec_collaborators
                    (with_class (Some File) file_after_package) eq_refl eq_refl eq_refl)
             (Atom (Str "SPDXRef-f"))
             [mkObject Package (<["spdx_id" := Atom (Str "SPDXRef-P")]> ∅)]
             (mkObject Package (<["spdx_id" := Atom (Str "SPDXRef-P")]> ∅))
             (Atom (Str "SPDXRef-P"))
             (mkObject Relationship
                (<["spdx_element_id" := Atom (Str "SPDXRef-P")]>
                   (<["relationship_type" := Atom (RelationshipType "CONTAINS")]>
                      (<["related_spdx_element_id" := Atom (Str "SPDXRef-f")]> ∅))))
             []);
      reflexivity.
  - split; vm_compute; reflexivity.
Defined.

(** *** The one-symbol alternatives of the annotator rule *)

(** X24.  The annotator action reads its second symbol: reduced for one of
    the two alternatives of its rule that have one symbol only, it never
    returns.  It opens an annotation and then raises [IndexError], so
    [parse] raises wherever such a reduction occurs. *)
Theorem annotator_one_symbol (ext : Collaborators) (a : attrib) (st : Parser) :
  (exists v, a = annotator_TOOL_VALUE v \/ a = annotator_ORG_VALUE v) ->
  (forall st', initialize_new_current_element ext Annotation st = Done tt st' ->
               reduce ext a st = Fail IndexError st')
  /\ (exists e st', reduce ext a st = Fail e st')
  /\ (forall text1 text2 st0, exists e, parse_from ext st0 (text1 ++ a :: text2) = Raise e).
Proof.
  intros [v Ha].
  assert (Hshape : forall s, reduce ext a s
                             = (initialize_new_current_element ext Annotation ;;
                                raise IndexError) s).
  { destruct Ha as [-> | ->]; reflexivity. }
  assert (Hnever : forall s, exists e s', reduce ext a s = Fail e s').
  { intros s. rewrite Hshape. unfold bind.
    destruct (initialize_new_current_element ext Annotation s) as [[] s' | e s']; eauto. }
  split; [| split].
  - intros st' Hi. rewrite Hshape. unfold bind. rewrite Hi. reflexivity.
  - apply Hnever.
  - intros text1 text2 st0.
    destruct (yacc_parse ext text1 st0) as [[] st1 | e st1] eqn:H1.
    2: { exists e. eapply parse_from_raises. exact H1. }
    rewrite (parse_from_app ext text1 (a :: text2) st0 st1 H1).
    change (a :: text2) with ([a] ++ text2).
    destruct (Hnever st1) as [e [s' He]]. exists e.
    apply (parse_from_raises ext [a] text2 st1 s'). rewrite yacc_parse_one. exact He.
Qed.

Lemma annotator_one_symbol_witness :
  reduce spec_collaborators (annotator_TOOL_VALUE "Tool: t") init
  = Fail IndexError (set_current_element (mkElement (Some Annotation) [] ∅) init).
Proof.
  apply (proj1 (annotator_one_symbol spec_collaborators (annotator_TOOL_VALUE "Tool: t") init
                  (ex_intro _ "Tool: t" (or_introl eq_refl)))).
  reflexivity.
Defined.

(** *** Snippet ranges *)

Lemma str_app_cons (x : ascii) (a b : string) : String x a +:+ b = String x (a +:+ b).
Proof. reflexivity. Qed.


Lemma str_app_nil_r (a : string) : a +:+ EmptyString = a.
Proof. induction a as [| x a IH]; [reflexivity |]. rewrite str_app_cons, IH. reflexivity. Qed.

























End TagValueExtra.
